(** * The trace stream reader of trace.c

    A shallow embedding of [src/trace.c]: the ring-buffer based tracing
    information store, its k-way chronological merge across the per-CPU
    buffers ([__find_next_entry]), the wait protocol ([trace_wait_pipe]),
    the line formatting loop of [trace_read_pipe], the event-class lookup
    ([find_print_event]) and the start-up and tear-down hooks
    ([print_event_init], [print_event_exit]).

    Integers of the C code are [Z]; an unsigned field that is only compared
    or copied is carried without wrap-around, and where a conversion can
    change the value it is written out.  The kernel objects the file works
    on (the ring buffer, [struct trace_seq], the proc tree) are modelled by
    the state the functions of trace.c can observe through their interface. *)

From Stdlib Require Import ZArith List String Ascii Lia Bool DecimalString Sorted.
From stdpp Require Import base list.

Open Scope Z_scope.

(** ** Records and the ring buffer store *)

(** Modelled from the spec: [struct print_event_entry] is declared in
    trace.h, which is not among the sources.  The specification gives a
    record an unsigned [id] of at most 16 bits and an opaque payload;
    trace.c itself reads nothing but [entry->id].  The id is unsigned, hence
    [N]; the time stamp is kept by the ring buffer, next to the entry. *)
Record print_event_entry := {
  ent_id : N;
  ent_data : list Z
}.

(** The kernel's ring buffer, as far as trace.c sees it through
    [ring_buffer_empty_cpu], [ring_buffer_peek] and [ring_buffer_consume].

    One event of a per-CPU buffer: the entry and the time stamp the ring
    buffer attached when the event was written. *)
Record ring_buffer_event := {
  rbe_ts : Z;
  rbe_data : print_event_entry
}.

(** One per-CPU buffer: the unconsumed events, oldest first, and the number
    of events lost to overwrite since the last consume on this CPU. *)
Record ring_buffer_per_cpu := {
  cpu_events : list ring_buffer_event;
  cpu_lost_events : Z
}.

(** [struct ring_buffer]: the per-CPU buffers, indexed by CPU number. *)
Abbreviation ring_buffer := (list ring_buffer_per_cpu).

Definition rb_cpu (buffer : ring_buffer) (cpu : Z) : option ring_buffer_per_cpu :=
  if cpu <? 0 then None else buffer !! Z.to_nat cpu.

(** [for_each_possible_cpu]: the CPU numbers in increasing order. *)
Definition possible_cpus (buffer : ring_buffer) : list Z :=
  map Z.of_nat (seq 0 (length buffer)).

(** [ring_buffer_empty_cpu]: true for a CPU the buffer does not have. *)
Definition ring_buffer_empty_cpu (buffer : ring_buffer) (cpu : Z) : bool :=
  match rb_cpu buffer cpu with
  | Some b => match cpu_events b with [] => true | _ :: _ => false end
  | None => true
  end.

(** [ring_buffer_peek]: the oldest event of [cpu], its time stamp and the
    lost-event count of that CPU; nothing is removed. *)
Definition ring_buffer_peek (buffer : ring_buffer) (cpu : Z)
  : option (ring_buffer_event * Z * Z) :=
  match rb_cpu buffer cpu with
  | Some b =>
      match cpu_events b with
      | e :: _ => Some (e, rbe_ts e, cpu_lost_events b)
      | [] => None
      end
  | None => None
  end.

(** [ring_buffer_consume]: removes the oldest event of [cpu], clears the
    lost-event count of that CPU and reports what [ring_buffer_peek] would. *)
Definition ring_buffer_consume (buffer : ring_buffer) (cpu : Z)
  : ring_buffer * option (ring_buffer_event * Z * Z) :=
  match rb_cpu buffer cpu with
  | Some b =>
      match cpu_events b with
      | e :: rest =>
          (<[Z.to_nat cpu := {| cpu_events := rest; cpu_lost_events := 0 |}]> buffer,
           Some (e, rbe_ts e, cpu_lost_events b))
      | [] => (buffer, None)
      end
  | None => (buffer, None)
  end.

(** ** The merge engine *)

Fixpoint is_trace_empty_from (buffer : ring_buffer) (cpus : list Z) : bool :=
  match cpus with
  | [] => true
  | cpu :: rest =>
      if negb (ring_buffer_empty_cpu buffer cpu) then false
      else is_trace_empty_from buffer rest
  end.

Definition is_trace_empty (buffer : ring_buffer) : bool :=
  is_trace_empty_from buffer (possible_cpus buffer).

Definition peek_next_entry (buffer : ring_buffer) (cpu : Z)
  : option (print_event_entry * Z * Z) :=
  match ring_buffer_peek buffer cpu with
  | Some (event, ts, lost_events) => Some (rbe_data event, ts, lost_events)
  | None => None
  end.

(** The locals [next], [next_cpu], [next_ts], [next_lost] of
    [__find_next_entry]. *)
Definition find_state : Type := option print_event_entry * Z * Z * Z.

(** One round of the [for_each_possible_cpu] loop of [__find_next_entry]. *)
Definition find_step (buffer : ring_buffer) (st : find_state) (cpu : Z) : find_state :=
  if ring_buffer_empty_cpu buffer cpu then st
  else
    match peek_next_entry buffer cpu with
    | Some (ent, ts, lost_events) =>
        let '(next, _, next_ts, _) := st in
        if negb (bool_decide (is_Some next)) || (ts <? next_ts)
        then (Some ent, cpu, ts, lost_events)
        else st
    | None => st
    end.

(** [__find_next_entry]: the entry, [*ent_cpu], [*ent_ts], [*missing_events]. *)
Definition __find_next_entry (buffer : ring_buffer) : find_state :=
  fold_left (find_step buffer) (possible_cpus buffer) (None, -1, 0, 0).

(** The oldest unconsumed event of a CPU. *)
Definition oldest (buffer : ring_buffer) (cpu : Z) : option ring_buffer_event :=
  match rb_cpu buffer cpu with
  | Some b => head (cpu_events b)
  | None => None
  end.

Definition lost_of (buffer : ring_buffer) (cpu : Z) : Z :=
  match rb_cpu buffer cpu with
  | Some b => cpu_lost_events b
  | None => 0
  end.

(** The peek-then-consume cycle of the read loop, without the formatting:
    the events in the order in which repeated reads take them out. *)
Fixpoint drain (n : nat) (buffer : ring_buffer) : list (Z * Z * print_event_entry) :=
  match n with
  | O => []
  | S n' =>
      match __find_next_entry buffer with
      | (Some ent, cpu, ts, _) =>
          (cpu, ts, ent) :: drain n' (fst (ring_buffer_consume buffer cpu))
      | (None, _, _, _) => []
      end
  end.

(** The store after [n] peek-then-consume cycles. *)
Fixpoint after_drain (n : nat) (buffer : ring_buffer) : ring_buffer :=
  match n with
  | O => buffer
  | S n' =>
      match __find_next_entry buffer with
      | (Some _, cpu, _, _) => after_drain n' (fst (ring_buffer_consume buffer cpu))
      | (None, _, _, _) => buffer
      end
  end.

Definition total_events (buffer : ring_buffer) : nat :=
  list_sum (map (fun b => length (cpu_events b)) buffer).

(** Time stamps within one CPU never decrease: the ring buffer stores them
    as non-negative deltas from the previous event of that CPU. *)
Definition per_cpu_sorted (buffer : ring_buffer) : Prop :=
  Forall (fun b => Sorted Z.le (map rbe_ts (cpu_events b))) buffer.

(** ** errno values, flags and sizes the file uses *)

Definition EAGAIN : Z := 11.
Definition ENOMEM : Z := 12.
Definition EFAULT : Z := 14.
Definition EBUSY : Z := 16.
Definition ENODEV : Z := 19.
Definition EINVAL : Z := 22.

(** [O_NONBLOCK] of asm-generic/fcntl.h (octal 04000). *)
Definition O_NONBLOCK : Z := 2048.

Definition PAGE_SIZE : Z := 4096.

(** The largest count [vfs_read] hands to a [read] method
    ([INT_MAX & PAGE_MASK]); within it the conversion of [cnt] to the [int]
    parameter of [trace_seq_to_user] keeps the value. *)
Definition MAX_RW_COUNT : Z := 2147483647 - 4095.

Definition read_count_ok (cnt : Z) : Prop := 0 <= cnt <= MAX_RW_COUNT.

(** ** [struct trace_seq]: the bounded output buffer of a session

    The helpers of the kernel's lib/seq_buf.c and kernel/trace/trace_seq.c
    that trace.c calls, as the 4.x kernels the file is written against
    define them. *)

Record seq_buf := {
  sb_size : Z;
  sb_len : Z;
  sb_readpos : Z
}.

(** [ts_buffer] is the array [buffer[PAGE_SIZE]]; [seq.buffer] always points
    at it, so the pointer is not kept. *)
Record trace_seq := {
  ts_buffer : list ascii;
  ts_seq : seq_buf;
  ts_full : bool
}.

Definition seq_buf_clear (s : seq_buf) : seq_buf :=
  {| sb_size := sb_size s; sb_len := 0; sb_readpos := 0 |}.

Definition seq_buf_init (size : Z) : seq_buf :=
  seq_buf_clear {| sb_size := size; sb_len := 0; sb_readpos := 0 |}.

Definition trace_seq_init (s : trace_seq) : trace_seq :=
  {| ts_buffer := ts_buffer s; ts_seq := seq_buf_init PAGE_SIZE; ts_full := false |}.

Definition __trace_seq_init (s : trace_seq) : trace_seq :=
  if sb_size (ts_seq s) =? 0 then trace_seq_init s else s.

Definition seq_buf_has_overflowed (s : seq_buf) : bool := sb_size s <? sb_len s.

Definition seq_buf_used (s : seq_buf) : Z := Z.min (sb_len s) (sb_size s).

Definition seq_buf_set_overflow (s : seq_buf) : seq_buf :=
  {| sb_size := sb_size s; sb_len := sb_size s + 1; sb_readpos := sb_readpos s |}.

Definition trace_seq_has_overflowed (s : trace_seq) : bool :=
  ts_full s || seq_buf_has_overflowed (ts_seq s).

Definition trace_seq_used (s : trace_seq) : Z := seq_buf_used (ts_seq s).

Definition set_len (s : trace_seq) (len : Z) : trace_seq :=
  {| ts_buffer := ts_buffer s;
     ts_seq := {| sb_size := sb_size (ts_seq s); sb_len := len;
                  sb_readpos := sb_readpos (ts_seq s) |};
     ts_full := ts_full s |}.

(** The text a session holds: the first [len] bytes of the array. *)
Definition seq_text (s : trace_seq) : list ascii :=
  take (Z.to_nat (sb_len (ts_seq s))) (ts_buffer s).

(** Storing [bytes] at offset [off] of an array. *)
Definition write_at (off : Z) (bytes buf : list ascii) : list ascii :=
  take (Z.to_nat off) buf ++ bytes ++ drop (Z.to_nat off + length bytes)%nat buf.

(** [vsnprintf(buf + off, avail, ...)] for the expanded text [text]: stores at
    most [avail - 1] characters and the terminating NUL, returns the length
    of the whole text. *)
Definition vsnprintf (buf : list ascii) (off avail : Z) (text : list ascii)
  : list ascii * Z :=
  if avail <=? 0 then (buf, Z.of_nat (length text))
  else (write_at off (take (Z.to_nat (avail - 1)) text ++ [zero]) buf,
        Z.of_nat (length text)).

(** [seq_buf_vprintf] on the array of the enclosing [trace_seq]. *)
Definition seq_buf_vprintf (buf : list ascii) (s : seq_buf) (text : list ascii)
  : list ascii * seq_buf * Z :=
  if sb_len s <? sb_size s then
    let '(buf', len) := vsnprintf buf (sb_len s) (sb_size s - sb_len s) text in
    if sb_len s + len <? sb_size s then
      (buf', {| sb_size := sb_size s; sb_len := sb_len s + len;
                sb_readpos := sb_readpos s |}, 0)
    else (buf', seq_buf_set_overflow s, -1)
  else (buf, seq_buf_set_overflow s, -1).

(** [trace_seq_printf]: all of the text or none of it. *)
Definition trace_seq_printf (s : trace_seq) (text : list ascii) : trace_seq :=
  let save_len := sb_len (ts_seq s) in
  if ts_full s then s
  else
    let s := __trace_seq_init s in
    let '(buf', sb', _) := seq_buf_vprintf (ts_buffer s) (ts_seq s) text in
    if seq_buf_has_overflowed sb' then
      {| ts_buffer := buf';
         ts_seq := {| sb_size := sb_size sb'; sb_len := save_len;
                      sb_readpos := sb_readpos sb' |};
         ts_full := true |}
    else {| ts_buffer := buf'; ts_seq := sb'; ts_full := ts_full s |}.

(** [enum print_line_t] *)
Inductive print_line_t :=
| TRACE_TYPE_PARTIAL_LINE
| TRACE_TYPE_NO_CONSUME
| TRACE_TYPE_HANDLED
| TRACE_TYPE_UNHANDLED.

Definition print_line_t_eqb (a b : print_line_t) : bool :=
  match a, b with
  | TRACE_TYPE_PARTIAL_LINE, TRACE_TYPE_PARTIAL_LINE
  | TRACE_TYPE_NO_CONSUME, TRACE_TYPE_NO_CONSUME
  | TRACE_TYPE_HANDLED, TRACE_TYPE_HANDLED
  | TRACE_TYPE_UNHANDLED, TRACE_TYPE_UNHANDLED => true
  | _, _ => false
  end.

Definition trace_handle_return (s : trace_seq) : print_line_t :=
  if trace_seq_has_overflowed s then TRACE_TYPE_PARTIAL_LINE else TRACE_TYPE_HANDLED.

(** [copy_to_user(ubuf, src, n)] returns the number of bytes it could not
    copy; [ubuf_ok] is the number of writable bytes at [ubuf]. *)
Definition copy_to_user (ubuf_ok n : Z) : Z := n - Z.min n (Z.max 0 ubuf_ok).

(** [seq_buf_to_user]: the sequence, the return value and the bytes that
    reached the user buffer. *)
Definition seq_buf_to_user (buf : list ascii) (s : seq_buf) (ubuf_ok cnt : Z)
  : seq_buf * Z * list ascii :=
  if cnt =? 0 then (s, 0, [])
  else
    let len := seq_buf_used s in
    if len <=? sb_readpos s then (s, - EBUSY, [])
    else
      let len := len - sb_readpos s in
      let cnt := if len <? cnt then len else cnt in
      let ret := copy_to_user ubuf_ok cnt in
      if ret =? cnt then (s, - EFAULT, [])
      else
        let cnt := cnt - ret in
        ({| sb_size := sb_size s; sb_len := sb_len s;
            sb_readpos := sb_readpos s + cnt |},
         cnt,
         take (Z.to_nat cnt) (drop (Z.to_nat (sb_readpos s)) buf)).

Definition trace_seq_to_user (s : trace_seq) (ubuf_ok cnt : Z)
  : trace_seq * Z * list ascii :=
  let s := __trace_seq_init s in
  let '(sb', ret, out) := seq_buf_to_user (ts_buffer s) (ts_seq s) ubuf_ok cnt in
  ({| ts_buffer := ts_buffer s; ts_seq := sb'; ts_full := ts_full s |}, ret, out).

(** ** Event classes *)

(** Modelled from the spec: the [format] method of a class,
    [fn(output, Record) -> LineResult].  The methods are defined outside
    trace.c; the reader only relies on their writing to the [trace_seq] they
    are handed and on the [print_line_t] they return, so a method is any
    function of that type. *)
Definition format_fn : Type := trace_seq -> print_event_entry -> trace_seq * print_line_t.

(** Modelled from the spec: [struct print_event_class] is declared in
    trace.h, which is not among the sources; trace.c uses its members [id],
    [format] and [buffer].  [cls_buffer] is the address of the store the
    class is bound to, [None] for a NULL pointer. *)
Record print_event_class := {
  cls_id : Z;
  cls_format : format_fn;
  cls_buffer : option Z
}.

(** The array [__start_print_event_class .. __stop_print_event_class] the
    linker script collects. *)
Abbreviation class_table := (list print_event_class).

Definition num_print_event_class (classes : class_table) : Z :=
  Z.of_nat (length classes).

(** [find_print_event].  The argument is the unsigned [id] field of an entry
    promoted to [int], hence not negative; the C code has no lower bound
    check, and the embedding gives no class below zero. *)
Definition find_print_event (classes : class_table) (id : Z) : option print_event_class :=
  if id <? num_print_event_class classes then
    if id <? 0 then None else classes !! Z.to_nat id
  else None.

(** The text ["Unknown id %d\n"] expands to. *)
Definition unknown_id_line (id : Z) : list ascii :=
  list_ascii_of_string
    (String.append "Unknown id "
       (String.append (NilZero.string_of_int (Z.to_int id))
          (String (ascii_of_nat 10) EmptyString))).

(** ** The session *)

(** [struct print_event_iterator] without its mutex; [buffer] is the one
    shared store, passed next to the iterator. *)
Record print_event_iterator := {
  it_seq : trace_seq;
  it_ent : option print_event_entry;
  it_lost_events : Z;
  it_cpu : Z;
  it_ts : Z
}.

Definition set_seq (iter : print_event_iterator) (s : trace_seq) : print_event_iterator :=
  {| it_seq := s; it_ent := it_ent iter; it_lost_events := it_lost_events iter;
     it_cpu := it_cpu iter; it_ts := it_ts iter |}.

(** A zero-filled [trace_seq], as [kzalloc] and the [memset] of
    [trace_read_pipe] leave it. *)
Definition zero_seq : trace_seq :=
  {| ts_buffer := repeat zero (Z.to_nat PAGE_SIZE);
     ts_seq := {| sb_size := 0; sb_len := 0; sb_readpos := 0 |};
     ts_full := false |}.

(** The iterator [trace_open_pipe] builds. *)
Definition trace_open_pipe : print_event_iterator :=
  {| it_seq := trace_seq_init zero_seq; it_ent := None; it_lost_events := 0;
     it_cpu := 0; it_ts := 0 |}.

Definition trace_next_entry_inc (iter : print_event_iterator) (buffer : ring_buffer)
  : print_event_iterator :=
  let '(next, next_cpu, next_ts, next_lost) := __find_next_entry buffer in
  {| it_seq := it_seq iter; it_ent := next; it_lost_events := next_lost;
     it_cpu := next_cpu; it_ts := next_ts |}.

(** [print_trace_fmt_line]; [entry] is [iter->ent], which the caller has
    checked to be non-NULL. *)
Definition print_trace_fmt_line (classes : class_table) (iter : print_event_iterator)
    (entry : print_event_entry) : trace_seq * print_line_t :=
  let seq := it_seq iter in
  let class := find_print_event classes (Z.of_N (ent_id entry)) in
  if trace_seq_has_overflowed seq then (seq, TRACE_TYPE_PARTIAL_LINE)
  else
    match class with
    | Some c => cls_format c seq entry
    | None =>
        let seq := trace_seq_printf seq (unknown_id_line (Z.of_N (ent_id entry))) in
        (seq, trace_handle_return seq)
    end.

(** The call [ring_buffer_consume(iter->buffer, iter->cpu, &iter->ts,
    &iter->lost_events)]. *)
Definition consume_current (iter : print_event_iterator) (buffer : ring_buffer)
  : print_event_iterator * ring_buffer :=
  match ring_buffer_consume buffer (it_cpu iter) with
  | (buffer', Some (_, ts, lost_events)) =>
      ({| it_seq := it_seq iter; it_ent := it_ent iter;
          it_lost_events := lost_events; it_cpu := it_cpu iter; it_ts := ts |},
       buffer')
  | (buffer', None) => (iter, buffer')
  end.

(** How one round of the [while] loop of [trace_read_pipe] ends. *)
Inductive round_end := LoopBreak | LoopAgain.

(** One round of [while (trace_next_entry_inc(iter) != NULL)], the test of
    the loop condition included. *)
Definition format_round (classes : class_table) (cnt : Z)
    (iter : print_event_iterator) (buffer : ring_buffer)
  : print_event_iterator * ring_buffer * round_end :=
  let iter := trace_next_entry_inc iter buffer in
  match it_ent iter with
  | None => (iter, buffer, LoopBreak)
  | Some entry =>
      let save_len := sb_len (ts_seq (it_seq iter)) in
      let '(seq', ret) := print_trace_fmt_line classes iter entry in
      let iter := set_seq iter seq' in
      if print_line_t_eqb ret TRACE_TYPE_PARTIAL_LINE then
        (* don't print partial lines *)
        (set_seq iter (set_len (it_seq iter) save_len), buffer, LoopBreak)
      else
        let '(iter, buffer) :=
          if negb (print_line_t_eqb ret TRACE_TYPE_NO_CONSUME)
          then consume_current iter buffer
          else (iter, buffer) in
        if cnt <=? trace_seq_used (it_seq iter) then (iter, buffer, LoopBreak)
        else (iter, buffer, LoopAgain)   (* WARN_ONCE only logs *)
  end.

(** The [while] loop; [None] when [fuel] further rounds did not end it. *)
Fixpoint format_loop (fuel : nat) (classes : class_table) (cnt : Z)
    (iter : print_event_iterator) (buffer : ring_buffer)
  : option (print_event_iterator * ring_buffer) :=
  match format_round classes cnt iter buffer with
  | (iter', buffer', LoopBreak) => Some (iter', buffer')
  | (iter', buffer', LoopAgain) =>
      match fuel with
      | O => None
      | S fuel' => format_loop fuel' classes cnt iter' buffer'
      end
  end.

(** ** Waiting and the calling context *)

(** One return of [ring_buffer_waiting]: its value, the store as the
    producers left it meanwhile, and whether a fatal signal is pending on
    the caller afterwards. *)
Record wake := {
  wake_ret : Z;
  wake_buffer : ring_buffer;
  wake_signal : bool
}.

(** What a read call runs against: the shared store, [fatal_signal_pending
    (current)], the returns [ring_buffer_waiting] is going to make (when
    none is left the call sleeps for good) and the number of times the call
    has entered [ring_buffer_waiting]. *)
Record world := {
  w_buffer : ring_buffer;
  w_signal : bool;
  w_future : list wake;
  w_waits : nat
}.

Definition nonblocking (f_flags : Z) : bool := negb (Z.land f_flags O_NONBLOCK =? 0).

(** [trace_wait_pipe]; [None] when the call never comes back from
    [ring_buffer_waiting]. *)
Fixpoint trace_wait_pipe (f_flags : Z) (buffer : ring_buffer) (signal : bool)
    (waits : nat) (future : list wake) : option (Z * world) :=
  if is_trace_empty buffer then
    if nonblocking f_flags then
      Some (- EAGAIN, {| w_buffer := buffer; w_signal := signal;
                         w_future := future; w_waits := waits |})
    else
      match future with
      | [] => None
      | wk :: rest =>
          if negb (wake_ret wk =? 0) then
            Some (wake_ret wk,
                  {| w_buffer := wake_buffer wk; w_signal := wake_signal wk;
                     w_future := rest; w_waits := S waits |})
          else trace_wait_pipe f_flags (wake_buffer wk) (wake_signal wk) (S waits) rest
      end
  else
    Some (1, {| w_buffer := buffer; w_signal := signal;
                w_future := future; w_waits := waits |}).

(** ** [trace_read_pipe] *)

Inductive outcome :=
| Returns (sret : Z)     (* the call returns [sret] *)
| Sleeps                 (* the call stays in [ring_buffer_waiting] *)
| OutOfFuel.             (* the loops did not end within the fuel given *)

Record read_result := {
  rr_outcome : outcome;
  rr_user : list ascii;         (* the bytes stored in the user buffer *)
  rr_iter : print_event_iterator;
  rr_world : world
}.

(** The [memset] of the iterator from [seq] on, followed by
    [trace_seq_init]. *)
Definition reset_iter : print_event_iterator :=
  {| it_seq := trace_seq_init zero_seq; it_ent := None; it_lost_events := 0;
     it_cpu := 0; it_ts := 0 |}.

(** The code from the label [waitagain] on.  [sret] is the value the
    variable holds on arrival at the label, [fuel] bounds the rounds of the
    format loop and the number of times [goto waitagain] is taken. *)
Fixpoint waitagain (fuel : nat) (classes : class_table) (f_flags ubuf_ok cnt sret : Z)
    (iter : print_event_iterator) (w : world) : read_result :=
  if w_signal w then
    {| rr_outcome := Returns sret; rr_user := []; rr_iter := iter; rr_world := w |}
  else
    match trace_wait_pipe f_flags (w_buffer w) (w_signal w) (w_waits w) (w_future w) with
    | None =>
        {| rr_outcome := Sleeps; rr_user := []; rr_iter := iter; rr_world := w |}
    | Some (sret, w) =>
        if sret <=? 0 then
          {| rr_outcome := Returns sret; rr_user := []; rr_iter := iter; rr_world := w |}
        else if is_trace_empty (w_buffer w) then
          (* stop when tracing is finished *)
          {| rr_outcome := Returns 0; rr_user := []; rr_iter := iter; rr_world := w |}
        else
          let cnt := if PAGE_SIZE <=? cnt then PAGE_SIZE - 1 else cnt in
          let iter := reset_iter in
          match format_loop fuel classes cnt iter (w_buffer w) with
          | None =>
              {| rr_outcome := OutOfFuel; rr_user := []; rr_iter := iter; rr_world := w |}
          | Some (iter, buffer) =>
              let w := {| w_buffer := buffer; w_signal := w_signal w;
                          w_future := w_future w; w_waits := w_waits w |} in
              (* Now copy what we have to the user *)
              let '(seq, sret, out) := trace_seq_to_user (it_seq iter) ubuf_ok cnt in
              let seq :=
                if trace_seq_used seq <=? sb_readpos (ts_seq seq)
                then trace_seq_init seq else seq in
              let iter := set_seq iter seq in
              if sret =? - EBUSY then
                match fuel with
                | O => {| rr_outcome := OutOfFuel; rr_user := []; rr_iter := iter;
                          rr_world := w |}
                | S fuel' => waitagain fuel' classes f_flags ubuf_ok cnt sret iter w
                end
              else
                {| rr_outcome := Returns sret; rr_user := out; rr_iter := iter;
                   rr_world := w |}
          end
    end.

(** [trace_read_pipe(filp, ubuf, cnt, ppos)]: [f_flags] is [filp->f_flags],
    [ubuf_ok] the number of writable bytes at [ubuf], [iter] the session in
    [filp->private_data].  Both mutexes are taken and released around the
    code as in the source; one call runs at a time here. *)
Definition trace_read_pipe (fuel : nat) (classes : class_table) (f_flags ubuf_ok cnt : Z)
    (iter : print_event_iterator) (w : world) : read_result :=
  let '(seq, sret, out) := trace_seq_to_user (it_seq iter) ubuf_ok cnt in
  let iter := set_seq iter seq in
  if negb (sret =? - EBUSY) then
    {| rr_outcome := Returns sret; rr_user := out; rr_iter := iter; rr_world := w |}
  else
    let iter := set_seq iter (trace_seq_init (it_seq iter)) in
    waitagain fuel classes f_flags ubuf_ok cnt sret iter w.

(** ** Start-up and tear-down *)

(** [PRINT_EVENT_ID_MAX]: [id_size] is [sizeof] of the [id] field of
    [struct print_event_entry], which trace.h declares; it is a parameter
    here (1 for the 8-bit id of the specification's example).  The shift is
    done in [int], so the macro is meaningful for [id_size] up to 3. *)
Definition PRINT_EVENT_ID_MAX (id_size : Z) : Z := Z.shiftl 1 (id_size * 8) - 1.

(** What the kernel does on behalf of the hooks, in the order it happens. *)
Inductive action :=
| KallsymsLookup
| RingBufferAlloc
| ProcMkdir
| ProcCreateData
| AssignClass (id : Z)          (* [class->id = id; class->buffer = ring_buffer] *)
| RemoveProcSubtree
| Kfree
| RingBufferFree.

Definition action_eqb (a b : action) : bool :=
  match a, b with
  | KallsymsLookup, KallsymsLookup
  | RingBufferAlloc, RingBufferAlloc
  | ProcMkdir, ProcMkdir
  | ProcCreateData, ProcCreateData
  | RemoveProcSubtree, RemoveProcSubtree
  | Kfree, Kfree
  | RingBufferFree, RingBufferFree => true
  | AssignClass i, AssignClass j => i =? j
  | _, _ => false
  end.

(** The module's statics and the kernel objects the hooks create. *)
Record kernel := {
  k_classes : class_table;            (* the structs the class array points to *)
  k_ring_buffer : option Z;           (* [static struct ring_buffer *ring_buffer] *)
  k_ring_buffer_waiting : bool;       (* [ring_buffer_waiting] is non-NULL *)
  k_store_struct : bool;              (* the [struct ring_buffer] is allocated *)
  k_store_cpu_buffers : bool;         (* its per-CPU buffers and pages are allocated *)
  k_proc_dir : bool;                  (* /proc/tracing exists *)
  k_proc_pipe : option Z;             (* /proc/tracing/trace_pipe and its data pointer *)
  k_log : list action
}.

(** What the kernel answers during start-up. *)
Record init_env := {
  env_symbol : bool;                  (* [kallsyms_lookup_name] finds ring_buffer_wait *)
  env_alloc : option Z;               (* the address [ring_buffer_alloc] returns *)
  env_mkdir : bool;                   (* [proc_mkdir] succeeds *)
  env_create : bool                   (* [proc_create_data] succeeds *)
}.

Definition do_log (a : action) (k : kernel) : kernel :=
  {| k_classes := k_classes k; k_ring_buffer := k_ring_buffer k;
     k_ring_buffer_waiting := k_ring_buffer_waiting k;
     k_store_struct := k_store_struct k;
     k_store_cpu_buffers := k_store_cpu_buffers k;
     k_proc_dir := k_proc_dir k; k_proc_pipe := k_proc_pipe k;
     k_log := k_log k ++ [a] |}.

(** [kallsyms_lookup_symbols]: zero on success. *)
Definition kallsyms_lookup_symbols (env : init_env) (k : kernel) : Z * kernel :=
  let k := do_log KallsymsLookup k in
  (if env_symbol env then 0 else - ENODEV,
   {| k_classes := k_classes k; k_ring_buffer := k_ring_buffer k;
      k_ring_buffer_waiting := env_symbol env;
      k_store_struct := k_store_struct k;
      k_store_cpu_buffers := k_store_cpu_buffers k;
      k_proc_dir := k_proc_dir k; k_proc_pipe := k_proc_pipe k;
      k_log := k_log k |}).

(** [ring_buffer = ring_buffer_alloc(RB_BUFFER_SIZE, RB_FL_OVERWRITE)] *)
Definition ring_buffer_alloc (env : init_env) (k : kernel) : kernel :=
  let k := do_log RingBufferAlloc k in
  let ok := bool_decide (is_Some (env_alloc env)) in
  {| k_classes := k_classes k; k_ring_buffer := env_alloc env;
     k_ring_buffer_waiting := k_ring_buffer_waiting k;
     k_store_struct := ok || k_store_struct k;
     k_store_cpu_buffers := ok || k_store_cpu_buffers k;
     k_proc_dir := k_proc_dir k; k_proc_pipe := k_proc_pipe k;
     k_log := k_log k |}.

(** [proc_mkdir(PROC_NAME, NULL)]: whether a directory came back. *)
Definition proc_mkdir (env : init_env) (k : kernel) : bool * kernel :=
  let k := do_log ProcMkdir k in
  (env_mkdir env,
   {| k_classes := k_classes k; k_ring_buffer := k_ring_buffer k;
      k_ring_buffer_waiting := k_ring_buffer_waiting k;
      k_store_struct := k_store_struct k;
      k_store_cpu_buffers := k_store_cpu_buffers k;
      k_proc_dir := env_mkdir env || k_proc_dir k; k_proc_pipe := k_proc_pipe k;
      k_log := k_log k |}).

(** [proc_create_data("trace_pipe", S_IRUSR, parent_dir, &trace_pipe_fops,
    ring_buffer)] *)
Definition proc_create_data (env : init_env) (k : kernel) : bool * kernel :=
  let k := do_log ProcCreateData k in
  (env_create env,
   {| k_classes := k_classes k; k_ring_buffer := k_ring_buffer k;
      k_ring_buffer_waiting := k_ring_buffer_waiting k;
      k_store_struct := k_store_struct k;
      k_store_cpu_buffers := k_store_cpu_buffers k;
      k_proc_dir := k_proc_dir k;
      k_proc_pipe := if env_create env then k_ring_buffer k else k_proc_pipe k;
      k_log := k_log k |}).

(** [remove_proc_subtree(PROC_NAME, NULL)] *)
Definition remove_proc_subtree (k : kernel) : kernel :=
  let k := do_log RemoveProcSubtree k in
  {| k_classes := k_classes k; k_ring_buffer := k_ring_buffer k;
     k_ring_buffer_waiting := k_ring_buffer_waiting k;
     k_store_struct := k_store_struct k;
     k_store_cpu_buffers := k_store_cpu_buffers k;
     k_proc_dir := false; k_proc_pipe := None;
     k_log := k_log k |}.

(** [kfree(ring_buffer)]: releases the block the pointer names, that is the
    [struct ring_buffer] alone. *)
Definition kfree_ring_buffer (k : kernel) : kernel :=
  let k := do_log Kfree k in
  {| k_classes := k_classes k; k_ring_buffer := k_ring_buffer k;
     k_ring_buffer_waiting := k_ring_buffer_waiting k;
     k_store_struct := false;
     k_store_cpu_buffers := k_store_cpu_buffers k;
     k_proc_dir := k_proc_dir k; k_proc_pipe := k_proc_pipe k;
     k_log := k_log k |}.

(** [ring_buffer_free(ring_buffer)]: releases the per-CPU buffers and the
    struct. *)
Definition ring_buffer_free (k : kernel) : kernel :=
  let k := do_log RingBufferFree k in
  {| k_classes := k_classes k; k_ring_buffer := k_ring_buffer k;
     k_ring_buffer_waiting := k_ring_buffer_waiting k;
     k_store_struct := false;
     k_store_cpu_buffers := false;
     k_proc_dir := k_proc_dir k; k_proc_pipe := k_proc_pipe k;
     k_log := k_log k |}.

(** The loop over the class array of [print_event_init], from the class
    that gets [id] on.  The [id] member of a class has the type of the [id]
    of an entry, so the assignment keeps the low [8 * id_size] bits. *)
Fixpoint assign_classes (id_size : Z) (ring_buffer : option Z) (id : Z)
    (classes : class_table) : class_table :=
  match classes with
  | [] => []
  | class :: rest =>
      {| cls_id := id mod 2 ^ (8 * id_size); cls_format := cls_format class;
         cls_buffer := ring_buffer |}
      :: assign_classes id_size ring_buffer (id + 1) rest
  end.

Fixpoint assign_log (id_size : Z) (id : Z) (classes : class_table) : list action :=
  match classes with
  | [] => []
  | _ :: rest => AssignClass (id mod 2 ^ (8 * id_size)) :: assign_log id_size (id + 1) rest
  end.

Definition register_classes (id_size : Z) (k : kernel) : kernel :=
  {| k_classes := assign_classes id_size (k_ring_buffer k) 0 (k_classes k);
     k_ring_buffer := k_ring_buffer k;
     k_ring_buffer_waiting := k_ring_buffer_waiting k;
     k_store_struct := k_store_struct k;
     k_store_cpu_buffers := k_store_cpu_buffers k;
     k_proc_dir := k_proc_dir k; k_proc_pipe := k_proc_pipe k;
     k_log := k_log k ++ assign_log id_size 0 (k_classes k) |}.

(** [print_event_init]: the return value and the state it leaves. *)
Definition print_event_init (id_size : Z) (env : init_env) (k : kernel) : Z * kernel :=
  let num_class := num_print_event_class (k_classes k) in
  if num_class =? 0 then (0, k)
  else if PRINT_EVENT_ID_MAX id_size <=? num_class then (- EINVAL, k)
  else
    let '(err, k) := kallsyms_lookup_symbols env k in
    if negb (err =? 0) then (- ENODEV, k)
    else
      let k := ring_buffer_alloc env k in
      match k_ring_buffer k with
      | None => (- ENOMEM, k)
      | Some _ =>
          let '(parent_dir, k) := proc_mkdir env k in
          if negb parent_dir then
            (* free: *)
            (- ENOMEM, kfree_ring_buffer k)
          else
            let '(created, k) := proc_create_data env k in
            if negb created then
              (* remove_proc: free: *)
              (- ENOMEM, kfree_ring_buffer (remove_proc_subtree k))
            else (0, register_classes id_size k)
      end.

(** [print_event_exit] *)
Definition print_event_exit (k : kernel) : kernel :=
  let num_class := num_print_event_class (k_classes k) in
  if num_class =? 0 then k
  else ring_buffer_free (remove_proc_subtree k).

(** The place of the first occurrence of an action in a log. *)
Fixpoint position (a : action) (log : list action) : option nat :=
  match log with
  | [] => None
  | b :: rest =>
      if action_eqb a b then Some O
      else match position a rest with Some n => Some (S n) | None => None end
  end.

(** Both actions happened, [a] before [b]. *)
Definition happens_before (a b : action) (log : list action) : bool :=
  match position a log, position b log with
  | Some i, Some j => (i <? j)%nat
  | _, _ => false
  end.

(** ** Predicates the properties are stated with *)

(** What the locals of [__find_next_entry] hold once the CPUs below [k]
    have been looked at. *)
Definition find_inv (buffer : ring_buffer) (k : Z) (st : find_state) : Prop :=
  match st with
  | (None, next_cpu, next_ts, next_lost) =>
      next_cpu = -1 /\ next_ts = 0 /\ next_lost = 0 /\
      forall cpu, 0 <= cpu < k -> oldest buffer cpu = None
  | (Some ent, next_cpu, next_ts, next_lost) =>
      0 <= next_cpu < k /\
      exists e, oldest buffer next_cpu = Some e /\ ent = rbe_data e /\
                next_ts = rbe_ts e /\ next_lost = lost_of buffer next_cpu /\
                forall cpu e', 0 <= cpu < k -> oldest buffer cpu = Some e' ->
                  rbe_ts e <= rbe_ts e' /\ (rbe_ts e' = rbe_ts e -> next_cpu <= cpu)
  end.

(** The time stamp of a drained event. *)
Definition drained_ts (x : Z * Z * print_event_entry) : Z := snd (fst x).

(** The state of a [trace_seq] between two calls of the functions above:
    initialised, and its length within the array. *)
Definition seq_ok (s : trace_seq) : Prop :=
  sb_size (ts_seq s) = PAGE_SIZE /\
  0 <= sb_len (ts_seq s) <= Z.of_nat (length (ts_buffer s)).

(** The text fits behind what the sequence holds. *)
Definition has_room (s : trace_seq) (text : list ascii) : Prop :=
  trace_seq_has_overflowed s = false /\
  sb_len (ts_seq s) + Z.of_nat (length text) < sb_size (ts_seq s).

(** The session still holds text [trace_seq_to_user] has not handed out. *)
Definition unflushed (s : trace_seq) : bool :=
  let s := __trace_seq_init s in
  sb_readpos (ts_seq s) <? trace_seq_used s.


(** A sequence that is initialised and holds less than a page. *)
Definition within_page (s : trace_seq) : Prop :=
  sb_size (ts_seq s) = PAGE_SIZE /\ sb_len (ts_seq s) < PAGE_SIZE.

(** A class whose [format] method keeps the sequence within the page, as
    a method written on [trace_seq_printf] does; one written on
    [trace_seq_puts] need not, see [block_class]. *)
Definition class_within_page (c : print_event_class) : Prop :=
  forall s e, within_page s -> within_page (fst (cls_format c s e)).

(** Nothing of the module is published. *)
Definition unpublished (k : kernel) : Prop :=
  k_proc_dir k = false /\ k_proc_pipe k = None.

(** ** Sample data for the examples *)

(** A [format] method written the way [print_trace_fmt_line] writes its
    fallback line: one [trace_seq_printf], then [trace_handle_return]. *)
Definition printf_format (render : print_event_entry -> list ascii) : format_fn :=
  fun s e =>
    let s := trace_seq_printf s (render e) in
    (s, trace_handle_return s).

Definition sample_class : print_event_class :=
  {| cls_id := 0;
     cls_format := printf_format (fun _ => list_ascii_of_string "event");
     cls_buffer := Some 1 |}.

Definition sample_entry (id : N) : print_event_entry :=
  {| ent_id := id; ent_data := [] |}.

Definition sample_event (ts : Z) (id : N) : ring_buffer_event :=
  {| rbe_ts := ts; rbe_data := sample_entry id |}.

(** One CPU holding one record of the unregistered class 7. *)
Definition one_record_store : ring_buffer :=
  [ {| cpu_events := [sample_event 1 7]; cpu_lost_events := 0 |} ].

(** The scenario of the specification: two CPUs, records appended as
    (cpu0, ts 5, id 1), (cpu1, ts 3, id 2), (cpu0, ts 7, id 1). *)
Definition two_cpu_store : ring_buffer :=
  [ {| cpu_events := [sample_event 5 1; sample_event 7 1]; cpu_lost_events := 0 |};
    {| cpu_events := [sample_event 3 2]; cpu_lost_events := 0 |} ].

(** Two CPUs whose oldest records carry the same time stamp. *)
Definition tie_store : ring_buffer :=
  [ {| cpu_events := []; cpu_lost_events := 0 |};
    {| cpu_events := [sample_event 4 1]; cpu_lost_events := 2 |};
    {| cpu_events := [sample_event 4 2]; cpu_lost_events := 0 |} ].

Definition quiet_world (buffer : ring_buffer) (signal : bool) : world :=
  {| w_buffer := buffer; w_signal := signal; w_future := []; w_waits := 0 |}.

(** A first read of five bytes on [one_record_store] through a file with
    flags [f_flags]: it formats the thirteen bytes of the fallback line,
    consumes the record and hands out five bytes. *)
Definition first_read (f_flags : Z) : read_result :=
  trace_read_pipe 5 [sample_class] f_flags 100 5 trace_open_pipe
    (quiet_world one_record_store false).


(** A kernel in which every start-up step succeeds; the store comes to lie
    at address 1. *)
Definition good_env : init_env :=
  {| env_symbol := true; env_alloc := Some 1; env_mkdir := true; env_create := true |}.

(** The module before [print_event_init] ran, with the classes the linker
    collected. *)
Definition fresh_kernel (classes : class_table) : kernel :=
  {| k_classes := classes; k_ring_buffer := None; k_ring_buffer_waiting := false;
     k_store_struct := false; k_store_cpu_buffers := false;
     k_proc_dir := false; k_proc_pipe := None; k_log := [] |}.

(** A session whose buffer holds 4090 bytes of text, none handed out yet. *)
Definition nearly_full_iter : print_event_iterator :=
  {| it_seq := {| ts_buffer := repeat "a"%char (Z.to_nat PAGE_SIZE);
                  ts_seq := {| sb_size := PAGE_SIZE; sb_len := 4090; sb_readpos := 0 |};
                  ts_full := false |};
     it_ent := None; it_lost_events := 0; it_cpu := 0; it_ts := 0 |}.

(** An empty store of one CPU, and a world in which the first wait is
    interrupted. *)
Definition empty_store : ring_buffer :=
  [ {| cpu_events := []; cpu_lost_events := 0 |} ].


(** Three classes whose lines name the class. *)
Definition named_class (name : string) : print_event_class :=
  {| cls_id := 0;
     cls_format := printf_format
                     (fun _ => list_ascii_of_string
                                 (String.append name (String (ascii_of_nat 10) EmptyString)));
     cls_buffer := Some 1 |}.

Definition three_classes : class_table :=
  [named_class "zero"; named_class "one"; named_class "two"].

(** ** Writers that copy memory

    [trace_seq_puts] and the helpers of lib/seq_buf.c under it.  Unlike
    [seq_buf_vprintf], which keeps a byte for the terminating NUL,
    [seq_buf_putmem] accepts text that ends at the last byte of the
    array. *)

(** [seq_buf_buffer_left] *)
Definition seq_buf_buffer_left (s : seq_buf) : Z :=
  if seq_buf_has_overflowed s then 0 else sb_size s - sb_len s.

(** [seq_buf_putmem] on the array of the enclosing [trace_seq]. *)
Definition seq_buf_putmem (buf : list ascii) (s : seq_buf) (mem : list ascii)
  : list ascii * seq_buf * Z :=
  let len := Z.of_nat (length mem) in
  if sb_len s + len <=? sb_size s then
    (write_at (sb_len s) mem buf,
     {| sb_size := sb_size s; sb_len := sb_len s + len; sb_readpos := sb_readpos s |}, 0)
  else (buf, seq_buf_set_overflow s, -1).

(** [trace_seq_puts] *)
Definition trace_seq_puts (s : trace_seq) (str : list ascii) : trace_seq :=
  let len := Z.of_nat (length str) in
  if ts_full s then s
  else
    let s := __trace_seq_init s in
    if seq_buf_buffer_left (ts_seq s) <? len then
      {| ts_buffer := ts_buffer s; ts_seq := ts_seq s; ts_full := true |}
    else
      let '(buf', sb', _) := seq_buf_putmem (ts_buffer s) (ts_seq s) str in
      {| ts_buffer := buf'; ts_seq := sb'; ts_full := ts_full s |}.

(** A format method written on [trace_seq_puts]. *)
Definition puts_format (render : print_event_entry -> list ascii) : format_fn :=
  fun s e =>
    let s := trace_seq_puts s (render e) in
    (s, trace_handle_return s).

(** A class whose line is half a page long. *)
Definition block_line : list ascii := repeat "a"%char 2048.

Definition block_class : print_event_class :=
  {| cls_id := 0; cls_format := puts_format (fun _ => block_line);
     cls_buffer := Some 1 |}.

(** One CPU holding two records of class 0. *)
Definition block_store : ring_buffer :=
  [ {| cpu_events := [sample_event 1 0; sample_event 2 0]; cpu_lost_events := 0 |} ].

(** A read of a megabyte on [block_store]. *)
Definition block_read : read_result :=
  trace_read_pipe 5 [block_class] 0 1000000 1000000 trace_open_pipe
    (quiet_world block_store false).

(** ** Format methods that write whole lines *)

(** A sequence ready for a format method: the page-sized array, initialised,
    not full and not marked as overflowed. *)
Definition seq_clean (s : trace_seq) : Prop :=
  length (ts_buffer s) = Z.to_nat PAGE_SIZE /\
  sb_size (ts_seq s) = PAGE_SIZE /\
  0 <= sb_len (ts_seq s) < PAGE_SIZE /\
  ts_full s = false.

(** The method [f] writes the line [render e] of an entry or nothing: when
    the line fits it appends exactly the line and reports it handled; when
    it does not, it reports a partial line and has left the text written
    before alone. *)
Definition appends_line (f : format_fn) (render : print_event_entry -> list ascii) : Prop :=
  forall s e, seq_clean s ->
    (has_room s (render e) ->
       exists s', f s e = (s', TRACE_TYPE_HANDLED) /\ seq_clean s' /\
                  seq_text s' = seq_text s ++ render e /\
                  sb_len (ts_seq s') = sb_len (ts_seq s) + Z.of_nat (length (render e)) /\
                  sb_readpos (ts_seq s') = sb_readpos (ts_seq s))
    /\ (~ has_room s (render e) ->
       exists s', f s e = (s', TRACE_TYPE_PARTIAL_LINE) /\
                  take (Z.to_nat (sb_len (ts_seq s))) (ts_buffer s') = seq_text s /\
                  sb_size (ts_seq s') = PAGE_SIZE /\
                  sb_readpos (ts_seq s') = sb_readpos (ts_seq s)).

(** The classes of a table write the lines [renders] gives, class by class. *)
Definition line_classes (classes : class_table)
    (renders : list (print_event_entry -> list ascii)) : Prop :=
  Forall2 (fun c r => appends_line (cls_format c) r) classes renders.

(** The line of an entry: that of its class, or the fallback line. *)
Definition line_of (renders : list (print_event_entry -> list ascii))
    (e : print_event_entry) : list ascii :=
  match renders !! N.to_nat (ent_id e) with
  | Some r => r e
  | None => unknown_id_line (Z.of_N (ent_id e))
  end.

(** The lines of drained events, one after the other. *)
Definition lines_of (renders : list (print_event_entry -> list ascii))
    (events : list (Z * Z * print_event_entry)) : list ascii :=
  concat (map (fun x => line_of renders (snd x)) events).

(** No class of the table ever answers [TRACE_TYPE_NO_CONSUME]. *)
Definition never_no_consume (classes : class_table) : Prop :=
  forall c s e, In c classes -> snd (cls_format c s e) <> TRACE_TYPE_NO_CONSUME.

(** The return values of the wake-ups a world holds. *)
Definition wake_rets (w : world) : list Z := map wake_ret (w_future w).

(** The lines of [three_classes]. *)
Definition named_line (name : string) : print_event_entry -> list ascii :=
  fun _ => list_ascii_of_string (String.append name (String (ascii_of_nat 10) EmptyString)).

Definition three_renders : list (print_event_entry -> list ascii) :=
  [named_line "zero"; named_line "one"; named_line "two"].

(** A world in which the store is empty at first, still empty after a first
    wake-up and holds a record after a second one. *)
Definition two_wake_world : world :=
  {| w_buffer := empty_store; w_signal := false;
     w_future := [ {| wake_ret := 0; wake_buffer := empty_store; wake_signal := false |};
                   {| wake_ret := 0; wake_buffer := one_record_store;
                      wake_signal := false |} ];
     w_waits := 0 |}.

(** A kernel in which [proc_mkdir] fails. *)
Definition no_mkdir_env : init_env :=
  {| env_symbol := true; env_alloc := Some 1; env_mkdir := false; env_create := true |}.

(** No store is allocated. *)
Definition no_store (k : kernel) : Prop :=
  k_store_struct k = false /\ k_store_cpu_buffers k = false.

(** * Properties *)

(** ** The merge across the per-CPU buffers *)

Section Merge.

Variable buffer : ring_buffer.

Lemma rb_cpu_of_nat (k : nat) : rb_cpu buffer (Z.of_nat k) = buffer !! k.
Proof.
  unfold rb_cpu. destruct (Z.ltb_spec (Z.of_nat k) 0); [lia|].
  now rewrite Nat2Z.id.
Qed.

Lemma rb_cpu_Some (cpu : Z) (b : ring_buffer_per_cpu) :
  rb_cpu buffer cpu = Some b ->
  0 <= cpu < Z.of_nat (length buffer) /\ buffer !! Z.to_nat cpu = Some b.
Proof.
  unfold rb_cpu. destruct (Z.ltb_spec cpu 0); [discriminate|].
  intros Hb. split; [|exact Hb].
  apply lookup_lt_Some in Hb. lia.
Qed.

Lemma oldest_Some_range (cpu : Z) (e : ring_buffer_event) :
  oldest buffer cpu = Some e -> 0 <= cpu < Z.of_nat (length buffer).
Proof.
  unfold oldest. destruct (rb_cpu buffer cpu) eqn:Hb; [|discriminate].
  intros _. now apply rb_cpu_Some in Hb.
Qed.

Lemma empty_cpu_oldest (cpu : Z) :
  ring_buffer_empty_cpu buffer cpu = true <-> oldest buffer cpu = None.
Proof.
  unfold ring_buffer_empty_cpu, oldest.
  destruct (rb_cpu buffer cpu) as [b|]; [|tauto].
  destruct (cpu_events b); simpl; split; congruence.
Qed.

Lemma peek_next_entry_oldest (cpu : Z) :
  peek_next_entry buffer cpu =
  match oldest buffer cpu with
  | Some e => Some (rbe_data e, rbe_ts e, lost_of buffer cpu)
  | None => None
  end.
Proof.
  unfold peek_next_entry, ring_buffer_peek, oldest, lost_of.
  destruct (rb_cpu buffer cpu) as [b|]; [|reflexivity].
  now destruct (cpu_events b).
Qed.

Lemma find_step_inv (k : Z) (st : find_state) :
  0 <= k -> find_inv buffer k st -> find_inv buffer (k + 1) (find_step buffer st k).
Proof.
  intros Hk Hinv. unfold find_step.
  destruct (ring_buffer_empty_cpu buffer k) eqn:Hempty.
  - apply empty_cpu_oldest in Hempty.
    destruct st as [[[[ent|] c] ts] lost]; simpl in *.
    + destruct Hinv as (Hc & e & He & Hent & Hts & Hlost & Hmin).
      split; [lia|]. exists e. repeat split; auto.
      * destruct (Z.eq_dec cpu k) as [->|]; [congruence|]. apply (Hmin cpu e'); [lia|auto].
      * destruct (Z.eq_dec cpu k) as [->|]; [congruence|]. apply (Hmin cpu e'); [lia|auto].
    + destruct Hinv as (Hc & Hts & Hlost & Hnone). repeat split; auto.
      intros cpu Hcpu. destruct (Z.eq_dec cpu k) as [->|]; [auto|]. apply Hnone; lia.
  - rewrite peek_next_entry_oldest.
    destruct (oldest buffer k) as [ek|] eqn:Hek.
    2:{ apply empty_cpu_oldest in Hek. congruence. }
    destruct st as [[[[ent|] c] ts] lost]; simpl in *.
    + destruct Hinv as (Hc & e & He & Hent & Hts & Hlost & Hmin). subst ts.
      destruct (Z.ltb_spec (rbe_ts ek) (rbe_ts e)) as [Hlt|Hge]; simpl.
      * split; [lia|]. exists ek. repeat split; auto.
        -- destruct (Z.eq_dec cpu k) as [->|]; [assert (e' = ek) by congruence; subst; lia|].
           destruct (Hmin cpu e'); [lia|auto|lia].
        -- intros Heq. destruct (Z.eq_dec cpu k) as [->|]; [lia|].
           destruct (Hmin cpu e'); [lia|auto|lia].
      * split; [lia|]. exists e. repeat split; auto.
        -- destruct (Z.eq_dec cpu k) as [->|]; [assert (e' = ek) by congruence; subst; lia|].
           apply (Hmin cpu e'); [lia|auto].
        -- intros Heq. destruct (Z.eq_dec cpu k) as [->|]; [lia|].
           apply (Hmin cpu e'); [lia|auto|auto].
    + destruct Hinv as (Hc & Hts & Hlost & Hnone). simpl.
      split; [lia|]. exists ek. repeat split; auto.
      * destruct (Z.eq_dec cpu k) as [->|]; [assert (e' = ek) by congruence; subst; lia|].
        rewrite Hnone in H0; [discriminate|lia].
      * intros _. destruct (Z.eq_dec cpu k) as [->|]; [lia|].
        rewrite Hnone in H0; [discriminate|lia].
Qed.

Lemma find_fold_inv (m k : nat) (st : find_state) :
  find_inv buffer (Z.of_nat k) st ->
  find_inv buffer (Z.of_nat (k + m)) (fold_left (find_step buffer) (map Z.of_nat (seq k m)) st).
Proof.
  revert k st. induction m as [|m IH]; intros k st Hinv; simpl.
  - now rewrite Nat.add_0_r.
  - replace (k + S m)%nat with (S k + m)%nat by lia.
    apply IH. replace (Z.of_nat (S k)) with (Z.of_nat k + 1) by lia.
    apply find_step_inv; [lia|exact Hinv].
Qed.

Lemma find_next_entry_inv :
  find_inv buffer (Z.of_nat (length buffer)) (__find_next_entry buffer).
Proof.
  unfold __find_next_entry, possible_cpus.
  apply (find_fold_inv (length buffer) 0).
  simpl. repeat split; auto. intros cpu Hcpu. lia.
Qed.

Lemma is_trace_empty_from_true (cpus : list Z) :
  is_trace_empty_from buffer cpus = true <->
  forall cpu, In cpu cpus -> oldest buffer cpu = None.
Proof.
  induction cpus as [|c cpus IH]; simpl.
  - split; [intros _ cpu []|reflexivity].
  - destruct (ring_buffer_empty_cpu buffer c) eqn:Hc; simpl.
    + apply empty_cpu_oldest in Hc. rewrite IH. split.
      * intros H cpu [<-|Hin]; auto.
      * intros H cpu Hin. apply H. now right.
    + split; [discriminate|]. intros H.
      assert (oldest buffer c = None) as Hn by (apply H; now left).
      apply empty_cpu_oldest in Hn. congruence.
Qed.

Lemma in_possible_cpus (cpu : Z) :
  In cpu (possible_cpus buffer) <-> 0 <= cpu < Z.of_nat (length buffer).
Proof.
  unfold possible_cpus. rewrite in_map_iff. split.
  - intros (n & <- & Hn). apply in_seq in Hn. lia.
  - intros H. exists (Z.to_nat cpu). split; [lia|]. apply in_seq. lia.
Qed.

Lemma is_trace_empty_true :
  is_trace_empty buffer = true <-> forall cpu, oldest buffer cpu = None.
Proof.
  unfold is_trace_empty. rewrite is_trace_empty_from_true. split.
  - intros H cpu. destruct (oldest buffer cpu) as [e|] eqn:He; [|reflexivity].
    rewrite <- He. apply H. apply in_possible_cpus. eapply oldest_Some_range; eauto.
  - intros H cpu _. apply H.
Qed.

Lemma find_next_entry_empty :
  is_trace_empty buffer = true -> __find_next_entry buffer = (None, -1, 0, 0).
Proof.
  intros Hempty. pose proof find_next_entry_inv as Hinv.
  destruct (__find_next_entry buffer) as [[[[ent|] c] ts] lost]; simpl in Hinv.
  - destruct Hinv as (_ & e & He & _).
    rewrite (proj1 is_trace_empty_true Hempty) in He. discriminate.
  - destruct Hinv as (-> & -> & -> & _). reflexivity.
Qed.

Lemma find_next_entry_nonempty :
  is_trace_empty buffer = false ->
  exists e cpu,
    __find_next_entry buffer = (Some (rbe_data e), cpu, rbe_ts e, lost_of buffer cpu)
    /\ oldest buffer cpu = Some e
    /\ forall cpu' e', oldest buffer cpu' = Some e' ->
         rbe_ts e <= rbe_ts e' /\ (rbe_ts e' = rbe_ts e -> cpu <= cpu').
Proof.
  intros Hne. pose proof find_next_entry_inv as Hinv.
  destruct (__find_next_entry buffer) as [[[[ent|] c] ts] lost]; simpl in Hinv.
  - destruct Hinv as (Hc & e & He & -> & -> & -> & Hmin).
    exists e, c. split; [reflexivity|]. split; [exact He|].
    intros cpu' e' He'. apply (Hmin cpu' e'); [|exact He'].
    eapply oldest_Some_range; eauto.
  - destruct Hinv as (_ & _ & _ & Hnone).
    assert (is_trace_empty buffer = true) as Ht; [|congruence].
    apply is_trace_empty_true. intros cpu.
    destruct (oldest buffer cpu) as [e|] eqn:He; [|reflexivity].
    rewrite <- He. apply Hnone. eapply oldest_Some_range; eauto.
Qed.

End Merge.

(** ** Consuming the selected event *)

Lemma consume_oldest (buffer : ring_buffer) (cpu : Z) (e : ring_buffer_event) :
  oldest buffer cpu = Some e ->
  exists b rest,
    buffer !! Z.to_nat cpu = Some b /\ cpu_events b = e :: rest /\ 0 <= cpu /\
    ring_buffer_consume buffer cpu =
      (<[Z.to_nat cpu := {| cpu_events := rest; cpu_lost_events := 0 |}]> buffer,
       Some (e, rbe_ts e, cpu_lost_events b)).
Proof.
  unfold oldest, ring_buffer_consume.
  destruct (rb_cpu buffer cpu) as [b|] eqn:Hb; [|discriminate].
  apply rb_cpu_Some in Hb as [Hrange Hb].
  destruct (cpu_events b) as [|e0 rest] eqn:Hev; [discriminate|].
  simpl. intros [= ->]. exists b, rest. repeat split; auto; lia.
Qed.

Lemma consume_none (buffer : ring_buffer) (cpu : Z) :
  oldest buffer cpu = None -> ring_buffer_consume buffer cpu = (buffer, None).
Proof.
  unfold oldest, ring_buffer_consume.
  destruct (rb_cpu buffer cpu) as [b|]; [|reflexivity].
  now destruct (cpu_events b).
Qed.

Lemma oldest_insert_ne (buffer : ring_buffer) (cpu cpu' : Z) (b : ring_buffer_per_cpu) :
  0 <= cpu -> cpu' <> cpu ->
  oldest (<[Z.to_nat cpu := b]> buffer) cpu' = oldest buffer cpu'.
Proof.
  intros Hcpu Hne. unfold oldest, rb_cpu.
  destruct (Z.ltb_spec cpu' 0); [reflexivity|].
  rewrite list_lookup_insert_ne by lia. reflexivity.
Qed.

Lemma oldest_insert_eq (buffer : ring_buffer) (cpu : Z) (b b' : ring_buffer_per_cpu) :
  0 <= cpu -> buffer !! Z.to_nat cpu = Some b ->
  oldest (<[Z.to_nat cpu := b']> buffer) cpu = head (cpu_events b').
Proof.
  intros Hcpu Hb. unfold oldest, rb_cpu.
  destruct (Z.ltb_spec cpu 0); [lia|].
  rewrite list_lookup_insert_eq; [reflexivity|].
  now apply lookup_lt_Some in Hb.
Qed.

Lemma total_events_insert (buffer : ring_buffer) (i : nat) (b b' : ring_buffer_per_cpu) :
  buffer !! i = Some b ->
  (total_events (<[i := b']> buffer) + length (cpu_events b) =
   total_events buffer + length (cpu_events b'))%nat.
Proof.
  unfold total_events. revert i.
  induction buffer as [|b0 buffer IH]; intros [|i] Hb; simpl in *; try discriminate.
  - injection Hb as ->. lia.
  - specialize (IH i Hb). lia.
Qed.

Lemma total_events_zero (buffer : ring_buffer) :
  (forall cpu, oldest buffer cpu = None) -> total_events buffer = O.
Proof.
  intros Hnone.
  assert (forall i b, buffer !! i = Some b -> cpu_events b = []) as Hnil.
  { intros i b Hb. specialize (Hnone (Z.of_nat i)).
    unfold oldest in Hnone. rewrite rb_cpu_of_nat, Hb in Hnone.
    now destruct (cpu_events b). }
  clear Hnone. unfold total_events.
  induction buffer as [|b0 buffer IH]; [reflexivity|]. simpl.
  rewrite (Hnil O b0 eq_refl). simpl. apply IH.
  intros i b Hb. apply (Hnil (S i) b Hb).
Qed.

Lemma per_cpu_sorted_consume (buffer : ring_buffer) (cpu : Z) :
  per_cpu_sorted buffer -> per_cpu_sorted (fst (ring_buffer_consume buffer cpu)).
Proof.
  intros Hs. destruct (oldest buffer cpu) as [e|] eqn:He.
  - destruct (consume_oldest _ _ _ He) as (b & rest & Hb & Hev & Hcpu & ->). simpl.
    unfold per_cpu_sorted in *. apply Forall_insert; [exact Hs|]. simpl.
    pose proof (proj1 (Forall_lookup _ _) Hs _ _ Hb) as Hsb. simpl in Hsb.
    rewrite Hev in Hsb. simpl in Hsb. now inversion Hsb.
  - now rewrite consume_none.
Qed.


Lemma drain_sorted (n : nat) :
  forall (buffer : ring_buffer) (m : Z),
    per_cpu_sorted buffer ->
    (forall cpu e, oldest buffer cpu = Some e -> m <= rbe_ts e) ->
    Forall (fun t => m <= t) (map drained_ts (drain n buffer)) /\
    StronglySorted Z.le (map drained_ts (drain n buffer)).
Proof.
  induction n as [|n IH]; intros buffer m Hs Hm; simpl.
  - split; constructor.
  - destruct (is_trace_empty buffer) eqn:Hempty.
    + rewrite (find_next_entry_empty _ Hempty). split; constructor.
    + destruct (find_next_entry_nonempty _ Hempty) as (e & cpu & -> & He & Hmin).
      destruct (consume_oldest _ _ _ He) as (b & rest & Hb & Hev & Hcpu & Hcons).
      destruct (IH (fst (ring_buffer_consume buffer cpu)) (rbe_ts e)) as [Hall Hsorted].
      * now apply per_cpu_sorted_consume.
      * rewrite Hcons. simpl. intros cpu' e' He'.
        destruct (Z.eq_dec cpu' cpu) as [->|Hne].
        -- rewrite (oldest_insert_eq _ _ b) in He' by auto. simpl in He'.
           pose proof (proj1 (Forall_lookup _ _) Hs _ _ Hb) as Hsb. simpl in Hsb.
           rewrite Hev in Hsb. simpl in Hsb.
           destruct rest as [|e2 rest]; [discriminate|]. injection He' as ->.
           inversion Hsb as [|? ? _ Hhd]; subst. now inversion Hhd.
        -- rewrite oldest_insert_ne in He' by auto. now apply (Hmin cpu' e').
      * simpl. split.
        -- constructor; [now apply (Hm cpu e)|].
           eapply Forall_impl; [exact Hall|]. simpl. intros t Ht.
           specialize (Hm cpu e He). lia.
        -- constructor; assumption.
Qed.

Lemma drain_length (n : nat) :
  forall buffer : ring_buffer,
    (total_events buffer <= n)%nat -> length (drain n buffer) = total_events buffer.
Proof.
  induction n as [|n IH]; intros buffer Hn; simpl.
  - lia.
  - destruct (is_trace_empty buffer) eqn:Hempty.
    + rewrite (find_next_entry_empty _ Hempty). simpl. symmetry.
      apply total_events_zero. now apply is_trace_empty_true.
    + destruct (find_next_entry_nonempty _ Hempty) as (e & cpu & -> & He & _).
      destruct (consume_oldest _ _ _ He) as (b & rest & Hb & Hev & Hcpu & Hcons).
      pose proof (total_events_insert buffer _ b
                    {| cpu_events := rest; cpu_lost_events := 0 |} Hb) as Htot.
      rewrite Hev in Htot. simpl in Htot.
      rewrite Hcons. simpl. rewrite IH; lia.
Qed.


(** ** The output buffer *)

Lemma to_user_within_text (s : trace_seq) (ubuf_ok cnt : Z) :
  0 <= cnt -> 0 <= sb_readpos (ts_seq s) ->
  forall s' ret out, trace_seq_to_user s ubuf_ok cnt = (s', ret, out) ->
    out = take (Z.to_nat ret) (drop (Z.to_nat (sb_readpos (ts_seq s))) (seq_text s)).
Proof.
  intros Hcnt Hpos s' ret out. unfold trace_seq_to_user, __trace_seq_init.
  destruct (Z.eqb_spec (sb_size (ts_seq s)) 0) as [Hsz|Hsz].
  - unfold seq_buf_to_user, seq_buf_used, trace_seq_init, seq_buf_init. simpl.
    destruct (Z.eqb_spec cnt 0); simpl.
    + intros [= <- <- <-]. reflexivity.
    + intros [= <- <- <-]. reflexivity.
  - unfold seq_buf_to_user.
    destruct (Z.eqb_spec cnt 0); [intros [= <- <- <-]; reflexivity|].
    destruct (Z.leb_spec (seq_buf_used (ts_seq s)) (sb_readpos (ts_seq s)));
      [intros [= <- <- <-]; reflexivity|].
    set (len := seq_buf_used (ts_seq s) - sb_readpos (ts_seq s)).
    set (c := if len <? cnt then len else cnt).
    destruct (Z.eqb_spec (copy_to_user ubuf_ok c) c); [intros [= <- <- <-]; reflexivity|].
    intros [= <- <- <-]. unfold seq_text.
    assert (0 <= c - copy_to_user ubuf_ok c <= len) as Hc.
    { unfold copy_to_user, c. destruct (Z.ltb_spec len cnt); lia. }
    assert (len <= sb_len (ts_seq s) - sb_readpos (ts_seq s)) as Hlen.
    { unfold len, seq_buf_used. lia. }
    rewrite !take_drop_commute, take_take. f_equal. f_equal. lia.
Qed.

Lemma take_write_at (off : Z) (bytes buf : list ascii) :
  0 <= off <= Z.of_nat (length buf) ->
  take (Z.to_nat off + length bytes) (write_at off bytes buf) = take (Z.to_nat off) buf ++ bytes.
Proof.
  intros Hoff. unfold write_at.
  rewrite take_app_add' by (rewrite length_take; lia).
  rewrite take_app_length. reflexivity.
Qed.

Lemma take_write_at_prefix (off : Z) (bytes buf : list ascii) :
  0 <= off <= Z.of_nat (length buf) ->
  take (Z.to_nat off) (write_at off bytes buf) = take (Z.to_nat off) buf.
Proof.
  intros Hoff. unfold write_at.
  rewrite take_app_le by (rewrite length_take; lia).
  rewrite take_take. f_equal. lia.
Qed.

Lemma trace_seq_printf_fits (s : trace_seq) (text : list ascii) :
  seq_ok s -> has_room s text ->
  let s' := trace_seq_printf s text in
  seq_text s' = seq_text s ++ text /\
  sb_len (ts_seq s') = sb_len (ts_seq s) + Z.of_nat (length text) /\
  sb_size (ts_seq s') = sb_size (ts_seq s) /\
  sb_readpos (ts_seq s') = sb_readpos (ts_seq s) /\
  trace_seq_has_overflowed s' = false.
Proof.
  intros [Hsz [Hlen0 Hlen]] [Hov Hroom]. unfold trace_seq_has_overflowed in Hov.
  apply orb_false_iff in Hov as [Hfull Hov].
  unfold trace_seq_printf. rewrite Hfull. unfold __trace_seq_init.
  rewrite Hsz. change (PAGE_SIZE =? 0) with false. cbv iota.
  unfold seq_buf_vprintf, vsnprintf.
  destruct (Z.ltb_spec (sb_len (ts_seq s)) (sb_size (ts_seq s))) as [Hlt|]; [|lia].
  destruct (Z.leb_spec (sb_size (ts_seq s) - sb_len (ts_seq s)) 0) as [|Havail]; [lia|].
  cbv beta iota zeta.
  destruct (Z.ltb_spec (sb_len (ts_seq s) + Z.of_nat (length text)) (sb_size (ts_seq s)));
    [|lia].
  unfold seq_buf_has_overflowed. simpl.
  destruct (Z.ltb_spec (sb_size (ts_seq s)) (sb_len (ts_seq s) + Z.of_nat (length text))) as [|_];
    [lia|].
  simpl. unfold seq_text, trace_seq_has_overflowed, seq_buf_has_overflowed. simpl.
  rewrite Hfull. simpl. repeat split; auto.
  - rewrite (take_ge text) by lia.
    replace (Z.to_nat (sb_len (ts_seq s) + Z.of_nat (length text)))
      with (Z.to_nat (sb_len (ts_seq s)) + length text)%nat by lia.
    unfold write_at. rewrite take_app_add' by (rewrite length_take; lia).
    rewrite <- app_assoc. rewrite take_app_length'; [reflexivity|]. reflexivity.
  - apply Z.ltb_ge. lia.
Qed.

Lemma trace_seq_printf_no_room (s : trace_seq) (text : list ascii) :
  seq_ok s -> trace_seq_has_overflowed s = false ->
  sb_size (ts_seq s) <= sb_len (ts_seq s) + Z.of_nat (length text) ->
  let s' := trace_seq_printf s text in
  ts_full s' = true /\
  sb_len (ts_seq s') = sb_len (ts_seq s) /\
  seq_text s' = seq_text s /\
  sb_size (ts_seq s') = sb_size (ts_seq s) /\
  sb_readpos (ts_seq s') = sb_readpos (ts_seq s).
Proof.
  intros [Hsz [Hlen0 Hlen]] Hov Hroom. unfold trace_seq_has_overflowed in Hov.
  apply orb_false_iff in Hov as [Hfull Hov].
  unfold seq_buf_has_overflowed in Hov. apply Z.ltb_ge in Hov.
  unfold trace_seq_printf. rewrite Hfull. unfold __trace_seq_init.
  rewrite Hsz. change (PAGE_SIZE =? 0) with false. cbv iota.
  unfold seq_buf_vprintf, vsnprintf.
  destruct (Z.ltb_spec (sb_len (ts_seq s)) (sb_size (ts_seq s))) as [Hlt|Hge].
  - destruct (Z.leb_spec (sb_size (ts_seq s) - sb_len (ts_seq s)) 0) as [|Havail]; [lia|].
    cbv beta iota zeta.
    destruct (Z.ltb_spec (sb_len (ts_seq s) + Z.of_nat (length text)) (sb_size (ts_seq s)));
      [lia|].
    unfold seq_buf_has_overflowed, seq_buf_set_overflow. simpl.
    destruct (Z.ltb_spec (sb_size (ts_seq s)) (sb_size (ts_seq s) + 1)); [|lia].
    unfold seq_text. simpl. repeat split; auto.
    apply take_write_at_prefix. lia.
  - unfold seq_buf_has_overflowed, seq_buf_set_overflow. simpl.
    destruct (Z.ltb_spec (sb_size (ts_seq s)) (sb_size (ts_seq s) + 1)); [|lia].
    unfold seq_text. simpl. repeat split; auto.
Qed.

(** ** One round of the format loop *)

Lemma it_seq_next (iter : print_event_iterator) (buffer : ring_buffer) :
  it_seq (trace_next_entry_inc iter buffer) = it_seq iter.
Proof.
  unfold trace_next_entry_inc.
  now destruct (__find_next_entry buffer) as [[[next c] t] l].
Qed.

Lemma next_entry_selected (iter : print_event_iterator) (buffer : ring_buffer)
    (entry : print_event_entry) :
  it_ent (trace_next_entry_inc iter buffer) = Some entry ->
  exists e,
    oldest buffer (it_cpu (trace_next_entry_inc iter buffer)) = Some e /\
    rbe_data e = entry /\
    it_ts (trace_next_entry_inc iter buffer) = rbe_ts e /\
    it_lost_events (trace_next_entry_inc iter buffer) =
      lost_of buffer (it_cpu (trace_next_entry_inc iter buffer)).
Proof.
  unfold trace_next_entry_inc. pose proof (find_next_entry_inv buffer) as Hinv.
  destruct (__find_next_entry buffer) as [[[[ent|] c] t] l]; simpl in *; [|discriminate].
  intros [= ->]. destruct Hinv as (_ & e & He & -> & -> & -> & _).
  exists e. auto.
Qed.

Lemma next_entry_same_store (iter iter2 : print_event_iterator) (buffer : ring_buffer) :
  it_ent (trace_next_entry_inc iter2 buffer) = it_ent (trace_next_entry_inc iter buffer) /\
  it_cpu (trace_next_entry_inc iter2 buffer) = it_cpu (trace_next_entry_inc iter buffer) /\
  it_ts (trace_next_entry_inc iter2 buffer) = it_ts (trace_next_entry_inc iter buffer).
Proof.
  unfold trace_next_entry_inc.
  now destruct (__find_next_entry buffer) as [[[next c] t] l].
Qed.

Lemma consume_current_buffer (iter : print_event_iterator) (buffer : ring_buffer) :
  snd (consume_current iter buffer) = fst (ring_buffer_consume buffer (it_cpu iter)) /\
  it_seq (fst (consume_current iter buffer)) = it_seq iter.
Proof.
  unfold consume_current.
  now destruct (ring_buffer_consume buffer (it_cpu iter)) as [b' [[[e t] l]|]].
Qed.

Lemma format_round_eq (classes : class_table) (cnt : Z) (iter : print_event_iterator)
    (buffer : ring_buffer) (entry : print_event_entry) (seq' : trace_seq)
    (ret : print_line_t) :
  it_ent (trace_next_entry_inc iter buffer) = Some entry ->
  print_trace_fmt_line classes (trace_next_entry_inc iter buffer) entry = (seq', ret) ->
  format_round classes cnt iter buffer =
    let iter1 := set_seq (trace_next_entry_inc iter buffer) seq' in
    if print_line_t_eqb ret TRACE_TYPE_PARTIAL_LINE then
      (set_seq iter1 (set_len seq' (sb_len (ts_seq (it_seq iter)))), buffer, LoopBreak)
    else
      let '(iter2, buffer2) :=
        if negb (print_line_t_eqb ret TRACE_TYPE_NO_CONSUME)
        then consume_current iter1 buffer else (iter1, buffer) in
      if cnt <=? trace_seq_used (it_seq iter2) then (iter2, buffer2, LoopBreak)
      else (iter2, buffer2, LoopAgain).
Proof.
  intros Hent Hfmt. unfold format_round. rewrite Hent, Hfmt, it_seq_next. reflexivity.
Qed.

(** C2: in every round of the format loop, when the formatter of the
    selected record returns the partial-line signal the length of the output
    buffer is set back to what it was before the attempt, the store is left
    as it was and the loop ends; the bytes a later copy to the caller hands
    out then lie within that restored length, and the next peek on the
    store selects the same record again.  A round changes the store only
    by consuming the selected record, and only when its formatter returned
    neither the partial-line nor the no-consume signal. *)
Theorem format_round_partial_line (classes : class_table) (cnt : Z)
    (iter : print_event_iterator) (buffer : ring_buffer) :
  let iter1 := trace_next_entry_inc iter buffer in
  let save_len := sb_len (ts_seq (it_seq iter)) in
  (forall entry seq',
      it_ent iter1 = Some entry ->
      print_trace_fmt_line classes iter1 entry = (seq', TRACE_TYPE_PARTIAL_LINE) ->
      let iter' := set_seq iter1 (set_len seq' save_len) in
      format_round classes cnt iter buffer = (iter', buffer, LoopBreak)
      /\ (forall fuel, format_loop fuel classes cnt iter buffer = Some (iter', buffer))
      /\ sb_len (ts_seq (it_seq iter')) = save_len
      /\ seq_text (it_seq iter') = take (Z.to_nat save_len) (ts_buffer seq')
      /\ (forall ubuf_ok n s' ret out,
             0 <= n -> 0 <= sb_readpos (ts_seq seq') ->
             trace_seq_to_user (it_seq iter') ubuf_ok n = (s', ret, out) ->
             out = take (Z.to_nat ret)
                     (drop (Z.to_nat (sb_readpos (ts_seq seq')))
                        (take (Z.to_nat save_len) (ts_buffer seq'))))
      /\ (forall iter2,
             it_ent (trace_next_entry_inc iter2 buffer) = Some entry /\
             it_cpu (trace_next_entry_inc iter2 buffer) = it_cpu iter1 /\
             it_ts (trace_next_entry_inc iter2 buffer) = it_ts iter1))
  /\ (forall iter' buffer' how,
         format_round classes cnt iter buffer = (iter', buffer', how) ->
         buffer' <> buffer ->
         exists entry seq' ret e,
           it_ent iter1 = Some entry /\
           print_trace_fmt_line classes iter1 entry = (seq', ret) /\
           ret <> TRACE_TYPE_PARTIAL_LINE /\ ret <> TRACE_TYPE_NO_CONSUME /\
           oldest buffer (it_cpu iter1) = Some e /\ rbe_data e = entry /\
           buffer' = fst (ring_buffer_consume buffer (it_cpu iter1))).
Proof.
  cbv zeta. split.
  - intros entry seq' Hent Hfmt.
    assert (format_round classes cnt iter buffer =
            (set_seq (trace_next_entry_inc iter buffer)
               (set_len seq' (sb_len (ts_seq (it_seq iter)))), buffer, LoopBreak)) as Hround.
    { rewrite (format_round_eq _ _ _ _ _ _ _ Hent Hfmt). reflexivity. }
    split; [exact Hround|].
    split; [intros fuel; destruct fuel; simpl; now rewrite Hround|].
    split; [reflexivity|]. split; [reflexivity|]. split.
    + intros ubuf_ok n s' ret out Hn Hpos Huser.
      apply (to_user_within_text _ _ _ Hn) in Huser; [exact Huser|exact Hpos].
    + intros iter2. destruct (next_entry_same_store iter iter2 buffer) as (H1 & H2 & H3).
      rewrite H1, H2, H3. auto.
  - intros iter' buffer' how Hround Hne.
    destruct (it_ent (trace_next_entry_inc iter buffer)) as [entry|] eqn:Hent.
    2:{ unfold format_round in Hround. rewrite Hent in Hround.
        injection Hround as _ <- _. congruence. }
    destruct (print_trace_fmt_line classes (trace_next_entry_inc iter buffer) entry)
      as [seq' ret] eqn:Hfmt.
    rewrite (format_round_eq _ _ _ _ _ _ _ Hent Hfmt) in Hround. cbv zeta in Hround.
    destruct (next_entry_selected _ _ _ Hent) as (e & He & Hdata & _).
    exists entry, seq', ret, e.
    destruct ret; simpl in Hround.
    + injection Hround as _ <- _. congruence.
    + destruct (cnt <=? _) in Hround; injection Hround as _ <- _; congruence.
    + pose proof (consume_current_buffer
                    (set_seq (trace_next_entry_inc iter buffer) seq') buffer) as [Hb _].
      destruct (consume_current _ buffer) as [iter2 buffer2]. simpl in Hb.
      destruct (cnt <=? _) in Hround; injection Hround as _ <- _;
        repeat split; auto; discriminate.
    + pose proof (consume_current_buffer
                    (set_seq (trace_next_entry_inc iter buffer) seq') buffer) as [Hb _].
      destruct (consume_current _ buffer) as [iter2 buffer2]. simpl in Hb.
      destruct (cnt <=? _) in Hround; injection Hround as _ <- _;
        repeat split; auto; discriminate.
Qed.

(** ** The format loop consumes in drain order *)

Lemma drain_split (k : nat) :
  forall (n : nat) (buffer : ring_buffer),
    drain (k + n) buffer = drain k buffer ++ drain n (after_drain k buffer).
Proof.
  induction k as [|k IH]; intros n buffer; [reflexivity|].
  simpl. destruct (__find_next_entry buffer) as [[[[ent|] cpu] ts] lost] eqn:Hfind.
  - simpl. now rewrite IH.
  - simpl. destruct n; simpl; [reflexivity|]. now rewrite Hfind.
Qed.

Lemma format_round_drains (classes : class_table) (cnt : Z)
    (iter : print_event_iterator) (buffer : ring_buffer) :
  snd (fst (format_round classes cnt iter buffer)) = buffer \/
  snd (fst (format_round classes cnt iter buffer)) = after_drain 1 buffer.
Proof.
  destruct (it_ent (trace_next_entry_inc iter buffer)) as [entry|] eqn:Hent.
  2:{ left. unfold format_round. now rewrite Hent. }
  destruct (print_trace_fmt_line classes (trace_next_entry_inc iter buffer) entry)
    as [seq' ret] eqn:Hfmt.
  rewrite (format_round_eq _ _ _ _ _ _ _ Hent Hfmt). cbv zeta.
  destruct (print_line_t_eqb ret TRACE_TYPE_PARTIAL_LINE); [now left|].
  destruct (negb (print_line_t_eqb ret TRACE_TYPE_NO_CONSUME)).
  - right.
    pose proof (consume_current_buffer
                  (set_seq (trace_next_entry_inc iter buffer) seq') buffer) as [Hb _].
    destruct (consume_current _ buffer) as [iter2 buffer2]. simpl in Hb.
    assert (buffer2 = after_drain 1 buffer) as ->.
    { rewrite Hb. simpl. revert Hent. unfold trace_next_entry_inc.
      destruct (__find_next_entry buffer) as [[[[ent|] cpu] ts] lost]; simpl;
        [reflexivity|discriminate]. }
    now destruct (cnt <=? _).
  - left. now destruct (cnt <=? _).
Qed.

Lemma after_drain_step (k : nat) (buffer : ring_buffer) :
  after_drain k (after_drain 1 buffer) = after_drain (S k) buffer.
Proof.
  simpl. destruct (__find_next_entry buffer) as [[[[ent|] cpu] ts] lost] eqn:Hfind;
    [reflexivity|].
  destruct k; simpl; [reflexivity|]. now rewrite Hfind.
Qed.

Lemma format_loop_drains (fuel : nat) :
  forall (classes : class_table) (cnt : Z) (iter iter' : print_event_iterator)
         (buffer buffer' : ring_buffer),
    format_loop fuel classes cnt iter buffer = Some (iter', buffer') ->
    exists k, buffer' = after_drain k buffer.
Proof.
  induction fuel as [|fuel IH]; intros classes cnt iter iter' buffer buffer'; simpl.
  all: pose proof (format_round_drains classes cnt iter buffer) as Hround.
  all: destruct (format_round classes cnt iter buffer) as [[iter1 buffer1] [|]];
    simpl in Hround.
  all: try (intros [= <- <-];
            destruct Hround as [->| ->]; [now exists O|now exists 1%nat]).
  all: try discriminate.
  intros Hloop. destruct (IH _ _ _ _ _ _ Hloop) as [k ->].
  destruct Hround as [->| ->]; [now exists k|].
  exists (S k). apply after_drain_step.
Qed.
(** C1: [__find_next_entry] returns no entry, CPU [-1] and zero time stamp
    and lost count when every per-CPU buffer is empty; otherwise it returns
    the oldest event of some CPU with that CPU, the event's time stamp and
    the CPU's lost-event count, no CPU's oldest event is earlier, and every
    CPU whose oldest event has the same time stamp has an index at least as
    large.  Hence, in a store whose per-CPU buffers are in time order, the
    peek-and-consume cycle of the read loop takes out all events in
    non-decreasing time-stamp order; and what the format loop of one read
    call takes out of the store is an initial stretch of that order, the
    next call continuing with the rest. *)
Theorem find_next_entry_global_minimum (buffer : ring_buffer) :
  (is_trace_empty buffer = true -> __find_next_entry buffer = (None, -1, 0, 0))
  /\ (is_trace_empty buffer = false ->
      exists e cpu,
        __find_next_entry buffer = (Some (rbe_data e), cpu, rbe_ts e, lost_of buffer cpu)
        /\ oldest buffer cpu = Some e
        /\ forall cpu' e', oldest buffer cpu' = Some e' ->
             rbe_ts e <= rbe_ts e' /\ (rbe_ts e' = rbe_ts e -> cpu <= cpu'))
  /\ (per_cpu_sorted buffer ->
      forall n, (total_events buffer <= n)%nat ->
        Sorted Z.le (map drained_ts (drain n buffer))
        /\ length (drain n buffer) = total_events buffer)
  /\ (forall fuel classes cnt iter iter' buffer',
        format_loop fuel classes cnt iter buffer = Some (iter', buffer') ->
        exists k, buffer' = after_drain k buffer
                  /\ forall n, drain (k + n) buffer = drain k buffer ++ drain n buffer').
Proof.
  split; [apply find_next_entry_empty|].
  split; [apply find_next_entry_nonempty|].
  split.
  2:{ intros fuel classes cnt iter iter' buffer' Hloop.
      destruct (format_loop_drains _ _ _ _ _ _ _ Hloop) as [k ->].
      exists k. split; [reflexivity|]. intros n. apply drain_split. }
  intros Hs n Hn. split; [|now apply drain_length].
  apply StronglySorted_Sorted.
  destruct (is_trace_empty buffer) eqn:Hempty.
  - destruct n; simpl; [constructor|].
    rewrite (find_next_entry_empty _ Hempty). constructor.
  - destruct (find_next_entry_nonempty _ Hempty) as (e & cpu & _ & _ & Hmin).
    apply (drain_sorted n buffer (rbe_ts e) Hs).
    intros cpu' e' He'. now apply (Hmin cpu' e').
Qed.

(** ** Records of an unregistered class *)

Lemma find_print_event_out_of_range (classes : class_table) (id : Z) :
  num_print_event_class classes <= id -> find_print_event classes id = None.
Proof.
  intros Hid. unfold find_print_event.
  destruct (Z.ltb_spec id (num_print_event_class classes)); [lia|reflexivity].
Qed.




Lemma consume_total_events (buffer : ring_buffer) (cpu : Z) (e : ring_buffer_event) :
  oldest buffer cpu = Some e ->
  S (total_events (fst (ring_buffer_consume buffer cpu))) = total_events buffer.
Proof.
  intros He. destruct (consume_oldest _ _ _ He) as (b & rest & Hb & Hev & Hcpu & ->).
  pose proof (total_events_insert buffer _ b
                {| cpu_events := rest; cpu_lost_events := 0 |} Hb) as Htot.
  rewrite Hev in Htot. simpl in *. lia.
Qed.



(** ** Handing text to the caller *)

Lemma unflushed_size (s : trace_seq) :
  unflushed s = true -> __trace_seq_init s = s.
Proof.
  unfold unflushed, __trace_seq_init.
  destruct (Z.eqb_spec (sb_size (ts_seq s)) 0); [|reflexivity].
  unfold trace_seq_used, seq_buf_used. simpl. discriminate.
Qed.

Lemma to_user_flush (s : trace_seq) (ubuf_ok cnt : Z) :
  0 <= cnt -> unflushed s = true ->
  exists sb n,
    trace_seq_to_user s ubuf_ok cnt =
      ({| ts_buffer := ts_buffer s; ts_seq := sb; ts_full := ts_full s |}, n,
       take (Z.to_nat n) (drop (Z.to_nat (sb_readpos (ts_seq s))) (ts_buffer s)))
    /\ n <> - EBUSY /\ n <= cnt /\ (n = - EFAULT \/ 0 <= n)
    /\ n <= trace_seq_used s - sb_readpos (ts_seq s)
    /\ (cnt <= ubuf_ok -> n = Z.min cnt (trace_seq_used s - sb_readpos (ts_seq s)))
    /\ sb_readpos sb = sb_readpos (ts_seq s) + Z.max n 0.
Proof.
  intros Hcnt Hun. unfold trace_seq_to_user. rewrite (unflushed_size _ Hun).
  unfold unflushed in Hun. rewrite (unflushed_size _ Hun) in Hun.
  apply Z.ltb_lt in Hun. unfold trace_seq_used in *. unfold seq_buf_to_user.
  destruct (Z.eqb_spec cnt 0) as [->|Hnz].
  - exists (ts_seq s), 0. unfold EBUSY, EFAULT. repeat split; auto; lia.
  - destruct (Z.leb_spec (seq_buf_used (ts_seq s)) (sb_readpos (ts_seq s))); [lia|].
    set (len := seq_buf_used (ts_seq s) - sb_readpos (ts_seq s)).
    set (c := if len <? cnt then len else cnt).
    assert (0 < c <= cnt /\ c = Z.min cnt len) as [Hc Hcmin].
    { unfold c. destruct (Z.ltb_spec len cnt); lia. }
    destruct (Z.eqb_spec (copy_to_user ubuf_ok c) c) as [Heq|Hneq].
    + exists (ts_seq s), (- EFAULT). unfold EBUSY, EFAULT in *.
      repeat split; auto; try lia.
      intros Hok. unfold copy_to_user in Heq. lia.
    + eexists _, (c - copy_to_user ubuf_ok c). split; [reflexivity|].
      unfold copy_to_user in *. unfold EBUSY, EFAULT. simpl.
      repeat split; try lia.
Qed.

Lemma to_user_nothing (s : trace_seq) (ubuf_ok cnt : Z) :
  cnt <> 0 -> unflushed s = false ->
  exists s', trace_seq_to_user s ubuf_ok cnt = (s', - EBUSY, []).
Proof.
  intros Hcnt Hun. unfold trace_seq_to_user, seq_buf_to_user.
  unfold unflushed, trace_seq_used in Hun. apply Z.ltb_ge in Hun.
  destruct (Z.eqb_spec cnt 0); [contradiction|].
  destruct (Z.leb_spec (seq_buf_used (ts_seq (__trace_seq_init s)))
              (sb_readpos (ts_seq (__trace_seq_init s)))); [|lia].
  eexists. reflexivity.
Qed.

Lemma world_eta (w : world) :
  {| w_buffer := w_buffer w; w_signal := w_signal w;
     w_future := w_future w; w_waits := w_waits w |} = w.
Proof. now destruct w. Qed.

Lemma waitagain_eq (fuel : nat) (classes : class_table)
    (f_flags ubuf_ok cnt sret : Z) (iter : print_event_iterator) (w : world) :
  waitagain fuel classes f_flags ubuf_ok cnt sret iter w =
  if w_signal w then
    {| rr_outcome := Returns sret; rr_user := []; rr_iter := iter; rr_world := w |}
  else
    match trace_wait_pipe f_flags (w_buffer w) (w_signal w) (w_waits w) (w_future w) with
    | None =>
        {| rr_outcome := Sleeps; rr_user := []; rr_iter := iter; rr_world := w |}
    | Some (sret, w) =>
        if sret <=? 0 then
          {| rr_outcome := Returns sret; rr_user := []; rr_iter := iter; rr_world := w |}
        else if is_trace_empty (w_buffer w) then
          {| rr_outcome := Returns 0; rr_user := []; rr_iter := iter; rr_world := w |}
        else
          let cnt := if PAGE_SIZE <=? cnt then PAGE_SIZE - 1 else cnt in
          let iter := reset_iter in
          match format_loop fuel classes cnt iter (w_buffer w) with
          | None =>
              {| rr_outcome := OutOfFuel; rr_user := []; rr_iter := iter; rr_world := w |}
          | Some (iter, buffer) =>
              let w := {| w_buffer := buffer; w_signal := w_signal w;
                          w_future := w_future w; w_waits := w_waits w |} in
              let '(seq, sret, out) := trace_seq_to_user (it_seq iter) ubuf_ok cnt in
              let seq :=
                if trace_seq_used seq <=? sb_readpos (ts_seq seq)
                then trace_seq_init seq else seq in
              let iter := set_seq iter seq in
              if sret =? - EBUSY then
                match fuel with
                | O => {| rr_outcome := OutOfFuel; rr_user := []; rr_iter := iter;
                          rr_world := w |}
                | S fuel' => waitagain fuel' classes f_flags ubuf_ok cnt sret iter w
                end
              else
                {| rr_outcome := Returns sret; rr_user := out; rr_iter := iter;
                   rr_world := w |}
          end
    end.
Proof. destruct fuel; reflexivity. Qed.

Lemma waitagain_signal (fuel : nat) (classes : class_table)
    (f_flags ubuf_ok cnt sret : Z) (iter : print_event_iterator) (w : world) :
  w_signal w = true ->
  waitagain fuel classes f_flags ubuf_ok cnt sret iter w =
    {| rr_outcome := Returns sret; rr_user := []; rr_iter := iter; rr_world := w |}.
Proof. intros Hsig. rewrite waitagain_eq. now rewrite Hsig. Qed.

Lemma waitagain_wait_fails (fuel : nat) (classes : class_table)
    (f_flags ubuf_ok cnt sret sret' : Z) (iter : print_event_iterator) (w w' : world) :
  w_signal w = false ->
  trace_wait_pipe f_flags (w_buffer w) (w_signal w) (w_waits w) (w_future w)
    = Some (sret', w') ->
  sret' <= 0 ->
  waitagain fuel classes f_flags ubuf_ok cnt sret iter w =
    {| rr_outcome := Returns sret'; rr_user := []; rr_iter := iter; rr_world := w' |}.
Proof.
  intros Hsig Hwait Hneg. rewrite waitagain_eq, Hwait, Hsig.
  destruct (Z.leb_spec sret' 0); [reflexivity|lia].
Qed.

Lemma trace_wait_pipe_nonblock (f_flags : Z) (w : world) :
  is_trace_empty (w_buffer w) = true -> nonblocking f_flags = true ->
  trace_wait_pipe f_flags (w_buffer w) (w_signal w) (w_waits w) (w_future w)
    = Some (- EAGAIN, w).
Proof.
  intros Hempty Hnb. destruct (w_future w) eqn:Hf; simpl;
    rewrite Hempty, Hnb, <- Hf, world_eta; reflexivity.
Qed.

Lemma trace_read_pipe_flush (fuel : nat) (classes : class_table)
    (f_flags ubuf_ok cnt : Z) (iter : print_event_iterator) (w : world)
    (s' : trace_seq) (n : Z) (out : list ascii) :
  trace_seq_to_user (it_seq iter) ubuf_ok cnt = (s', n, out) -> n <> - EBUSY ->
  trace_read_pipe fuel classes f_flags ubuf_ok cnt iter w =
    {| rr_outcome := Returns n; rr_user := out; rr_iter := set_seq iter s';
       rr_world := w |}.
Proof.
  intros Huser Hn. unfold trace_read_pipe. rewrite Huser.
  destruct (Z.eqb_spec n (- EBUSY)); [contradiction|reflexivity].
Qed.

Lemma trace_read_pipe_past_flush (fuel : nat) (classes : class_table)
    (f_flags ubuf_ok cnt : Z) (iter : print_event_iterator) (w : world) :
  cnt <> 0 -> unflushed (it_seq iter) = false ->
  exists iter',
    trace_read_pipe fuel classes f_flags ubuf_ok cnt iter w =
      waitagain fuel classes f_flags ubuf_ok cnt (- EBUSY) iter' w.
Proof.
  intros Hcnt Hun. destruct (to_user_nothing _ ubuf_ok _ Hcnt Hun) as (s' & Huser).
  unfold trace_read_pipe. rewrite Huser. rewrite Z.eqb_refl. simpl.
  eexists. reflexivity.
Qed.

(** C8: a read call on a session that still holds unflushed text returns
    at once with world and store as they were (nothing peeked, consumed or
    waited for); what reaches the caller is a prefix of the leftover text of
    at most the requested length, and with a writable user buffer it is the
    requested length or all of the leftover, whichever is less. *)
Theorem read_flushes_leftover (fuel : nat) (classes : class_table)
    (f_flags ubuf_ok cnt : Z) (iter : print_event_iterator) (w : world) :
  read_count_ok cnt ->
  unflushed (it_seq iter) = true ->
  let r := trace_read_pipe fuel classes f_flags ubuf_ok cnt iter w in
  let leftover := drop (Z.to_nat (sb_readpos (ts_seq (it_seq iter))))
                    (ts_buffer (it_seq iter)) in
  rr_world r = w
  /\ exists n,
       rr_outcome r = Returns n
       /\ rr_user r = take (Z.to_nat n) leftover
       /\ n <= cnt /\ (n = - EFAULT \/ 0 <= n)
       /\ n <= trace_seq_used (it_seq iter) - sb_readpos (ts_seq (it_seq iter))
       /\ (cnt <= ubuf_ok ->
           n = Z.min cnt (trace_seq_used (it_seq iter) - sb_readpos (ts_seq (it_seq iter))))
       /\ sb_readpos (ts_seq (it_seq (rr_iter r)))
          = sb_readpos (ts_seq (it_seq iter)) + Z.max n 0
       /\ ts_buffer (it_seq (rr_iter r)) = ts_buffer (it_seq iter).
Proof.
  intros [Hcnt _] Hun. cbv zeta.
  destruct (to_user_flush _ ubuf_ok _ Hcnt Hun)
    as (sb & n & Huser & Hn & Hle & Hsign & Hleft & Hmin & Hpos).
  rewrite (trace_read_pipe_flush _ _ _ _ _ _ _ _ _ _ Huser Hn). simpl.
  split; [reflexivity|]. exists n. repeat split; auto.
Qed.

(** ** Calls that must not wait *)

Lemma to_user_zero (s : trace_seq) (ubuf_ok : Z) :
  exists s', trace_seq_to_user s ubuf_ok 0 = (s', 0, []).
Proof. unfold trace_seq_to_user, seq_buf_to_user. simpl. eexists. reflexivity. Qed.

Lemma read_returns_early (fuel : nat) (classes : class_table)
    (f_flags ubuf_ok cnt : Z) (iter : print_event_iterator) (w : world) :
  0 <= cnt ->
  w_signal w = true \/
    (is_trace_empty (w_buffer w) = true /\ nonblocking f_flags = true) ->
  rr_world (trace_read_pipe fuel classes f_flags ubuf_ok cnt iter w) = w /\
  exists n, rr_outcome (trace_read_pipe fuel classes f_flags ubuf_ok cnt iter w) = Returns n.
Proof.
  intros Hcnt Hearly.
  destruct (Z.eq_dec cnt 0) as [->|Hnz].
  { destruct (to_user_zero (it_seq iter) ubuf_ok) as (s' & Huser).
    rewrite (trace_read_pipe_flush _ _ _ _ _ _ _ _ _ _ Huser); [|discriminate].
    simpl. eauto. }
  destruct (unflushed (it_seq iter)) eqn:Hun.
  { destruct (to_user_flush _ ubuf_ok _ Hcnt Hun) as (sb & n & Huser & Hn & _).
    rewrite (trace_read_pipe_flush _ _ _ _ _ _ _ _ _ _ Huser Hn). simpl. eauto. }
  destruct (trace_read_pipe_past_flush fuel classes f_flags ubuf_ok cnt iter w Hnz Hun)
    as (iter' & ->).
  destruct (w_signal w) eqn:Hsig.
  { rewrite waitagain_signal by exact Hsig. simpl. eauto. }
  destruct Hearly as [|[Hempty Hnb]]; [discriminate|].
  rewrite (waitagain_wait_fails _ _ _ _ _ _ (- EAGAIN) _ w w Hsig).
  - simpl. eauto.
  - now apply trace_wait_pipe_nonblock.
  - unfold EAGAIN. lia.
Qed.

(** C3, as amended: a read call on a globally empty store of a file opened
    with [O_NONBLOCK] always returns without entering the wait primitive and
    leaves store and world as they were; when the requested length is not
    zero, the session holds no unflushed text and no fatal signal is
    pending, what it returns is [-EAGAIN] and no byte reaches the caller. *)
Theorem nonblocking_read_on_empty_store (fuel : nat) (classes : class_table)
    (f_flags ubuf_ok cnt : Z) (iter : print_event_iterator) (w : world) :
  read_count_ok cnt ->
  is_trace_empty (w_buffer w) = true ->
  nonblocking f_flags = true ->
  let r := trace_read_pipe fuel classes f_flags ubuf_ok cnt iter w in
  rr_world r = w
  /\ (exists n, rr_outcome r = Returns n)
  /\ (cnt <> 0 -> unflushed (it_seq iter) = false -> w_signal w = false ->
      rr_outcome r = Returns (- EAGAIN) /\ rr_user r = []).
Proof.
  intros [Hcnt _] Hempty Hnb. cbv zeta.
  destruct (read_returns_early fuel classes f_flags ubuf_ok cnt iter w Hcnt) as [Hw Hret];
    [right; auto|].
  split; [exact Hw|]. split; [exact Hret|].
  intros Hnz Hun Hsig.
  destruct (trace_read_pipe_past_flush fuel classes f_flags ubuf_ok cnt iter w Hnz Hun)
    as (iter' & ->).
  rewrite (waitagain_wait_fails _ _ _ _ _ _ (- EAGAIN) _ w w Hsig).
  - split; reflexivity.
  - now apply trace_wait_pipe_nonblock.
  - unfold EAGAIN. lia.
Qed.

(** C3 as stated fails: after [first_read O_NONBLOCK] the store is empty
    and the session still holds eight bytes; a non-blocking read then
    returns these eight bytes, not [-EAGAIN].  A non-blocking read of length
    zero on an empty store returns 0, and one with a fatal signal pending
    returns [-EBUSY]. *)
Lemma nonblocking_read_not_always_eagain :
  (is_trace_empty (w_buffer (rr_world (first_read O_NONBLOCK))) = true
   /\ nonblocking O_NONBLOCK = true
   /\ rr_outcome (trace_read_pipe 5 [sample_class] O_NONBLOCK 100 100
                    (rr_iter (first_read O_NONBLOCK))
                    (rr_world (first_read O_NONBLOCK))) = Returns 8
   /\ rr_user (trace_read_pipe 5 [sample_class] O_NONBLOCK 100 100
                 (rr_iter (first_read O_NONBLOCK))
                 (rr_world (first_read O_NONBLOCK)))
      = list_ascii_of_string
          (String.append "wn id 7" (String (ascii_of_nat 10) EmptyString))
   /\ Returns 8 <> Returns (- EAGAIN))
  /\ (is_trace_empty (w_buffer (quiet_world empty_store false)) = true
      /\ rr_outcome (trace_read_pipe 5 [sample_class] O_NONBLOCK 100 0
                       trace_open_pipe (quiet_world empty_store false)) = Returns 0)
  /\ rr_outcome (trace_read_pipe 5 [sample_class] O_NONBLOCK 100 100
                   trace_open_pipe (quiet_world empty_store true)) = Returns (- EBUSY).
Proof.
  split; [|split]; [|split; vm_compute; reflexivity|vm_compute; reflexivity].
  split; [vm_compute; reflexivity|]. split; [vm_compute; reflexivity|].
  split; [vm_compute; reflexivity|]. split; [vm_compute; reflexivity|].
  discriminate.
Qed.

(** ** Cancellation *)




(** ** The page bound of one read call *)

Lemma to_user_bound (s : trace_seq) (ubuf_ok cnt : Z) :
  0 <= cnt ->
  forall s' n out, trace_seq_to_user s ubuf_ok cnt = (s', n, out) ->
    n <= cnt /\ Z.of_nat (length out) <= cnt.
Proof.
  intros Hcnt s' n out. unfold trace_seq_to_user, seq_buf_to_user.
  destruct (Z.eqb_spec cnt 0); [intros [= <- <- <-]; simpl; lia|].
  destruct (Z.leb_spec (seq_buf_used (ts_seq (__trace_seq_init s)))
              (sb_readpos (ts_seq (__trace_seq_init s))));
    [intros [= <- <- <-]; unfold EBUSY; simpl; lia|].
  set (len := seq_buf_used (ts_seq (__trace_seq_init s))
              - sb_readpos (ts_seq (__trace_seq_init s))).
  set (c := if len <? cnt then len else cnt).
  assert (c <= cnt) as Hc by (unfold c; destruct (Z.ltb_spec len cnt); lia).
  destruct (Z.eqb_spec (copy_to_user ubuf_ok c) c);
    [intros [= <- <- <-]; unfold EFAULT; simpl; lia|].
  intros [= <- <- <-]. unfold copy_to_user in *.
  split; [lia|]. rewrite length_take. lia.
Qed.

Lemma waitagain_bound (fuel : nat) :
  forall (classes : class_table) (f_flags ubuf_ok cnt sret : Z)
         (iter : print_event_iterator) (w : world) (n : Z),
    0 <= cnt -> sret <= PAGE_SIZE - 1 ->
    rr_outcome (waitagain fuel classes f_flags ubuf_ok cnt sret iter w) = Returns n ->
    n <= PAGE_SIZE - 1 /\
    Z.of_nat (length (rr_user (waitagain fuel classes f_flags ubuf_ok cnt sret iter w)))
      <= PAGE_SIZE - 1.
Proof.
  induction fuel as [|fuel IH]; intros classes f_flags ubuf_ok cnt sret iter w n Hcnt Hsret;
    rewrite waitagain_eq.
  all: destruct (w_signal w); [simpl; intros [= <-]; unfold PAGE_SIZE in *; lia|].
  all: destruct (trace_wait_pipe _ _ _ _ _) as [[sret' w']|]; [|discriminate].
  all: destruct (Z.leb_spec sret' 0); [simpl; intros [= <-]; unfold PAGE_SIZE; lia|].
  all: destruct (is_trace_empty (w_buffer w'));
    [simpl; intros [= <-]; unfold PAGE_SIZE; lia|].
  all: cbv zeta.
  all: set (cnt' := if PAGE_SIZE <=? cnt then PAGE_SIZE - 1 else cnt).
  all: assert (0 <= cnt' <= PAGE_SIZE - 1) as Hcnt'
      by (unfold cnt', PAGE_SIZE; destruct (Z.leb_spec 4096 cnt); lia).
  all: destruct (format_loop _ classes cnt' reset_iter (w_buffer w')) as [[iter2 buffer2]|];
    [|discriminate].
  all: destruct (trace_seq_to_user (it_seq iter2) ubuf_ok cnt') as [[seq2 sret2] out2] eqn:Huser.
  all: destruct (to_user_bound _ _ _ (proj1 Hcnt') _ _ _ Huser) as [Hn Hout].
  all: destruct (Z.eqb_spec sret2 (- EBUSY)) as [->|_];
    [|simpl; intros [= <-]; lia].
  - discriminate.
  - apply IH; [lia|unfold EBUSY, PAGE_SIZE; lia].
Qed.

Lemma trace_seq_printf_within_page (s : trace_seq) (text : list ascii) :
  within_page s -> within_page (trace_seq_printf s text).
Proof.
  intros [Hsz Hlen]. unfold trace_seq_printf.
  destruct (ts_full s); [split; assumption|].
  unfold __trace_seq_init. rewrite Hsz. change (PAGE_SIZE =? 0) with false. cbv iota.
  unfold seq_buf_vprintf, vsnprintf, seq_buf_has_overflowed, seq_buf_set_overflow.
  rewrite Hsz.
  destruct (Z.ltb_spec (sb_len (ts_seq s)) PAGE_SIZE); [|lia].
  destruct (PAGE_SIZE - sb_len (ts_seq s) <=? 0); cbv beta iota zeta.
  all: destruct (Z.ltb_spec (sb_len (ts_seq s) + Z.of_nat (length text)) PAGE_SIZE); simpl.
  all: try (destruct (Z.ltb_spec PAGE_SIZE (sb_len (ts_seq s) + Z.of_nat (length text)));
            [lia|]; split; simpl; lia).
  all: destruct (Z.ltb_spec PAGE_SIZE (PAGE_SIZE + 1)); [|lia]; split; simpl; lia.
Qed.

Lemma print_trace_fmt_line_within_page (classes : class_table)
    (iter : print_event_iterator) (entry : print_event_entry) :
  Forall class_within_page classes -> within_page (it_seq iter) ->
  within_page (fst (print_trace_fmt_line classes iter entry)).
Proof.
  intros Hclasses Hpage. unfold print_trace_fmt_line.
  destruct (trace_seq_has_overflowed (it_seq iter)); [exact Hpage|].
  destruct (find_print_event classes (Z.of_N (ent_id entry))) as [c|] eqn:Hfind.
  - unfold find_print_event in Hfind.
    destruct (Z.of_N (ent_id entry) <? num_print_event_class classes); [|discriminate].
    destruct (Z.of_N (ent_id entry) <? 0); [discriminate|].
    apply (proj1 (Forall_lookup _ _) Hclasses _ _ Hfind). exact Hpage.
  - simpl. now apply trace_seq_printf_within_page.
Qed.

Lemma format_round_within_page (classes : class_table) (cnt : Z)
    (iter : print_event_iterator) (buffer : ring_buffer) :
  Forall class_within_page classes -> within_page (it_seq iter) ->
  within_page (it_seq (fst (fst (format_round classes cnt iter buffer)))).
Proof.
  intros Hclasses Hpage.
  destruct (it_ent (trace_next_entry_inc iter buffer)) as [entry|] eqn:Hent.
  2:{ unfold format_round. rewrite Hent. simpl. now rewrite it_seq_next. }
  destruct (print_trace_fmt_line classes (trace_next_entry_inc iter buffer) entry)
    as [seq' ret] eqn:Hfmt.
  assert (within_page seq') as Hpage'.
  { change seq' with (fst (seq', ret)). rewrite <- Hfmt.
    apply print_trace_fmt_line_within_page; [exact Hclasses|now rewrite it_seq_next]. }
  rewrite (format_round_eq _ _ _ _ _ _ _ Hent Hfmt). cbv zeta.
  destruct (print_line_t_eqb ret TRACE_TYPE_PARTIAL_LINE).
  - simpl. destruct Hpage as [_ Hlen], Hpage' as [Hsz' _]. split; simpl; assumption.
  - pose proof (consume_current_buffer
                  (set_seq (trace_next_entry_inc iter buffer) seq') buffer) as [_ Hs].
    destruct (negb (print_line_t_eqb ret TRACE_TYPE_NO_CONSUME)).
    + destruct (consume_current _ buffer) as [iter2 buffer2]. simpl in Hs.
      destruct (cnt <=? trace_seq_used (it_seq iter2)); simpl; now rewrite Hs.
    + destruct (cnt <=? _); simpl; exact Hpage'.
Qed.

Lemma format_loop_within_page (fuel : nat) :
  forall (classes : class_table) (cnt : Z) (iter iter' : print_event_iterator)
         (buffer buffer' : ring_buffer),
    Forall class_within_page classes -> within_page (it_seq iter) ->
    format_loop fuel classes cnt iter buffer = Some (iter', buffer') ->
    within_page (it_seq iter').
Proof.
  induction fuel as [|fuel IH]; intros classes cnt iter iter' buffer buffer' Hc Hp; simpl.
  all: pose proof (format_round_within_page classes cnt iter buffer Hc Hp) as Hround.
  all: destruct (format_round classes cnt iter buffer) as [[iter1 buffer1] [|]];
    simpl in Hround.
  all: try (intros [= <- <-]; exact Hround).
  all: try discriminate.
  intros Hloop. eapply IH; eauto.
Qed.

Lemma within_page_reset_iter : within_page (it_seq reset_iter).
Proof. split; [reflexivity|]. simpl. unfold PAGE_SIZE. lia. Qed.

(** A method written on [trace_seq_printf] keeps the sequence within the
    page. *)
Lemma printf_format_within_page (render : print_event_entry -> list ascii)
    (id : Z) (rb : option Z) :
  class_within_page {| cls_id := id; cls_format := printf_format render; cls_buffer := rb |}.
Proof. intros s e Hpage. simpl. now apply trace_seq_printf_within_page. Qed.

(** C10: a read call that gets past the leftover flush never returns more
    than [PAGE_SIZE - 1] and never stores more than [PAGE_SIZE - 1] bytes in
    the user buffer, whatever length was asked for and whatever the format
    methods do; with classes that keep the sequence within the page, as
    methods written on [trace_seq_printf] do, the format loop of a call
    ends with at most [PAGE_SIZE - 1] bytes of text; and when the session
    holds text after the call, the next call hands out (part of) it on the
    leftover-flush path, leaving the store and the world alone. *)
Theorem read_page_bound (fuel : nat) (classes : class_table)
    (f_flags ubuf_ok cnt : Z) (iter : print_event_iterator) (w : world) :
  read_count_ok cnt -> cnt <> 0 -> unflushed (it_seq iter) = false ->
  let r := trace_read_pipe fuel classes f_flags ubuf_ok cnt iter w in
  (forall n, rr_outcome r = Returns n ->
     n <= PAGE_SIZE - 1 /\ Z.of_nat (length (rr_user r)) <= PAGE_SIZE - 1)
  /\ (forall fuel' cnt' buffer iter' buffer',
        Forall class_within_page classes ->
        format_loop fuel' classes cnt' reset_iter buffer = Some (iter', buffer') ->
        trace_seq_used (it_seq iter') <= PAGE_SIZE - 1)
  /\ (unflushed (it_seq (rr_iter r)) = true ->
      forall fuel' f_flags' ubuf_ok' cnt', read_count_ok cnt' ->
        let r' := trace_read_pipe fuel' classes f_flags' ubuf_ok' cnt'
                    (rr_iter r) (rr_world r) in
        rr_world r' = rr_world r
        /\ exists n', rr_outcome r' = Returns n' /\ n' <= cnt'
             /\ rr_user r' =
                take (Z.to_nat n')
                  (drop (Z.to_nat (sb_readpos (ts_seq (it_seq (rr_iter r)))))
                     (ts_buffer (it_seq (rr_iter r))))).
Proof.
  intros [Hcnt _] Hnz Hun. cbv zeta. split; [|split].
  - intros n.
    destruct (trace_read_pipe_past_flush fuel classes f_flags ubuf_ok cnt iter w Hnz Hun)
      as (iter0 & ->).
    apply waitagain_bound; [exact Hcnt|unfold EBUSY, PAGE_SIZE; lia].
  - intros fuel' cnt' buffer iter' buffer' Hclasses Hloop.
    pose proof (format_loop_within_page _ _ _ _ _ _ _ Hclasses within_page_reset_iter Hloop)
      as [Hsz Hlen].
    unfold trace_seq_used, seq_buf_used. lia.
  - intros Hleft fuel' f_flags' ubuf_ok' cnt' [Hcnt' _].
    destruct (to_user_flush _ ubuf_ok' _ Hcnt' Hleft)
      as (sb & n' & Huser & Hn & Hle & _).
    rewrite (trace_read_pipe_flush _ _ _ _ _ _ _ _ _ _ Huser Hn). simpl.
    split; [reflexivity|]. exists n'. auto.
Qed.

(** C10 as stated fails: the clamp bounds what a call hands out, not what
    it formats.  [block_class] writes its lines of 2048 bytes with
    [trace_seq_puts], which may fill the page to its last byte: the read
    call [block_read] formats both records of [block_store], 4096 bytes of
    new text, hands out 4095 of them and keeps the last for the next
    call. *)
Lemma read_formats_whole_page :
  read_count_ok 1000000
  /\ unflushed (it_seq trace_open_pipe) = false
  /\ option_map (fun r => trace_seq_used (it_seq (fst r)))
       (format_loop 5 [block_class] (PAGE_SIZE - 1) reset_iter block_store)
     = Some PAGE_SIZE
  /\ rr_outcome block_read = Returns (PAGE_SIZE - 1)
  /\ Z.of_nat (length (rr_user block_read)) = PAGE_SIZE - 1
  /\ trace_seq_used (it_seq (rr_iter block_read)) = PAGE_SIZE
  /\ seq_text (it_seq (rr_iter block_read)) = block_line ++ block_line
  /\ (PAGE_SIZE - 1 <? trace_seq_used (it_seq (rr_iter block_read))) = true
  /\ total_events (w_buffer (rr_world block_read)) = O
  /\ within_page (it_seq reset_iter)
  /\ sb_len (ts_seq (fst (cls_format block_class
                            (fst (cls_format block_class (it_seq reset_iter)
                                    (sample_entry 0)))
                            (sample_entry 0)))) = PAGE_SIZE.
Proof.
  split; [unfold read_count_ok, MAX_RW_COUNT; lia|].
  split; [reflexivity|].
  split; [vm_compute; reflexivity|]. split; [vm_compute; reflexivity|].
  split; [vm_compute; reflexivity|]. split; [vm_compute; reflexivity|].
  split; [vm_compute; reflexivity|]. split; [vm_compute; reflexivity|].
  split; [vm_compute; reflexivity|].
  split; [exact within_page_reset_iter|]. vm_compute. reflexivity.
Qed.

(** ** Start-up *)

Lemma PRINT_EVENT_ID_MAX_pow (id_size : Z) :
  PRINT_EVENT_ID_MAX id_size = 2 ^ (8 * id_size) - 1.
Proof. unfold PRINT_EVENT_ID_MAX. rewrite Z.shiftl_1_l. f_equal. f_equal. lia. Qed.

(** The paths through [print_event_init]. *)
Lemma print_event_init_cases (id_size : Z) (env : init_env) (k : kernel) :
  let K := num_print_event_class (k_classes k) in
  let r := print_event_init id_size env k in
  ((K = 0 /\ r = (0, k))
  \/ (K <> 0 /\ PRINT_EVENT_ID_MAX id_size <= K /\ r = (- EINVAL, k))
  \/ (K <> 0 /\ K < PRINT_EVENT_ID_MAX id_size /\
      ((env_symbol env = false /\ fst r = - ENODEV /\
        k_log (snd r) = k_log k ++ [KallsymsLookup])
       \/ (env_symbol env = true /\ env_alloc env = None /\ fst r = - ENOMEM /\
           k_log (snd r) = k_log k ++ [KallsymsLookup; RingBufferAlloc])
       \/ (env_symbol env = true /\ is_Some (env_alloc env) /\ env_mkdir env = false /\
           fst r = - ENOMEM /\
           k_log (snd r) = k_log k ++ [KallsymsLookup; RingBufferAlloc; ProcMkdir; Kfree])
       \/ (env_symbol env = true /\ is_Some (env_alloc env) /\ env_mkdir env = true /\
           env_create env = false /\ fst r = - ENOMEM /\
           k_proc_dir (snd r) = false /\ k_proc_pipe (snd r) = None /\
           k_log (snd r) = k_log k ++ [KallsymsLookup; RingBufferAlloc; ProcMkdir;
                                        ProcCreateData; RemoveProcSubtree; Kfree])
       \/ (env_symbol env = true /\ is_Some (env_alloc env) /\ env_mkdir env = true /\
           env_create env = true /\ fst r = 0 /\
           k_classes (snd r) = assign_classes id_size (env_alloc env) 0 (k_classes k) /\
           k_ring_buffer (snd r) = env_alloc env /\
           k_proc_dir (snd r) = true /\ k_proc_pipe (snd r) = env_alloc env /\
           k_log (snd r) = k_log k ++ [KallsymsLookup; RingBufferAlloc; ProcMkdir;
                                        ProcCreateData]
                           ++ assign_log id_size 0 (k_classes k)))))
  /\ (fst r <> 0 ->
      k_classes (snd r) = k_classes k /\
      (unpublished k -> unpublished (snd r))).
Proof.
  cbv zeta. unfold print_event_init, unpublished.
  destruct (Z.eqb_spec (num_print_event_class (k_classes k)) 0) as [HK|HK].
  { split; [left; auto|]. simpl. intros H. contradiction. }
  destruct (Z.leb_spec (PRINT_EVENT_ID_MAX id_size) (num_print_event_class (k_classes k)))
    as [Hmax|Hmax].
  { split; [right; left; auto|]. simpl. auto. }
  destruct env as [sym alloc mk cr]. unfold kallsyms_lookup_symbols. simpl.
  destruct sym; simpl.
  2:{ split; [|auto]. right. right. repeat split; auto. }
  destruct alloc as [addr|]; simpl.
  2:{ split; [|auto]. right. right. repeat split; auto.
      right. left. rewrite <- app_assoc. repeat split; auto. }
  destruct mk; simpl.
  2:{ split; [|auto]. right. right. repeat split; auto.
      right. right. left. rewrite <- !app_assoc. repeat split; eauto. }
  destruct cr; simpl.
  2:{ split; [|auto]. right. right. repeat split; auto.
      right. right. right. left. rewrite <- !app_assoc. repeat split; eauto. }
  split; [|intros H; contradiction]. right. right. repeat split; auto.
  right. right. right. right. rewrite <- !app_assoc. repeat split; eauto.
Qed.

(** C4, as amended: [print_event_init] returns [-EINVAL] exactly when the
    class count is not zero and at least [PRINT_EVENT_ID_MAX], which is
    [2^(8 * id_size) - 1], that is 255 for an 8-bit id: the check passes for
    1 to 254 classes and fails from 255 on.  When it fails nothing has been
    touched; when it passes, start-up succeeds provided the symbol lookup,
    the allocation of the store and the creation of the proc entries do. *)
Theorem init_class_limit (id_size : Z) (env : init_env) (k : kernel) :
  let K := num_print_event_class (k_classes k) in
  let r := print_event_init id_size env k in
  (fst r = - EINVAL <-> K <> 0 /\ PRINT_EVENT_ID_MAX id_size <= K)
  /\ (fst r = - EINVAL -> snd r = k)
  /\ (K < PRINT_EVENT_ID_MAX id_size ->
      env_symbol env = true -> is_Some (env_alloc env) ->
      env_mkdir env = true -> env_create env = true ->
      fst r = 0)
  /\ PRINT_EVENT_ID_MAX 1 = 255
  /\ PRINT_EVENT_ID_MAX id_size = 2 ^ (8 * id_size) - 1.
Proof.
  cbv zeta.
  destruct (print_event_init_cases id_size env k) as [Hcases _]. cbv zeta in Hcases.
  split; [|split; [|split; [|split]]].
  - destruct Hcases as [[HK ->]|[(HK & Hmax & ->)|(HK & Hmax & Hrest)]]; simpl.
    + split; [discriminate|]. intros [H _]. contradiction.
    + split; auto.
    + split; [|lia]. intros Heq. exfalso.
      destruct Hrest as [H|[H|[H|[H|H]]]]; decompose [and] H; clear H;
        unfold EINVAL, ENODEV, ENOMEM in *; lia.
  - destruct Hcases as [[HK ->]|[(HK & Hmax & ->)|(HK & Hmax & Hrest)]]; simpl.
    + discriminate.
    + reflexivity.
    + intros Heq. exfalso.
      destruct Hrest as [H|[H|[H|[H|H]]]]; decompose [and] H; clear H;
        unfold EINVAL, ENODEV, ENOMEM in *; lia.
  - intros Hmax Hsym Halloc Hmk Hcr.
    destruct Hcases as [[HK ->]|[(HK & Hmax' & ->)|(HK & _ & Hrest)]]; simpl.
    + reflexivity.
    + lia.
    + destruct Halloc as [addr Halloc].
      destruct Hrest as [H|[H|[H|[H|H]]]]; decompose [and] H; clear H; congruence.
  - reflexivity.
  - apply PRINT_EVENT_ID_MAX_pow.
Qed.

(** C4 as stated fails: with an 8-bit id and 255 classes start-up returns
    [-EINVAL] although every kernel service succeeds; 254 classes are the
    most it accepts. *)
Lemma init_rejects_255_classes :
  num_print_event_class (repeat sample_class 255) = 255
  /\ fst (print_event_init 1 good_env (fresh_kernel (repeat sample_class 255))) = - EINVAL
  /\ fst (print_event_init 1 good_env (fresh_kernel (repeat sample_class 254))) = 0.
Proof. repeat split; vm_compute; reflexivity. Qed.

(** ** Registration and lookup *)

Lemma assign_classes_lookup (id_size : Z) (rb : option Z) (classes : class_table) :
  forall (id : Z) (i : nat) (d : print_event_class),
    classes !! i = Some d ->
    assign_classes id_size rb id classes !! i =
      Some {| cls_id := (id + Z.of_nat i) mod 2 ^ (8 * id_size);
              cls_format := cls_format d; cls_buffer := rb |}.
Proof.
  induction classes as [|c classes IH]; intros id [|i] d Hd; simpl in *; try discriminate.
  - injection Hd as ->. now rewrite Z.add_0_r.
  - rewrite (IH (id + 1) i d Hd). do 3 f_equal. lia.
Qed.

Lemma assign_classes_length (id_size : Z) (rb : option Z) (classes : class_table) :
  forall id, length (assign_classes id_size rb id classes) = length classes.
Proof. induction classes as [|c classes IH]; intros id; simpl; [reflexivity|now rewrite IH]. Qed.

(** C9: after a successful start-up the class table has as many classes as
    were collected; for every [i] below that number [find_print_event i]
    gives the class at place [i], which carries id [i], the [format] method
    of the [i]-th collected class and the address of the store; and for
    every id from that number on it gives no class. *)
Theorem registration_lookup_roundtrip (id_size : Z) (env : init_env) (k : kernel) :
  let K := num_print_event_class (k_classes k) in
  let r := print_event_init id_size env k in
  fst r = 0 -> K <> 0 ->
  num_print_event_class (k_classes (snd r)) = K
  /\ (forall i, 0 <= i < K ->
        exists c d,
          find_print_event (k_classes (snd r)) i = Some c
          /\ k_classes (snd r) !! Z.to_nat i = Some c
          /\ k_classes k !! Z.to_nat i = Some d
          /\ cls_id c = i
          /\ cls_format c = cls_format d
          /\ cls_buffer c = k_ring_buffer (snd r)
          /\ is_Some (k_ring_buffer (snd r)))
  /\ (forall id, K <= id -> find_print_event (k_classes (snd r)) id = None).
Proof.
  cbv zeta. intros Hok HK.
  destruct (print_event_init_cases id_size env k) as [Hcases _]. cbv zeta in Hcases.
  destruct Hcases as [[HK0 _]|[(_ & _ & Hr)|(_ & Hmax & Hrest)]].
  { contradiction. }
  { rewrite Hr in Hok. discriminate. }
  destruct Hrest as [H|[H|[H|[H|H]]]];
    try (decompose [and] H; clear H; unfold ENODEV, ENOMEM in *; lia).
  destruct H as (_ & Halloc & _ & _ & _ & Hclasses & Hrb & _).
  assert (num_print_event_class (k_classes (snd (print_event_init id_size env k)))
          = num_print_event_class (k_classes k)) as Hnum.
  { unfold num_print_event_class. now rewrite Hclasses, assign_classes_length. }
  split; [exact Hnum|]. split.
  - intros i Hi.
    destruct (lookup_lt_is_Some_2 (k_classes k) (Z.to_nat i)) as [d Hd].
    { unfold num_print_event_class in Hi. lia. }
    pose proof (assign_classes_lookup id_size (env_alloc env) _ 0 _ _ Hd) as Hc.
    rewrite <- Hclasses in Hc.
    eexists _, d. unfold find_print_event. rewrite Hnum.
    destruct (Z.ltb_spec i (num_print_event_class (k_classes k))); [|lia].
    destruct (Z.ltb_spec i 0); [lia|].
    split; [exact Hc|]. split; [exact Hc|]. split; [exact Hd|]. simpl.
    rewrite Hrb. repeat split; auto.
    rewrite PRINT_EVENT_ID_MAX_pow in Hmax.
    rewrite Z2Nat.id by lia. apply Z.mod_small. lia.
  - intros id Hid. apply find_print_event_out_of_range. rewrite Hnum. exact Hid.
Qed.

(** C7, as amended: a start-up that succeeds with classes to register has
    looked up the wait primitive, allocated the store, created the proc
    directory and the trace_pipe entry bound to the store, and only then
    assigned the ids and bound the classes, in this order.  A start-up that
    returns an error has touched no class and leaves nothing published; the
    error is [-ENOMEM] when the allocation of the store or the creation of
    either proc entry fails. *)
Theorem init_order_and_rollback (id_size : Z) (env : init_env) (k : kernel) :
  let K := num_print_event_class (k_classes k) in
  let r := print_event_init id_size env k in
  unpublished k ->
  (fst r = 0 -> K <> 0 ->
     k_log (snd r) =
       k_log k ++ [KallsymsLookup; RingBufferAlloc; ProcMkdir; ProcCreateData]
               ++ assign_log id_size 0 (k_classes k)
     /\ k_proc_dir (snd r) = true
     /\ is_Some (k_proc_pipe (snd r))
     /\ k_proc_pipe (snd r) = k_ring_buffer (snd r)
     /\ k_classes (snd r) =
          assign_classes id_size (k_ring_buffer (snd r)) 0 (k_classes k))
  /\ (fst r <> 0 -> k_classes (snd r) = k_classes k /\ unpublished (snd r))
  /\ (K <> 0 -> K < PRINT_EVENT_ID_MAX id_size -> env_symbol env = true ->
      env_alloc env = None \/ env_mkdir env = false \/ env_create env = false ->
      fst r = - ENOMEM).
Proof.
  cbv zeta. intros Hun.
  destruct (print_event_init_cases id_size env k) as [Hcases Hfail]. cbv zeta in *.
  split; [|split].
  - intros Hok HK.
    destruct Hcases as [[HK0 _]|[(_ & _ & Hr)|(_ & Hmax & Hrest)]].
    { contradiction. }
    { rewrite Hr in Hok. discriminate. }
    destruct Hrest as [H|[H|[H|[H|H]]]];
      try (decompose [and] H; clear H; unfold ENODEV, ENOMEM in *; lia).
    destruct H as (_ & Halloc & _ & _ & _ & Hclasses & Hrb & Hdir & Hpipe & Hlog).
    rewrite Hlog, Hdir, Hpipe, Hrb, Hclasses. repeat split; auto.
  - intros Hne. destruct (Hfail Hne) as [Hc Hp]. auto.
  - intros HK Hmax Hsym Hbad.
    destruct Hcases as [[HK0 _]|[(_ & Hmax' & _)|(_ & _ & Hrest)]]; [contradiction|lia|].
    destruct Hrest as [H|[H|[H|[H|H]]]]; decompose [and] H; clear H; try congruence.
    destruct Hbad as [Hb|[Hb|Hb]]; try congruence.
    match goal with Hs : is_Some (env_alloc env) |- _ => destruct Hs; congruence end.
Qed.

(** C7 as stated fails: in a start-up that succeeds, the class gets its id
    and its store after the store was allocated and after the trace_pipe
    entry was created, not before. *)
Lemma init_registers_after_publication :
  fst (print_event_init 1 good_env (fresh_kernel [sample_class])) = 0
  /\ k_log (snd (print_event_init 1 good_env (fresh_kernel [sample_class])))
     = [KallsymsLookup; RingBufferAlloc; ProcMkdir; ProcCreateData; AssignClass 0]
  /\ happens_before (AssignClass 0) RingBufferAlloc
       (k_log (snd (print_event_init 1 good_env (fresh_kernel [sample_class])))) = false
  /\ happens_before RingBufferAlloc (AssignClass 0)
       (k_log (snd (print_event_init 1 good_env (fresh_kernel [sample_class])))) = true
  /\ happens_before ProcCreateData (AssignClass 0)
       (k_log (snd (print_event_init 1 good_env (fresh_kernel [sample_class])))) = true.
Proof. repeat split; vm_compute; reflexivity. Qed.

(** The two ways the hooks release the store: the error paths of
    [print_event_init] call [kfree], [print_event_exit] calls
    [ring_buffer_free]. *)
Example rollback_and_exit_release :
  let failed :=
    snd (print_event_init 1
           {| env_symbol := true; env_alloc := Some 1; env_mkdir := false;
              env_create := true |}
           (fresh_kernel [sample_class])) in
  let stopped :=
    print_event_exit (snd (print_event_init 1 good_env (fresh_kernel [sample_class]))) in
  (k_store_struct failed = false /\ k_store_cpu_buffers failed = true)
  /\ (k_store_struct stopped = false /\ k_store_cpu_buffers stopped = false)
  /\ unpublished stopped.
Proof. repeat split; vm_compute; reflexivity. Qed.

(** ** The properties at sample inputs *)

Example drain_two_cpu_store :
  drain 3 two_cpu_store =
    [(1, 3, sample_entry 2); (0, 5, sample_entry 1); (0, 7, sample_entry 1)].
Proof. reflexivity. Qed.

(** The scenario of the specification with classes 0, 1 and 2 registered:
    one blocking read hands out the three lines in time order, and the next
    one sleeps on the empty store. *)
Example read_two_cpu_store :
  rr_outcome (trace_read_pipe 5 three_classes 0 100 100 trace_open_pipe
                (quiet_world two_cpu_store false)) = Returns 12
  /\ rr_user (trace_read_pipe 5 three_classes 0 100 100 trace_open_pipe
                (quiet_world two_cpu_store false))
     = list_ascii_of_string
         (String.append "two" (String (ascii_of_nat 10)
            (String.append "one" (String (ascii_of_nat 10)
               (String.append "one" (String (ascii_of_nat 10) EmptyString))))))
  /\ is_trace_empty
       (w_buffer (rr_world (trace_read_pipe 5 three_classes 0 100 100 trace_open_pipe
                              (quiet_world two_cpu_store false)))) = true
  /\ rr_outcome
       (trace_read_pipe 5 three_classes 0 100 100
          (rr_iter (trace_read_pipe 5 three_classes 0 100 100 trace_open_pipe
                      (quiet_world two_cpu_store false)))
          (rr_world (trace_read_pipe 5 three_classes 0 100 100 trace_open_pipe
                       (quiet_world two_cpu_store false)))) = Sleeps.
Proof. repeat split; vm_compute; reflexivity. Qed.

Example find_next_entry_tie :
  __find_next_entry tie_store = (Some (sample_entry 1), 1, 4, 2).
Proof. reflexivity. Qed.

Lemma find_next_entry_global_minimum_witness :
  is_trace_empty two_cpu_store = false
  /\ per_cpu_sorted two_cpu_store
  /\ (exists e cpu,
        __find_next_entry two_cpu_store
          = (Some (rbe_data e), cpu, rbe_ts e, lost_of two_cpu_store cpu)
        /\ oldest two_cpu_store cpu = Some e
        /\ forall cpu' e', oldest two_cpu_store cpu' = Some e' ->
             rbe_ts e <= rbe_ts e' /\ (rbe_ts e' = rbe_ts e -> cpu <= cpu'))
  /\ Sorted Z.le (map drained_ts (drain 3 two_cpu_store))
  /\ length (drain 3 two_cpu_store) = total_events two_cpu_store.
Proof.
  assert (is_trace_empty two_cpu_store = false) as Hne by reflexivity.
  assert (per_cpu_sorted two_cpu_store) as Hs.
  { repeat constructor; simpl; lia. }
  destruct (find_next_entry_global_minimum two_cpu_store) as (_ & Hmin & Hdrain & _).
  split; [exact Hne|]. split; [exact Hs|]. split; [exact (Hmin Hne)|].
  apply (Hdrain Hs 3%nat). apply Nat.leb_le. reflexivity.
Defined.

Lemma format_round_partial_line_witness :
  it_ent (trace_next_entry_inc nearly_full_iter one_record_store) = Some (sample_entry 7)
  /\ snd (print_trace_fmt_line [sample_class]
            (trace_next_entry_inc nearly_full_iter one_record_store) (sample_entry 7))
     = TRACE_TYPE_PARTIAL_LINE
  /\ (exists iter',
        format_round [sample_class] 100 nearly_full_iter one_record_store
          = (iter', one_record_store, LoopBreak)
        /\ sb_len (ts_seq (it_seq iter')) = 4090
        /\ forall iter2,
             it_ent (trace_next_entry_inc iter2 one_record_store) = Some (sample_entry 7)).
Proof.
  assert (it_ent (trace_next_entry_inc nearly_full_iter one_record_store)
          = Some (sample_entry 7)) as Hent by reflexivity.
  assert (print_trace_fmt_line [sample_class]
            (trace_next_entry_inc nearly_full_iter one_record_store) (sample_entry 7)
          = (fst (print_trace_fmt_line [sample_class]
                    (trace_next_entry_inc nearly_full_iter one_record_store)
                    (sample_entry 7)),
             TRACE_TYPE_PARTIAL_LINE)) as Hfmt by (vm_compute; reflexivity).
  destruct (format_round_partial_line [sample_class] 100 nearly_full_iter one_record_store)
    as [Hpartial _].
  destruct (Hpartial _ _ Hent Hfmt) as (Hround & _ & Hlen & _ & _ & Hnext).
  split; [exact Hent|]. split; [now rewrite Hfmt|].
  eexists. split; [exact Hround|]. split; [exact Hlen|].
  intros iter2. apply (Hnext iter2).
Defined.


Lemma read_flushes_leftover_witness :
  read_count_ok 100
  /\ unflushed (it_seq (rr_iter (first_read 0))) = true
  /\ rr_world (trace_read_pipe 5 [sample_class] 0 100 100
                 (rr_iter (first_read 0)) (rr_world (first_read 0))) = rr_world (first_read 0)
  /\ exists n,
       rr_outcome (trace_read_pipe 5 [sample_class] 0 100 100
                     (rr_iter (first_read 0)) (rr_world (first_read 0))) = Returns n
       /\ n = Z.min 100 (trace_seq_used (it_seq (rr_iter (first_read 0)))
                         - sb_readpos (ts_seq (it_seq (rr_iter (first_read 0))))).
Proof.
  assert (read_count_ok 100) as Hcnt by (unfold read_count_ok, MAX_RW_COUNT; lia).
  assert (unflushed (it_seq (rr_iter (first_read 0))) = true) as Hun by (vm_compute; reflexivity).
  destruct (read_flushes_leftover 5 [sample_class] 0 100 100
              (rr_iter (first_read 0)) (rr_world (first_read 0)) Hcnt Hun)
    as (Hw & n & Hout & _ & _ & _ & _ & Hmin & _).
  split; [exact Hcnt|]. split; [exact Hun|]. split; [exact Hw|].
  exists n. split; [exact Hout|]. apply Hmin. lia.
Defined.

Lemma nonblocking_read_on_empty_store_witness :
  read_count_ok 100
  /\ is_trace_empty (w_buffer (quiet_world empty_store false)) = true
  /\ nonblocking O_NONBLOCK = true
  /\ rr_outcome (trace_read_pipe 5 [sample_class] O_NONBLOCK 100 100 trace_open_pipe
                   (quiet_world empty_store false)) = Returns (- EAGAIN)
  /\ rr_world (trace_read_pipe 5 [sample_class] O_NONBLOCK 100 100 trace_open_pipe
                 (quiet_world empty_store false)) = quiet_world empty_store false.
Proof.
  assert (read_count_ok 100) as Hcnt by (unfold read_count_ok, MAX_RW_COUNT; lia).
  assert (is_trace_empty (w_buffer (quiet_world empty_store false)) = true) as Hempty
    by reflexivity.
  assert (nonblocking O_NONBLOCK = true) as Hnb by reflexivity.
  destruct (nonblocking_read_on_empty_store 5 [sample_class] O_NONBLOCK 100 100
              trace_open_pipe (quiet_world empty_store false) Hcnt Hempty Hnb)
    as (Hw & _ & Hagain).
  split; [exact Hcnt|]. split; [exact Hempty|]. split; [exact Hnb|].
  split; [|exact Hw].
  apply Hagain; [lia|reflexivity|reflexivity].
Defined.


Lemma read_page_bound_witness :
  read_count_ok 1000000
  /\ unflushed (it_seq trace_open_pipe) = false
  /\ (forall n,
        rr_outcome (trace_read_pipe 5 [sample_class] 0 1000000 1000000 trace_open_pipe
                      (quiet_world two_cpu_store false)) = Returns n ->
        n <= PAGE_SIZE - 1)
  /\ rr_outcome (trace_read_pipe 5 [sample_class] 0 1000000 1000000 trace_open_pipe
                   (quiet_world two_cpu_store false)) = Returns 39
  /\ Forall class_within_page [sample_class]
  /\ (forall iter' buffer',
        format_loop 5 [sample_class] (PAGE_SIZE - 1) reset_iter two_cpu_store
        = Some (iter', buffer') ->
        trace_seq_used (it_seq iter') <= PAGE_SIZE - 1).
Proof.
  assert (read_count_ok 1000000) as Hcnt by (unfold read_count_ok, MAX_RW_COUNT; lia).
  assert (unflushed (it_seq trace_open_pipe) = false) as Hun by reflexivity.
  assert (Forall class_within_page [sample_class]) as Hclasses
    by (constructor; [apply printf_format_within_page|constructor]).
  destruct (read_page_bound 5 [sample_class] 0 1000000 1000000 trace_open_pipe
              (quiet_world two_cpu_store false) Hcnt ltac:(lia) Hun) as (Hbound & Hfmt & _).
  split; [exact Hcnt|]. split; [exact Hun|]. split; [|split; [|split]].
  - intros n Hn. exact (proj1 (Hbound n Hn)).
  - vm_compute. reflexivity.
  - exact Hclasses.
  - intros iter' buffer' Hloop.
    exact (Hfmt 5%nat (PAGE_SIZE - 1) two_cpu_store iter' buffer' Hclasses Hloop).
Defined.

Lemma init_order_and_rollback_witness :
  unpublished (fresh_kernel [sample_class])
  /\ k_log (snd (print_event_init 1 good_env (fresh_kernel [sample_class]))) =
       [] ++ [KallsymsLookup; RingBufferAlloc; ProcMkdir; ProcCreateData]
          ++ assign_log 1 0 [sample_class]
  /\ k_proc_dir (snd (print_event_init 1 good_env (fresh_kernel [sample_class]))) = true.
Proof.
  assert (unpublished (fresh_kernel [sample_class])) as Hun by (split; reflexivity).
  destruct (init_order_and_rollback 1 good_env (fresh_kernel [sample_class]) Hun)
    as (Hok & _ & _).
  destruct (Hok eq_refl ltac:(discriminate)) as (Hlog & Hdir & _).
  split; [exact Hun|]. split; [exact Hlog|exact Hdir].
Defined.

Lemma registration_lookup_roundtrip_witness :
  fst (print_event_init 1 good_env (fresh_kernel [sample_class; sample_class])) = 0
  /\ num_print_event_class [sample_class; sample_class] <> 0
  /\ (forall i, 0 <= i < 2 ->
        exists c,
          find_print_event
            (k_classes (snd (print_event_init 1 good_env
                               (fresh_kernel [sample_class; sample_class])))) i = Some c
          /\ cls_id c = i)
  /\ find_print_event
       (k_classes (snd (print_event_init 1 good_env
                          (fresh_kernel [sample_class; sample_class])))) 2 = None.
Proof.
  assert (fst (print_event_init 1 good_env (fresh_kernel [sample_class; sample_class])) = 0)
    as Hok by reflexivity.
  assert (num_print_event_class [sample_class; sample_class] <> 0) as HK by discriminate.
  destruct (registration_lookup_roundtrip 1 good_env
              (fresh_kernel [sample_class; sample_class]) Hok HK) as (_ & Hin & Hout).
  split; [exact Hok|]. split; [exact HK|]. split.
  - intros i Hi. destruct (Hin i Hi) as (c & d & Hfind & _ & _ & Hid & _).
    exists c. split; [exact Hfind|exact Hid].
  - apply Hout. vm_compute. discriminate.
Defined.

(** * Further properties of the reader *)

(** ** The format loop ends *)

Lemma fmt_line_never_no_consume (classes : class_table) (iter : print_event_iterator)
    (entry : print_event_entry) :
  never_no_consume classes ->
  snd (print_trace_fmt_line classes iter entry) <> TRACE_TYPE_NO_CONSUME.
Proof.
  intros Hnever. unfold print_trace_fmt_line.
  destruct (trace_seq_has_overflowed (it_seq iter)); [discriminate|].
  destruct (find_print_event classes (Z.of_N (ent_id entry))) as [c|] eqn:Hfind.
  - apply Hnever. unfold find_print_event in Hfind.
    destruct (Z.of_N (ent_id entry) <? num_print_event_class classes); [|discriminate].
    destruct (Z.of_N (ent_id entry) <? 0); [discriminate|].
    apply list_elem_of_In. eapply list_elem_of_lookup_2. exact Hfind.
  - simpl. unfold trace_handle_return.
    destruct (trace_seq_has_overflowed _); discriminate.
Qed.

Lemma format_round_again (classes : class_table) (cnt : Z)
    (iter iter' : print_event_iterator) (buffer buffer' : ring_buffer) :
  never_no_consume classes ->
  format_round classes cnt iter buffer = (iter', buffer', LoopAgain) ->
  S (total_events buffer') = total_events buffer.
Proof.
  intros Hnever Hround.
  destruct (it_ent (trace_next_entry_inc iter buffer)) as [entry|] eqn:Hent.
  2:{ unfold format_round in Hround. rewrite Hent in Hround. discriminate. }
  destruct (print_trace_fmt_line classes (trace_next_entry_inc iter buffer) entry)
    as [seq' ret] eqn:Hfmt.
  pose proof (fmt_line_never_no_consume classes (trace_next_entry_inc iter buffer) entry Hnever)
    as Hret. rewrite Hfmt in Hret. simpl in Hret.
  rewrite (format_round_eq _ _ _ _ _ _ _ Hent Hfmt) in Hround. cbv zeta in Hround.
  destruct (next_entry_selected _ _ _ Hent) as (e & He & _).
  pose proof (consume_current_buffer
                (set_seq (trace_next_entry_inc iter buffer) seq') buffer) as [Hb _].
  destruct ret; simpl in Hround; try discriminate; try contradiction.
  all: destruct (consume_current _ buffer) as [iter2 buffer2]; simpl in Hb.
  all: destruct (cnt <=? _) in Hround; [discriminate|].
  all: injection Hround as _ <-; rewrite Hb; simpl; now apply consume_total_events with e.
Qed.

(** X1: with classes that never answer "do not consume", the format loop
    ends within as many further rounds as the store holds records, whatever
    else the format methods do. *)
Theorem format_loop_terminates (fuel : nat) :
  forall (classes : class_table) (cnt : Z) (iter : print_event_iterator)
         (buffer : ring_buffer),
    never_no_consume classes ->
    (total_events buffer <= fuel)%nat ->
    exists iter' buffer', format_loop fuel classes cnt iter buffer = Some (iter', buffer').
Proof.
  induction fuel as [|fuel IH]; intros classes cnt iter buffer Hnever Hfuel; simpl.
  all: destruct (format_round classes cnt iter buffer) as [[iter1 buffer1] [|]] eqn:Hround;
    [eauto| ].
  all: pose proof (format_round_again _ _ _ _ _ _ Hnever Hround) as Htot.
  - lia.
  - apply IH; [exact Hnever|lia].
Qed.

(** ** What the format loop writes *)

Lemma seq_clean_ok (s : trace_seq) :
  seq_clean s -> seq_ok s /\ trace_seq_has_overflowed s = false.
Proof.
  intros (Hbuf & Hsz & Hlen & Hfull). unfold seq_ok, trace_seq_has_overflowed.
  rewrite Hfull, Hbuf; unfold seq_buf_has_overflowed; rewrite Hsz. simpl.
  repeat split; lia.
Qed.

Lemma seq_clean_text_length (s : trace_seq) :
  seq_clean s -> Z.of_nat (length (seq_text s)) = sb_len (ts_seq s).
Proof.
  intros (Hbuf & Hsz & Hlen & Hfull). unfold seq_text. rewrite length_take, Hbuf. lia.
Qed.

Lemma write_at_length (off : Z) (bytes buf : list ascii) :
  0 <= off -> (Z.to_nat off + length bytes <= length buf)%nat ->
  length (write_at off bytes buf) = length buf.
Proof.
  intros Hoff Hfit. unfold write_at.
  rewrite !length_app, length_take, length_drop. lia.
Qed.

Lemma trace_seq_printf_fits_buffer (s : trace_seq) (text : list ascii) :
  seq_clean s -> has_room s text ->
  ts_buffer (trace_seq_printf s text) =
    write_at (sb_len (ts_seq s)) (text ++ [zero]) (ts_buffer s)
  /\ ts_full (trace_seq_printf s text) = false.
Proof.
  intros (Hbuf & Hsz & Hlen & Hfull) [_ Hroom].
  unfold trace_seq_printf. rewrite Hfull. unfold __trace_seq_init.
  rewrite Hsz. change (PAGE_SIZE =? 0) with false. cbv iota.
  unfold seq_buf_vprintf, vsnprintf. rewrite Hsz in *.
  destruct (Z.ltb_spec (sb_len (ts_seq s)) PAGE_SIZE); [|lia].
  destruct (Z.leb_spec (PAGE_SIZE - sb_len (ts_seq s)) 0); [lia|].
  cbv beta iota zeta.
  destruct (Z.ltb_spec (sb_len (ts_seq s) + Z.of_nat (length text)) PAGE_SIZE); [|lia].
  unfold seq_buf_has_overflowed. simpl.
  destruct (Z.ltb_spec PAGE_SIZE (sb_len (ts_seq s) + Z.of_nat (length text))); [lia|].
  simpl. rewrite (take_ge text) by lia. split; [reflexivity|exact Hfull].
Qed.

Lemma printf_format_appends_line (render : print_event_entry -> list ascii) :
  appends_line (printf_format render) render.
Proof.
  intros s e Hclean. destruct (seq_clean_ok _ Hclean) as [Hok Hov].
  pose proof Hclean as (Hbuf & Hsz & Hlen & Hfull). split.
  - intros Hroom.
    pose proof (trace_seq_printf_fits _ _ Hok Hroom) as (Htext & Hlen' & Hsz' & Hpos & Hov').
    pose proof (trace_seq_printf_fits_buffer _ _ Hclean Hroom) as [Hb Hf].
    cbv zeta in *. destruct Hroom as [_ Hroom]. rewrite Hsz in Hroom.
    exists (trace_seq_printf s (render e)). unfold printf_format, trace_handle_return.
    rewrite Hov'. split; [reflexivity|]. split; [|auto].
    unfold seq_clean. rewrite Hb, Hf, Hlen', Hsz', Hsz.
    rewrite write_at_length; [repeat split; auto; lia|lia|].
    rewrite length_app, Hbuf. simpl. lia.
  - intros Hnoroom.
    assert (sb_size (ts_seq s) <= sb_len (ts_seq s) + Z.of_nat (length (render e))) as Hbig.
    { destruct (Z.le_gt_cases (sb_size (ts_seq s))
                  (sb_len (ts_seq s) + Z.of_nat (length (render e)))); [assumption|].
      exfalso. apply Hnoroom. split; [exact Hov|lia]. }
    pose proof (trace_seq_printf_no_room _ _ Hok Hov Hbig)
      as (Hfull' & Hlen' & Htext & Hsz' & Hpos).
    cbv zeta in *.
    exists (trace_seq_printf s (render e)). unfold printf_format, trace_handle_return,
      trace_seq_has_overflowed. rewrite Hfull'. split; [reflexivity|].
    split; [|split; [congruence|exact Hpos]].
    rewrite <- Htext. unfold seq_text. now rewrite Hlen'.
Qed.

Lemma find_print_event_lookup (classes : class_table) (id : N) :
  find_print_event classes (Z.of_N id) = classes !! N.to_nat id.
Proof.
  unfold find_print_event, num_print_event_class.
  destruct (Z.ltb_spec (Z.of_N id) (Z.of_nat (length classes))).
  - destruct (Z.ltb_spec (Z.of_N id) 0); [lia|]. f_equal. lia.
  - symmetry. apply lookup_ge_None. lia.
Qed.

(** The method [print_trace_fmt_line] runs for an entry, and its line. *)
Lemma fmt_line_appends (classes : class_table)
    (renders : list (print_event_entry -> list ascii))
    (iter : print_event_iterator) (entry : print_event_entry) :
  line_classes classes renders -> seq_clean (it_seq iter) ->
  (has_room (it_seq iter) (line_of renders entry) ->
     exists s', print_trace_fmt_line classes iter entry = (s', TRACE_TYPE_HANDLED) /\
                seq_clean s' /\
                seq_text s' = seq_text (it_seq iter) ++ line_of renders entry /\
                sb_len (ts_seq s') = sb_len (ts_seq (it_seq iter))
                                     + Z.of_nat (length (line_of renders entry)) /\
                sb_readpos (ts_seq s') = sb_readpos (ts_seq (it_seq iter)))
  /\ (~ has_room (it_seq iter) (line_of renders entry) ->
     exists s', print_trace_fmt_line classes iter entry = (s', TRACE_TYPE_PARTIAL_LINE) /\
                take (Z.to_nat (sb_len (ts_seq (it_seq iter)))) (ts_buffer s')
                  = seq_text (it_seq iter) /\
                sb_size (ts_seq s') = PAGE_SIZE /\
                sb_readpos (ts_seq s') = sb_readpos (ts_seq (it_seq iter))).
Proof.
  intros Hclasses Hclean. destruct (seq_clean_ok _ Hclean) as [_ Hov].
  unfold print_trace_fmt_line, line_of. rewrite Hov, find_print_event_lookup.
  destruct (classes !! N.to_nat (ent_id entry)) as [c|] eqn:Hc.
  - destruct (Forall2_lookup_l _ _ _ _ _ Hclasses Hc) as (r & -> & Hline).
    exact (Hline (it_seq iter) entry Hclean).
  - assert (renders !! N.to_nat (ent_id entry) = None) as ->.
    { pose proof (Forall2_length _ _ _ Hclasses) as Hl.
      apply lookup_ge_None in Hc. apply lookup_ge_None. lia. }
    exact (printf_format_appends_line
             (fun e => unknown_id_line (Z.of_N (ent_id e))) (it_seq iter) entry Hclean).
Qed.

Lemma next_entry_fields (iter : print_event_iterator) (buffer : ring_buffer) :
  it_ent (trace_next_entry_inc iter buffer) = fst (fst (fst (__find_next_entry buffer))) /\
  it_cpu (trace_next_entry_inc iter buffer) = snd (fst (fst (__find_next_entry buffer))).
Proof.
  unfold trace_next_entry_inc.
  now destruct (__find_next_entry buffer) as [[[next c] t] l].
Qed.

Lemma next_entry_none (buffer : ring_buffer) :
  fst (fst (fst (__find_next_entry buffer))) = None -> is_trace_empty buffer = true.
Proof.
  intros Hnone. destruct (is_trace_empty buffer) eqn:Hempty; [reflexivity|].
  destruct (find_next_entry_nonempty _ Hempty) as (e & cpu & Hfind & _).
  rewrite Hfind in Hnone. discriminate.
Qed.

Lemma lines_of_cons (renders : list (print_event_entry -> list ascii))
    (x : Z * Z * print_event_entry) (xs : list (Z * Z * print_event_entry)) :
  lines_of renders (x :: xs) = line_of renders (snd x) ++ lines_of renders xs.
Proof. reflexivity. Qed.

(** One round of the loop with classes that write whole lines. *)
Lemma format_round_line (classes : class_table)
    (renders : list (print_event_entry -> list ascii)) (cnt : Z)
    (iter : print_event_iterator) (buffer : ring_buffer)
    (entry : print_event_entry) (cpu ts lost : Z) :
  line_classes classes renders -> seq_clean (it_seq iter) ->
  __find_next_entry buffer = (Some entry, cpu, ts, lost) ->
  (has_room (it_seq iter) (line_of renders entry) ->
     exists iter',
       format_round classes cnt iter buffer =
         (iter', fst (ring_buffer_consume buffer cpu),
          if cnt <=? sb_len (ts_seq (it_seq iter')) then LoopBreak else LoopAgain)
       /\ seq_clean (it_seq iter')
       /\ seq_text (it_seq iter') = seq_text (it_seq iter) ++ line_of renders entry
       /\ sb_len (ts_seq (it_seq iter')) =
            sb_len (ts_seq (it_seq iter)) + Z.of_nat (length (line_of renders entry))
       /\ sb_readpos (ts_seq (it_seq iter')) = sb_readpos (ts_seq (it_seq iter)))
  /\ (~ has_room (it_seq iter) (line_of renders entry) ->
     exists iter',
       format_round classes cnt iter buffer = (iter', buffer, LoopBreak)
       /\ seq_text (it_seq iter') = seq_text (it_seq iter)
       /\ sb_len (ts_seq (it_seq iter')) = sb_len (ts_seq (it_seq iter))
       /\ sb_size (ts_seq (it_seq iter')) = PAGE_SIZE
       /\ sb_readpos (ts_seq (it_seq iter')) = sb_readpos (ts_seq (it_seq iter))).
Proof.
  intros Hclasses Hclean Hfind.
  destruct (next_entry_fields iter buffer) as [Hent Hcpu]. rewrite Hfind in Hent, Hcpu.
  simpl in Hent, Hcpu.
  assert (seq_clean (it_seq (trace_next_entry_inc iter buffer))) as Hclean1
    by now rewrite it_seq_next.
  destruct (fmt_line_appends classes renders (trace_next_entry_inc iter buffer) entry
              Hclasses Hclean1) as [Hfits Hnot].
  rewrite it_seq_next in Hfits, Hnot. split.
  - intros Hroom. destruct (Hfits Hroom) as (s' & Hfmt & Hclean' & Htext & Hlen & Hpos).
    pose proof (format_round_eq classes cnt _ _ _ _ _ Hent Hfmt) as Hround.
    cbv zeta in Hround. simpl in Hround.
    pose proof (consume_current_buffer
                  (set_seq (trace_next_entry_inc iter buffer) s') buffer) as [Hb Hs].
    destruct (consume_current _ buffer) as [iter2 buffer2]. simpl in Hb, Hs.
    rewrite Hcpu in Hb. subst buffer2.
    exists iter2. rewrite Hs.
    assert (trace_seq_used (it_seq iter2) = sb_len (ts_seq s')) as Hused.
    { rewrite Hs. destruct Hclean' as (_ & Hsz & Hl & _).
      unfold trace_seq_used, seq_buf_used. lia. }
    rewrite Hused in Hround.
    split; [now destruct (cnt <=? sb_len (ts_seq s'))|]. auto.
  - intros Hnoroom. destruct (Hnot Hnoroom) as (s' & Hfmt & Htext & Hsz & Hpos).
    pose proof (format_round_eq classes cnt _ _ _ _ _ Hent Hfmt) as Hround.
    eexists. split; [exact Hround|]. simpl. unfold seq_text. simpl. auto.
Qed.

(** How a round with such classes ends: without consuming, at an empty
    store or at a line that does not fit; or having consumed the selected
    record and appended its line. *)
Lemma format_round_line_cases (classes : class_table)
    (renders : list (print_event_entry -> list ascii)) (cnt : Z)
    (iter iter1 : print_event_iterator) (buffer buffer1 : ring_buffer) (how : round_end) :
  line_classes classes renders -> seq_clean (it_seq iter) ->
  format_round classes cnt iter buffer = (iter1, buffer1, how) ->
  (how = LoopBreak /\ buffer1 = buffer
   /\ seq_text (it_seq iter1) = seq_text (it_seq iter)
   /\ sb_len (ts_seq (it_seq iter1)) = sb_len (ts_seq (it_seq iter))
   /\ sb_size (ts_seq (it_seq iter1)) = PAGE_SIZE
   /\ sb_readpos (ts_seq (it_seq iter1)) = sb_readpos (ts_seq (it_seq iter))
   /\ (is_trace_empty buffer = true
       \/ exists e, fst (fst (fst (__find_next_entry buffer))) = Some e /\
                    PAGE_SIZE <= sb_len (ts_seq (it_seq iter))
                                 + Z.of_nat (length (line_of renders e))))
  \/ (exists entry cpu ts lost,
        __find_next_entry buffer = (Some entry, cpu, ts, lost)
        /\ buffer1 = fst (ring_buffer_consume buffer cpu)
        /\ seq_clean (it_seq iter1)
        /\ seq_text (it_seq iter1) = seq_text (it_seq iter) ++ line_of renders entry
        /\ sb_len (ts_seq (it_seq iter1)) =
             sb_len (ts_seq (it_seq iter)) + Z.of_nat (length (line_of renders entry))
        /\ sb_readpos (ts_seq (it_seq iter1)) = sb_readpos (ts_seq (it_seq iter))
        /\ ((how = LoopBreak /\ cnt <= sb_len (ts_seq (it_seq iter1)))
            \/ (how = LoopAgain /\ sb_len (ts_seq (it_seq iter1)) < cnt))).
Proof.
  intros Hclasses Hclean Hround.
  destruct (__find_next_entry buffer) as [[[[entry|] cpu] ts] lost] eqn:Hfind.
  2:{ left. unfold format_round in Hround.
      rewrite (proj1 (next_entry_fields iter buffer)), Hfind in Hround. simpl in Hround.
      injection Hround as <- <- <-. rewrite it_seq_next.
      destruct Hclean as (_ & Hsz & _). repeat split; auto.
      left. apply next_entry_none. now rewrite Hfind. }
  destruct (format_round_line classes renders cnt iter buffer entry cpu ts lost
              Hclasses Hclean Hfind) as [Hfits Hnot].
  destruct (seq_clean_ok _ Hclean) as [_ Hov].
  pose proof Hclean as (_ & Hsz & _).
  destruct (Z.lt_ge_cases
              (sb_len (ts_seq (it_seq iter))
               + Z.of_nat (length (line_of renders entry))) PAGE_SIZE) as [Hroom|Hfull].
  - right. destruct Hfits as (iter' & Hround' & Hclean1 & Htext & Hlen & Hpos).
    { split; [exact Hov|]. rewrite Hsz. exact Hroom. }
    rewrite Hround' in Hround. exists entry, cpu, ts, lost.
    destruct (Z.leb_spec cnt (sb_len (ts_seq (it_seq iter'))));
      injection Hround as <- <- <-;
      (split; [reflexivity|split; [reflexivity|split; [exact Hclean1|
       split; [exact Htext|split; [exact Hlen|split; [exact Hpos|]]]]]]);
      [left|right]; split; auto.
  - left. destruct Hnot as (iter' & Hround' & Htext & Hlen & Hsz' & Hpos).
    { intros [_ Hr]. rewrite Hsz in Hr. lia. }
    rewrite Hround' in Hround. injection Hround as <- <- <-.
    repeat split; auto. right. exists entry. split; [reflexivity|exact Hfull].
Qed.

Lemma format_loop_lines (fuel : nat) :
  forall (classes : class_table) (renders : list (print_event_entry -> list ascii))
         (cnt : Z) (iter iter' : print_event_iterator) (buffer buffer' : ring_buffer),
    line_classes classes renders -> seq_clean (it_seq iter) ->
    format_loop fuel classes cnt iter buffer = Some (iter', buffer') ->
    exists k,
      buffer' = after_drain k buffer
      /\ length (drain k buffer) = k
      /\ seq_text (it_seq iter') =
           seq_text (it_seq iter) ++ lines_of renders (drain k buffer)
      /\ sb_len (ts_seq (it_seq iter')) =
           sb_len (ts_seq (it_seq iter))
           + Z.of_nat (length (lines_of renders (drain k buffer)))
      /\ sb_size (ts_seq (it_seq iter')) = PAGE_SIZE
      /\ sb_len (ts_seq (it_seq iter')) < PAGE_SIZE
      /\ sb_readpos (ts_seq (it_seq iter')) = sb_readpos (ts_seq (it_seq iter))
      /\ (is_trace_empty buffer' = true
          \/ cnt <= sb_len (ts_seq (it_seq iter'))
          \/ exists e, fst (fst (fst (__find_next_entry buffer'))) = Some e /\
                       PAGE_SIZE <= sb_len (ts_seq (it_seq iter'))
                                    + Z.of_nat (length (line_of renders e)))
      /\ (sb_len (ts_seq (it_seq iter)) < cnt ->
          forall j, S j = k ->
            sb_len (ts_seq (it_seq iter))
            + Z.of_nat (length (lines_of renders (drain j buffer))) < cnt).
Proof.
  assert (forall (n : nat) classes renders cnt iter iter1 buffer buffer1,
             line_classes classes renders -> seq_clean (it_seq iter) ->
             format_round classes cnt iter buffer = (iter1, buffer1, LoopBreak) ->
             exists k,
               buffer1 = after_drain k buffer
               /\ length (drain k buffer) = k
               /\ seq_text (it_seq iter1) =
                    seq_text (it_seq iter) ++ lines_of renders (drain k buffer)
               /\ sb_len (ts_seq (it_seq iter1)) =
                    sb_len (ts_seq (it_seq iter))
                    + Z.of_nat (length (lines_of renders (drain k buffer)))
               /\ sb_size (ts_seq (it_seq iter1)) = PAGE_SIZE
               /\ sb_len (ts_seq (it_seq iter1)) < PAGE_SIZE
               /\ sb_readpos (ts_seq (it_seq iter1)) = sb_readpos (ts_seq (it_seq iter))
               /\ (is_trace_empty buffer1 = true
                   \/ cnt <= sb_len (ts_seq (it_seq iter1))
                   \/ exists e, fst (fst (fst (__find_next_entry buffer1))) = Some e /\
                                PAGE_SIZE <= sb_len (ts_seq (it_seq iter1))
                                             + Z.of_nat (length (line_of renders e)))
               /\ (sb_len (ts_seq (it_seq iter)) < cnt ->
                   forall j, S j = k ->
                     sb_len (ts_seq (it_seq iter))
                     + Z.of_nat (length (lines_of renders (drain j buffer))) < cnt))
    as Hbreak.
  { intros _ classes renders cnt iter iter1 buffer buffer1 Hclasses Hclean Hround.
    destruct (format_round_line_cases _ _ _ _ _ _ _ _ Hclasses Hclean Hround)
      as [(_ & -> & Htext & Hlen & Hsz & Hpos & Hstop)
         |(entry & cpu & ts & lost & Hfind & -> & Hclean1 & Htext & Hlen & Hpos & Hhow)].
    - exists O. simpl. unfold lines_of. simpl. rewrite app_nil_r, Z.add_0_r.
      destruct Hclean as (_ & _ & Hl & _).
      split; [reflexivity|]. split; [reflexivity|]. split; [exact Htext|].
      split; [exact Hlen|]. split; [exact Hsz|]. split; [lia|]. split; [exact Hpos|].
      split.
      + destruct Hstop as [H|(e & He & Hfull)]; [now left|].
        right. right. exists e. rewrite Hlen. auto.
      + intros _ j Hj. discriminate.
    - destruct Hhow as [[_ Hcnt]|[Hagain _]]; [|discriminate].
      exists 1%nat. simpl. rewrite Hfind. unfold lines_of. simpl. rewrite !app_nil_r.
      destruct Hclean1 as (_ & Hsz1 & Hl1 & _).
      split; [reflexivity|]. split; [reflexivity|]. split; [exact Htext|].
      split; [exact Hlen|]. split; [exact Hsz1|]. split; [lia|]. split; [exact Hpos|].
      split; [right; left; exact Hcnt|].
      intros Hlt j Hj. assert (j = O) as -> by lia. simpl. lia. }
  induction fuel as [|fuel IH];
    intros classes renders cnt iter iter' buffer buffer' Hclasses Hclean Hloop;
    simpl in Hloop;
    destruct (format_round classes cnt iter buffer) as [[iter1 buffer1] [|]] eqn:Hround.
  - injection Hloop as <- <-. eapply (Hbreak O); eauto.
  - discriminate.
  - injection Hloop as <- <-. eapply (Hbreak O); eauto.
  - destruct (format_round_line_cases _ _ _ _ _ _ _ _ Hclasses Hclean Hround)
      as [(Hhow & _)
         |(entry & cpu & ts & lost & Hfind & -> & Hclean1 & Htext & Hlen & Hpos & Hhow)];
      [discriminate|].
    destruct Hhow as [[Hhow _]|[_ Hcnt]]; [discriminate|].
    destruct (IH _ _ _ _ _ _ _ Hclasses Hclean1 Hloop)
      as (k & Hb & Hk & Htext' & Hlen' & Hsz' & Hlt' & Hpos' & Hstop & Hbound).
    assert (forall n, drain (S n) buffer =
                      (cpu, ts, entry) :: drain n (fst (ring_buffer_consume buffer cpu)))
      as Hd by (intros n; simpl; now rewrite Hfind).
    assert (after_drain (S k) buffer = after_drain k (fst (ring_buffer_consume buffer cpu)))
      as Ha by (simpl; now rewrite Hfind).
    exists (S k). rewrite Hd, Ha, lines_of_cons, length_app. simpl snd.
    split; [exact Hb|]. split; [simpl; now rewrite Hk|].
    split; [rewrite Htext', Htext, <- app_assoc; reflexivity|].
    split; [rewrite Hlen', Hlen; lia|].
    split; [exact Hsz'|]. split; [exact Hlt'|]. split; [congruence|].
    split; [exact Hstop|].
    intros Hlt j Hj. assert (j = k) as -> by lia.
    destruct k as [|k']; [simpl; unfold lines_of; simpl; lia|].
    specialize (Hbound Hcnt k' eq_refl).
    rewrite Hd, lines_of_cons, length_app. simpl snd. rewrite Hlen in Hbound. lia.
Qed.

Lemma seq_clean_reset_iter : seq_clean (it_seq reset_iter).
Proof.
  split; [|split; [reflexivity|split; [|reflexivity]]].
  - change (length (repeat zero (Z.to_nat PAGE_SIZE)) = Z.to_nat PAGE_SIZE).
    apply repeat_length.
  - simpl. unfold PAGE_SIZE. lia.
Qed.

Lemma format_loop_lines_terminates (fuel : nat) :
  forall (classes : class_table) (renders : list (print_event_entry -> list ascii))
         (cnt : Z) (iter : print_event_iterator) (buffer : ring_buffer),
    line_classes classes renders -> seq_clean (it_seq iter) ->
    (total_events buffer <= fuel)%nat ->
    exists iter' buffer', format_loop fuel classes cnt iter buffer = Some (iter', buffer').
Proof.
  induction fuel as [|fuel IH]; intros classes renders cnt iter buffer Hclasses Hclean Hfuel;
    simpl;
    destruct (format_round classes cnt iter buffer) as [[iter1 buffer1] [|]] eqn:Hround;
    eauto.
  all: destruct (format_round_line_cases _ _ _ _ _ _ _ _ Hclasses Hclean Hround)
      as [(Hhow & _)
         |(entry & cpu & ts & lost & Hfind & -> & Hclean1 & _)]; [discriminate|].
  all: pose proof (find_next_entry_inv buffer) as Hinv; rewrite Hfind in Hinv;
    destruct Hinv as (_ & e & He & _);
    pose proof (consume_total_events _ _ _ He) as Htot.
  - lia.
  - apply (IH _ renders); [exact Hclasses|exact Hclean1|lia].
Qed.

(** X2: with classes that write whole lines, the text the format loop adds
    to the session is exactly the lines of the records it took out of the
    store, in the order of the merge, none missing, none twice and none
    cut. *)
Theorem format_loop_writes_lines (fuel : nat) (classes : class_table)
    (renders : list (print_event_entry -> list ascii)) (cnt : Z)
    (iter iter' : print_event_iterator) (buffer buffer' : ring_buffer) :
  line_classes classes renders -> seq_clean (it_seq iter) ->
  format_loop fuel classes cnt iter buffer = Some (iter', buffer') ->
  exists k,
    buffer' = after_drain k buffer
    /\ length (drain k buffer) = k
    /\ seq_text (it_seq iter') = seq_text (it_seq iter) ++ lines_of renders (drain k buffer)
    /\ sb_readpos (ts_seq (it_seq iter')) = sb_readpos (ts_seq (it_seq iter)).
Proof.
  intros Hclasses Hclean Hloop.
  destruct (format_loop_lines _ _ _ _ _ _ _ _ Hclasses Hclean Hloop)
    as (k & Hb & Hk & Htext & _ & _ & _ & Hpos & _).
  exists k. auto.
Qed.

(** X3: with such classes the format loop stops only at an empty store, at
    a text that has reached the requested length, or before a record whose
    line no longer fits in the page; and every record it consumed but the
    last was consumed while the text was still shorter than requested. *)
Theorem format_loop_stops_when (fuel : nat) (classes : class_table)
    (renders : list (print_event_entry -> list ascii)) (cnt : Z)
    (iter iter' : print_event_iterator) (buffer buffer' : ring_buffer) :
  line_classes classes renders -> seq_clean (it_seq iter) ->
  sb_len (ts_seq (it_seq iter)) < cnt ->
  format_loop fuel classes cnt iter buffer = Some (iter', buffer') ->
  exists k,
    buffer' = after_drain k buffer
    /\ sb_len (ts_seq (it_seq iter')) =
         sb_len (ts_seq (it_seq iter)) + Z.of_nat (length (lines_of renders (drain k buffer)))
    /\ (is_trace_empty buffer' = true
        \/ cnt <= sb_len (ts_seq (it_seq iter'))
        \/ exists e, fst (fst (fst (__find_next_entry buffer'))) = Some e /\
                     PAGE_SIZE <= sb_len (ts_seq (it_seq iter'))
                                  + Z.of_nat (length (line_of renders e)))
    /\ (forall j, S j = k ->
          sb_len (ts_seq (it_seq iter))
          + Z.of_nat (length (lines_of renders (drain j buffer))) < cnt).
Proof.
  intros Hclasses Hclean Hlt Hloop.
  destruct (format_loop_lines _ _ _ _ _ _ _ _ Hclasses Hclean Hloop)
    as (k & Hb & _ & _ & Hlen & _ & _ & _ & Hstop & Hbound).
  exists k. auto.
Qed.

Lemma trace_wait_pipe_ready (f_flags : Z) (w : world) :
  is_trace_empty (w_buffer w) = false ->
  trace_wait_pipe f_flags (w_buffer w) (w_signal w) (w_waits w) (w_future w) = Some (1, w).
Proof.
  intros Hne. destruct (w_future w) eqn:Hf; simpl; rewrite Hne, <- Hf, world_eta; reflexivity.
Qed.

Lemma lines_of_nonempty (renders : list (print_event_entry -> list ascii))
    (buffer : ring_buffer) (k : nat) (e : print_event_entry) :
  fst (fst (fst (__find_next_entry buffer))) = Some e ->
  (1 <= k)%nat ->
  Z.of_nat (length (line_of renders e))
    <= Z.of_nat (length (lines_of renders (drain k buffer))).
Proof.
  intros He Hk. destruct k as [|k]; [lia|]. simpl.
  destruct (__find_next_entry buffer) as [[[[ent|] cpu] ts] lost]; simpl in He;
    [|discriminate].
  injection He as ->. rewrite lines_of_cons, length_app. simpl. lia.
Qed.

(** X4: a read call that finds records in the store (no unflushed text, no
    fatal signal pending, a non-zero length and a writable user buffer),
    with classes that write whole lines and a first line that is not empty
    and shorter than a page, returns without waiting: it has taken [k >= 1]
    records out of the store in merge order, and hands out the first
    [min (cnt, PAGE_SIZE - 1, length of their lines)] bytes of their
    lines. *)
Theorem read_delivers_lines (fuel : nat) (classes : class_table)
    (renders : list (print_event_entry -> list ascii))
    (f_flags ubuf_ok cnt : Z) (iter : print_event_iterator) (w : world) :
  read_count_ok cnt -> cnt <> 0 ->
  unflushed (it_seq iter) = false -> w_signal w = false ->
  is_trace_empty (w_buffer w) = false ->
  line_classes classes renders ->
  (forall e, fst (fst (fst (__find_next_entry (w_buffer w)))) = Some e ->
             0 < Z.of_nat (length (line_of renders e)) < PAGE_SIZE) ->
  (total_events (w_buffer w) <= fuel)%nat ->
  Z.min cnt (PAGE_SIZE - 1) <= ubuf_ok ->
  let r := trace_read_pipe fuel classes f_flags ubuf_ok cnt iter w in
  exists k,
    (1 <= k)%nat /\ length (drain k (w_buffer w)) = k /\
    let text := lines_of renders (drain k (w_buffer w)) in
    let n := Z.min (Z.min cnt (PAGE_SIZE - 1)) (Z.of_nat (length text)) in
    rr_outcome r = Returns n /\ 0 < n /\
    rr_user r = take (Z.to_nat n) text /\
    rr_world r = {| w_buffer := after_drain k (w_buffer w); w_signal := false;
                    w_future := w_future w; w_waits := w_waits w |}.
Proof.
  intros [Hcnt _] Hnz Hun Hsig Hne Hclasses Hfirst Hfuel Hubuf. cbv zeta.
  destruct (trace_read_pipe_past_flush fuel classes f_flags ubuf_ok cnt iter w Hnz Hun)
    as (iter0 & ->).
  rewrite waitagain_eq, (trace_wait_pipe_ready _ _ Hne), Hsig, Hne.
  change (1 <=? 0) with false. cbv iota zeta.
  set (cnt' := if PAGE_SIZE <=? cnt then PAGE_SIZE - 1 else cnt).
  assert (cnt' = Z.min cnt (PAGE_SIZE - 1) /\ 0 < cnt') as [Hcnt' Hpos'].
  { unfold cnt', PAGE_SIZE. destruct (Z.leb_spec 4096 cnt); lia. }
  destruct (format_loop_lines_terminates fuel classes renders cnt' reset_iter (w_buffer w)
              Hclasses seq_clean_reset_iter Hfuel) as (iter' & buffer' & Hloop).
  rewrite Hloop.
  destruct (format_loop_lines _ _ _ _ _ _ _ _ Hclasses seq_clean_reset_iter Hloop)
    as (k & Hb & Hk & Htext & Hlen & Hsz & Hlt & Hpos & Hstop & _).
  change (seq_text (it_seq reset_iter)) with (@nil ascii) in Htext.
  change (sb_len (ts_seq (it_seq reset_iter))) with 0 in Hlen.
  change (sb_readpos (ts_seq (it_seq reset_iter))) with 0 in Hpos.
  simpl in Htext. rewrite Z.add_0_l in Hlen.
  assert (1 <= k)%nat as Hk1.
  { destruct k as [|k]; [|lia]. exfalso. simpl in Hb. subst buffer'.
    simpl in Hlen. unfold lines_of in Hlen. simpl in Hlen.
    destruct Hstop as [H|[H|(e & He & Hfull)]]; [congruence|lia|].
    specialize (Hfirst e He). lia. }
  assert (0 < sb_len (ts_seq (it_seq iter'))) as Hlen1.
  { destruct (fst (fst (fst (__find_next_entry (w_buffer w))))) as [e|] eqn:He.
    - pose proof (lines_of_nonempty renders (w_buffer w) k e He Hk1).
      specialize (Hfirst e eq_refl). lia.
    - apply next_entry_none in He. congruence. }
  assert (unflushed (it_seq iter') = true) as Hun'.
  { unfold unflushed, __trace_seq_init. rewrite Hsz. change (PAGE_SIZE =? 0) with false.
    cbv iota zeta. unfold trace_seq_used, seq_buf_used. rewrite Hpos, Hsz.
    apply Z.ltb_lt. lia. }
  destruct (to_user_flush (it_seq iter') ubuf_ok cnt' ltac:(lia) Hun')
    as (sb & n & Huser & Hn & _ & _ & _ & Hmin & _).
  rewrite Huser. destruct (Z.eqb_spec n (- EBUSY)); [contradiction|]. simpl.
  assert (n = Z.min cnt' (sb_len (ts_seq (it_seq iter')))) as Hn'.
  { rewrite Hmin by lia. unfold trace_seq_used, seq_buf_used. rewrite Hpos, Hsz. lia. }
  exists k. split; [exact Hk1|]. split; [exact Hk|].
  rewrite <- Hcnt', <- Hlen, <- Hn'. split; [reflexivity|]. split; [lia|].
  split; [|now rewrite Hb].
  rewrite Hpos. simpl. rewrite <- Htext. unfold seq_text.
  rewrite take_take. f_equal. lia.
Qed.

(** ** Successive calls *)

Lemma to_user_flush_writable (s : trace_seq) (ubuf_ok cnt : Z) :
  0 <= cnt -> cnt <= ubuf_ok -> unflushed s = true ->
  exists sb n,
    trace_seq_to_user s ubuf_ok cnt =
      ({| ts_buffer := ts_buffer s; ts_seq := sb; ts_full := ts_full s |}, n,
       take (Z.to_nat n) (drop (Z.to_nat (sb_readpos (ts_seq s))) (ts_buffer s)))
    /\ n <> - EBUSY /\ 0 <= n
    /\ n = Z.min cnt (trace_seq_used s - sb_readpos (ts_seq s))
    /\ sb_readpos sb = sb_readpos (ts_seq s) + n.
Proof.
  intros Hcnt Hok Hun.
  destruct (to_user_flush s ubuf_ok cnt Hcnt Hun)
    as (sb & n & Huser & Hn & _ & _ & _ & Hmin & Hpos).
  specialize (Hmin Hok).
  assert (0 <= n) as Hn0.
  { unfold unflushed in Hun. rewrite (unflushed_size _ Hun) in Hun.
    apply Z.ltb_lt in Hun. lia. }
  exists sb, n. repeat split; auto. lia.
Qed.

(** X5: two successive read calls on a session that holds unflushed text
    before each of them hand out adjoining pieces of that text, nothing
    missing and nothing twice, and move the read position by what they
    returned; the store is not touched (user buffers writable, read
    position not negative). *)
Theorem leftover_delivered_in_order (fuel1 fuel2 : nat) (classes : class_table)
    (flags1 flags2 ubuf1 ubuf2 cnt1 cnt2 : Z) (iter : print_event_iterator) (w : world) :
  read_count_ok cnt1 -> read_count_ok cnt2 -> cnt1 <= ubuf1 -> cnt2 <= ubuf2 ->
  0 <= sb_readpos (ts_seq (it_seq iter)) ->
  unflushed (it_seq iter) = true ->
  let r1 := trace_read_pipe fuel1 classes flags1 ubuf1 cnt1 iter w in
  let r2 := trace_read_pipe fuel2 classes flags2 ubuf2 cnt2 (rr_iter r1) (rr_world r1) in
  unflushed (it_seq (rr_iter r1)) = true ->
  exists n1 n2,
    rr_outcome r1 = Returns n1 /\ rr_outcome r2 = Returns n2 /\ 0 <= n1 /\ 0 <= n2
    /\ rr_user r1 ++ rr_user r2 =
         take (Z.to_nat (n1 + n2))
           (drop (Z.to_nat (sb_readpos (ts_seq (it_seq iter)))) (ts_buffer (it_seq iter)))
    /\ sb_readpos (ts_seq (it_seq (rr_iter r2))) =
         sb_readpos (ts_seq (it_seq iter)) + n1 + n2
    /\ rr_world r2 = w.
Proof.
  intros [Hc1 _] [Hc2 _] Hu1 Hu2 Hp Hun. cbv zeta.
  destruct (to_user_flush_writable _ ubuf1 _ Hc1 Hu1 Hun)
    as (sb1 & n1 & Huser1 & Hn1 & H1 & _ & Hpos1).
  rewrite (trace_read_pipe_flush _ _ _ _ _ _ _ _ _ _ Huser1 Hn1).
  cbn [rr_iter rr_world rr_outcome rr_user].
  intros Hun2.
  destruct (to_user_flush_writable _ ubuf2 _ Hc2 Hu2 Hun2)
    as (sb2 & n2 & Huser2 & Hn2 & H2 & _ & Hpos2).
  rewrite (trace_read_pipe_flush _ _ _ _ _ _ _ _ _ _ Huser2 Hn2).
  cbn [rr_iter rr_world rr_outcome rr_user it_seq set_seq ts_seq ts_buffer] in *.
  exists n1, n2. repeat split; auto.
  - rewrite Hpos1.
    replace (Z.to_nat (sb_readpos (ts_seq (it_seq iter)) + n1))
      with (Z.to_nat (sb_readpos (ts_seq (it_seq iter))) + Z.to_nat n1)%nat by lia.
    rewrite <- drop_drop, take_take_drop. f_equal. lia.
  - rewrite Hpos2, Hpos1. lia.
Qed.

(** ** The wait protocol *)

Lemma trace_wait_pipe_zero_wakes (f_flags : Z) (future : list wake) :
  nonblocking f_flags = false ->
  Forall (fun wk => wake_ret wk = 0) future ->
  forall (buffer : ring_buffer) (signal : bool) (waits : nat),
    match trace_wait_pipe f_flags buffer signal waits future with
    | Some (sret, w') =>
        sret = 1 /\ is_trace_empty (w_buffer w') = false /\
        exists n,
          (buffer :: map wake_buffer future) !! n = Some (w_buffer w') /\
          (forall i b, (i < n)%nat ->
             (buffer :: map wake_buffer future) !! i = Some b -> is_trace_empty b = true) /\
          w_waits w' = (waits + n)%nat /\
          w_future w' = drop n future
    | None =>
        Forall (fun b => is_trace_empty b = true) (buffer :: map wake_buffer future)
    end.
Proof.
  intros Hnb Hzero. induction Hzero as [|wk rest Hwk Hrest IH]; intros buffer signal waits.
  - simpl. destruct (is_trace_empty buffer) eqn:Hempty; rewrite ?Hnb.
    + constructor; [exact Hempty|constructor].
    + split; [reflexivity|]. split; [exact Hempty|]. exists O. simpl.
      split; [reflexivity|]. split; [intros i b Hi; lia|]. split; [lia|reflexivity].
  - simpl. destruct (is_trace_empty buffer) eqn:Hempty; rewrite ?Hnb.
    + rewrite Hwk. simpl.
      specialize (IH (wake_buffer wk) (wake_signal wk) (S waits)).
      destruct (trace_wait_pipe f_flags (wake_buffer wk) (wake_signal wk) (S waits) rest)
        as [[sret w']|].
      * destruct IH as (Hs & Hne & n & Hn & Hbefore & Hw & Hf).
        split; [exact Hs|]. split; [exact Hne|]. exists (S n).
        split; [exact Hn|]. split; [|split; [lia|exact Hf]].
        intros [|i] b Hi Hb; simpl in Hb.
        -- injection Hb as <-. exact Hempty.
        -- apply (Hbefore i b); [lia|exact Hb].
      * constructor; [exact Hempty|exact IH].
    + split; [reflexivity|]. split; [exact Hempty|]. exists O. simpl.
      split; [reflexivity|]. split; [intros i b Hi; lia|]. split; [lia|reflexivity].
Qed.

(** X6: a blocking [trace_wait_pipe] whose wake-ups all return 0 looks at
    the store again after every wake-up: it returns 1 at the first store
    that holds a record, having waited once for every empty store it saw
    before, and it keeps sleeping exactly when the store is empty at entry
    and after every wake-up. *)
Theorem trace_wait_pipe_blocking (f_flags : Z) (w : world) :
  nonblocking f_flags = false ->
  Forall (fun wk => wake_ret wk = 0) (w_future w) ->
  match trace_wait_pipe f_flags (w_buffer w) (w_signal w) (w_waits w) (w_future w) with
  | Some (sret, w') =>
      sret = 1 /\ is_trace_empty (w_buffer w') = false /\
      exists n,
        (w_buffer w :: map wake_buffer (w_future w)) !! n = Some (w_buffer w') /\
        (forall i b, (i < n)%nat ->
           (w_buffer w :: map wake_buffer (w_future w)) !! i = Some b ->
           is_trace_empty b = true) /\
        w_waits w' = (w_waits w + n)%nat /\
        w_future w' = drop n (w_future w)
  | None =>
      Forall (fun b => is_trace_empty b = true)
        (w_buffer w :: map wake_buffer (w_future w))
  end.
Proof.
  intros Hnb Hzero. now apply trace_wait_pipe_zero_wakes.
Qed.

(** X7: a blocking read call (non-zero length, no unflushed text, no fatal
    signal pending) that finds the store empty and is woken with return
    value 0 and no signal goes on exactly as a call that starts in the
    world the wake-up left: same outcome, same bytes for the caller, same
    session, and unless both sleep for good the same world afterwards. *)
Theorem read_after_wake (fuel : nat) (classes : class_table)
    (f_flags ubuf_ok cnt : Z) (iter : print_event_iterator) (w : world)
    (wk : wake) (rest : list wake) :
  read_count_ok cnt -> cnt <> 0 -> unflushed (it_seq iter) = false ->
  w_signal w = false -> is_trace_empty (w_buffer w) = true ->
  nonblocking f_flags = false ->
  w_future w = wk :: rest -> wake_ret wk = 0 -> wake_signal wk = false ->
  let r := trace_read_pipe fuel classes f_flags ubuf_ok cnt iter w in
  let r' := trace_read_pipe fuel classes f_flags ubuf_ok cnt iter
              {| w_buffer := wake_buffer wk; w_signal := false; w_future := rest;
                 w_waits := S (w_waits w) |} in
  rr_outcome r = rr_outcome r' /\ rr_user r = rr_user r' /\ rr_iter r = rr_iter r'
  /\ (rr_outcome r <> Sleeps -> rr_world r = rr_world r').
Proof.
  intros _ Hnz Hun Hsig Hempty Hnb Hf Hret Hwsig. cbv zeta.
  destruct (to_user_nothing _ ubuf_ok _ Hnz Hun) as (s' & Huser).
  unfold trace_read_pipe. rewrite Huser, Z.eqb_refl. cbn [negb].
  assert (trace_wait_pipe f_flags (w_buffer w) false (w_waits w) (wk :: rest) =
          trace_wait_pipe f_flags (wake_buffer wk) false (S (w_waits w)) rest) as Hwait.
  { simpl. now rewrite Hempty, Hnb, Hret, Hwsig. }
  rewrite !waitagain_eq. rewrite Hsig, Hf. cbn [w_signal w_buffer w_future w_waits].
  rewrite Hwait.
  destruct (trace_wait_pipe f_flags (wake_buffer wk) false (S (w_waits w)) rest)
    as [[sret w']|]; cbv beta iota.
  - repeat split; reflexivity.
  - cbn [rr_outcome rr_user rr_iter rr_world].
    repeat split; try reflexivity. intros H. contradiction.
Qed.

Lemma trace_wait_pipe_result (f_flags : Z) (future : list wake) :
  forall (buffer : ring_buffer) (signal : bool) (waits : nat) (sret : Z) (w' : world),
    trace_wait_pipe f_flags buffer signal waits future = Some (sret, w') ->
    (sret = - EAGAIN \/ sret = 1 \/ In sret (map wake_ret future))
    /\ (forall x, In x (map wake_ret (w_future w')) -> In x (map wake_ret future)).
Proof.
  induction future as [|wk rest IH]; intros buffer signal waits sret w'; simpl.
  - destruct (is_trace_empty buffer); [destruct (nonblocking f_flags); [|discriminate]|];
      intros [= <- <-]; simpl; auto.
  - destruct (is_trace_empty buffer); [destruct (nonblocking f_flags)|].
    + intros [= <- <-]. simpl. auto.
    + destruct (wake_ret wk =? 0) eqn:Hz; simpl.
      * intros Hwait. destruct (IH _ _ _ _ _ Hwait) as [Hs Hin].
        split; [|intros x Hx; right; now apply Hin].
        destruct Hs as [H|[H|H]]; auto.
      * intros [= <- <-]. simpl. auto.
    + intros [= <- <-]. simpl. auto.
Qed.

Lemma waitagain_ebusy (fuel : nat) :
  forall (classes : class_table) (f_flags ubuf_ok cnt sret : Z)
         (iter : print_event_iterator) (w : world),
    ~ In (- EBUSY) (wake_rets w) ->
    rr_outcome (waitagain fuel classes f_flags ubuf_ok cnt sret iter w) = Returns (- EBUSY) ->
    w_signal (rr_world (waitagain fuel classes f_flags ubuf_ok cnt sret iter w)) = true.
Proof.
  induction fuel as [|fuel IH]; intros classes f_flags ubuf_ok cnt sret iter w Hwakes;
    rewrite waitagain_eq.
  all: destruct (w_signal w) eqn:Hsig; [intros _; exact Hsig|].
  all: destruct (trace_wait_pipe f_flags (w_buffer w) false (w_waits w) (w_future w))
      as [[sret' w']|] eqn:Hwait; [|discriminate].
  all: destruct (trace_wait_pipe_result _ _ _ _ _ _ _ Hwait) as [Hs Hin].
  all: destruct (Z.leb_spec sret' 0);
    [simpl; intros [= ->]; exfalso;
     destruct Hs as [Hs|[Hs|Hs]];
     [unfold EBUSY, EAGAIN in Hs; lia|unfold EBUSY in Hs; lia|exact (Hwakes Hs)]|].
  all: destruct (is_trace_empty (w_buffer w')); [simpl; intros [= H0]; discriminate|].
  all: cbv zeta.
  all: destruct (format_loop _ classes _ reset_iter (w_buffer w')) as [[iter2 buffer2]|];
    [|discriminate].
  all: destruct (trace_seq_to_user (it_seq iter2) ubuf_ok _) as [[seq2 sret2] out2].
  all: destruct (Z.eqb_spec sret2 (- EBUSY)) as [->|Hne];
    [|simpl; intros [= ->]; contradiction].
  - discriminate.
  - apply IH. unfold wake_rets. simpl. intros Hin'. apply Hwakes. now apply Hin.
Qed.

(** X8: unless the wait primitive itself returns [-EBUSY], a read call
    returns [-EBUSY] only with a fatal signal pending on the caller at the
    time it returns: [-EBUSY] always means that the call was cancelled. *)
Theorem read_ebusy_means_cancelled (fuel : nat) (classes : class_table)
    (f_flags ubuf_ok cnt : Z) (iter : print_event_iterator) (w : world) :
  ~ In (- EBUSY) (wake_rets w) ->
  let r := trace_read_pipe fuel classes f_flags ubuf_ok cnt iter w in
  rr_outcome r = Returns (- EBUSY) -> w_signal (rr_world r) = true.
Proof.
  intros Hwakes. cbv zeta. unfold trace_read_pipe.
  destruct (trace_seq_to_user (it_seq iter) ubuf_ok cnt) as [[seq sret] out].
  destruct (Z.eqb_spec sret (- EBUSY)) as [->|Hne]; simpl.
  - now apply waitagain_ebusy.
  - intros [= ->]. contradiction.
Qed.

Lemma to_user_out_length (s : trace_seq) (ubuf_ok cnt : Z) :
  forall s' n out, trace_seq_to_user s ubuf_ok cnt = (s', n, out) ->
    (length out <= Z.to_nat n)%nat.
Proof.
  intros s' n out. unfold trace_seq_to_user, seq_buf_to_user.
  destruct (cnt =? 0); [intros [= <- <- <-]; simpl; lia|].
  destruct (_ <=? _); [intros [= <- <- <-]; simpl; lia|].
  destruct (_ =? _); [intros [= <- <- <-]; simpl; lia|].
  intros [= <- <- <-]. rewrite length_take. lia.
Qed.

Lemma waitagain_user_length (fuel : nat) :
  forall (classes : class_table) (f_flags ubuf_ok cnt sret : Z)
         (iter : print_event_iterator) (w : world),
    match rr_outcome (waitagain fuel classes f_flags ubuf_ok cnt sret iter w) with
    | Returns n =>
        (length (rr_user (waitagain fuel classes f_flags ubuf_ok cnt sret iter w))
         <= Z.to_nat n)%nat
    | _ => rr_user (waitagain fuel classes f_flags ubuf_ok cnt sret iter w) = []
    end.
Proof.
  induction fuel as [|fuel IH]; intros classes f_flags ubuf_ok cnt sret iter w;
    rewrite waitagain_eq.
  all: destruct (w_signal w); [simpl; lia|].
  all: destruct (trace_wait_pipe _ _ _ _ _) as [[sret' w']|]; [|reflexivity].
  all: destruct (sret' <=? 0); [simpl; lia|].
  all: destruct (is_trace_empty (w_buffer w')); [simpl; lia|].
  all: cbv zeta.
  all: destruct (format_loop _ classes _ reset_iter (w_buffer w')) as [[iter2 buffer2]|];
    [|reflexivity].
  all: destruct (trace_seq_to_user (it_seq iter2) ubuf_ok _) as [[seq2 sret2] out2] eqn:Huser.
  all: pose proof (to_user_out_length _ _ _ _ _ _ Huser) as Hout.
  all: destruct (sret2 =? - EBUSY); [|exact Hout].
  - reflexivity.
  - apply IH.
Qed.

(** X9: a read call never stores more bytes in the user buffer than the
    value it returns: a call that returns an error or 0 has stored nothing,
    and so has a call that does not return. *)
Theorem read_stores_at_most_returned (fuel : nat) (classes : class_table)
    (f_flags ubuf_ok cnt : Z) (iter : print_event_iterator) (w : world) :
  let r := trace_read_pipe fuel classes f_flags ubuf_ok cnt iter w in
  match rr_outcome r with
  | Returns n => (length (rr_user r) <= Z.to_nat n)%nat /\ (n <= 0 -> rr_user r = [])
  | _ => rr_user r = []
  end.
Proof.
  cbv zeta.
  assert (match rr_outcome (trace_read_pipe fuel classes f_flags ubuf_ok cnt iter w) with
          | Returns n =>
              (length (rr_user (trace_read_pipe fuel classes f_flags ubuf_ok cnt iter w))
               <= Z.to_nat n)%nat
          | _ => rr_user (trace_read_pipe fuel classes f_flags ubuf_ok cnt iter w) = []
          end) as H.
  { unfold trace_read_pipe.
    destruct (trace_seq_to_user (it_seq iter) ubuf_ok cnt) as [[seq sret] out] eqn:Huser.
    destruct (sret =? - EBUSY); simpl.
    - apply waitagain_user_length.
    - exact (to_user_out_length _ _ _ _ _ _ Huser). }
  destruct (rr_outcome _) as [n| |]; try exact H.
  split; [exact H|]. intros Hn.
  destruct (rr_user _) as [|c l]; [reflexivity|]. simpl in H. lia.
Qed.

(** ** The hooks together *)

(** X10: the value [print_event_init] returns is decided by the class count
    and by which kernel service fails first: 0 exactly when there is no
    class or the count is below [PRINT_EVENT_ID_MAX] and every service
    succeeds, [-ENODEV] exactly when the count passes and the symbol lookup
    fails, [-ENOMEM] exactly when count and lookup pass and the allocation
    of the store or the creation of a proc entry fails; there is no other
    value but [-EINVAL]. *)
Theorem init_return_value (id_size : Z) (env : init_env) (k : kernel) :
  let K := num_print_event_class (k_classes k) in
  let r := fst (print_event_init id_size env k) in
  (r = 0 <-> K = 0 \/ (K < PRINT_EVENT_ID_MAX id_size /\ env_symbol env = true /\
                       is_Some (env_alloc env) /\ env_mkdir env = true /\
                       env_create env = true))
  /\ (r = - ENODEV <-> K <> 0 /\ K < PRINT_EVENT_ID_MAX id_size /\ env_symbol env = false)
  /\ (r = - ENOMEM <-> K <> 0 /\ K < PRINT_EVENT_ID_MAX id_size /\ env_symbol env = true /\
                       (env_alloc env = None \/ env_mkdir env = false
                        \/ env_create env = false))
  /\ (r = 0 \/ r = - EINVAL \/ r = - ENODEV \/ r = - ENOMEM).
Proof.
  cbv zeta.
  destruct (print_event_init_cases id_size env k) as [Hcases _]. cbv zeta in Hcases.
  assert (forall o : option Z, is_Some o -> o = None -> False) as Hsome
    by (intros o [x ->]; discriminate).
  assert (forall o : option Z, o = None \/ is_Some o) as Hopt
    by (intros [x|]; [right; eauto|left; reflexivity]).
  unfold EINVAL, ENODEV, ENOMEM in *.
  destruct Hcases as [[HK Hr]|[(HK & Hmax & Hr)|(HK & Hmax & Hrest)]];
    [rewrite Hr; simpl fst|rewrite Hr; simpl fst|
     destruct Hrest as [(Hsym & Hr & _)
                       |[(Hsym & Halloc & Hr & _)
                        |[(Hsym & Halloc & Hmk & Hr & _)
                         |[(Hsym & Halloc & Hmk & Hcr & Hr & _)
                          |(Hsym & Halloc & Hmk & Hcr & Hr & _)]]]];
     rewrite Hr];
    (split; [|split; [|split]]); try split; intros;
    repeat match goal with
           | H : _ \/ _ |- _ => destruct H
           | H : _ /\ _ |- _ => destruct H
           end;
    try lia; try congruence; try (exfalso; eapply Hsome; eassumption);
    repeat split; auto 10; try lia.
Qed.

(** The class count [print_event_exit] reads is the one [print_event_init]
    read: start-up changes no length. *)
Lemma print_event_init_num_class (id_size : Z) (env : init_env) (k : kernel) :
  num_print_event_class (k_classes (snd (print_event_init id_size env k)))
  = num_print_event_class (k_classes k).
Proof.
  unfold print_event_init.
  destruct (num_print_event_class (k_classes k) =? 0); [reflexivity|].
  destruct (PRINT_EVENT_ID_MAX id_size <=? num_print_event_class (k_classes k));
    [reflexivity|].
  destruct env as [sym alloc mk cr]. unfold kallsyms_lookup_symbols. simpl.
  destruct sym; simpl; [|reflexivity].
  destruct alloc as [addr|]; simpl; [|reflexivity].
  destruct mk; simpl; [|reflexivity].
  destruct cr; simpl; [|reflexivity].
  unfold num_print_event_class. now rewrite assign_classes_length.
Qed.

(** The store after the services answered up to the allocation. *)
Lemma print_event_init_store (id_size : Z) (env : init_env) (k : kernel) :
  num_print_event_class (k_classes k) <> 0 ->
  num_print_event_class (k_classes k) < PRINT_EVENT_ID_MAX id_size ->
  env_symbol env = true ->
  is_Some (env_alloc env) ->
  let k1 := snd (print_event_init id_size env k) in
  k_ring_buffer k1 = env_alloc env /\
  k_store_cpu_buffers k1 = true /\
  k_store_struct k1 = env_mkdir env && env_create env.
Proof.
  intros HK Hmax Hsym [addr Halloc]. cbv zeta. unfold print_event_init.
  destruct (Z.eqb_spec (num_print_event_class (k_classes k)) 0) as [H0|_]; [contradiction|].
  destruct (Z.leb_spec (PRINT_EVENT_ID_MAX id_size) (num_print_event_class (k_classes k)))
    as [Hge|_]; [lia|].
  destruct env as [sym alloc mk cr]. simpl in Hsym, Halloc. subst sym alloc.
  unfold kallsyms_lookup_symbols. simpl.
  destruct mk; simpl; [|auto].
  destruct cr; simpl; auto.
Qed.

(** X11: start-up followed by shut-down.  When [print_event_init] returned
    0 on a module that had published nothing and held no store,
    [print_event_exit] leaves nothing published and no part of the store
    allocated.  It does not touch the classes or the static pointer, which
    still name the released store.  With no class both hooks leave the state
    as it was; otherwise shut-down adds the removal of the proc subtree and
    then [ring_buffer_free] to what start-up did. *)
Theorem init_then_exit (id_size : Z) (env : init_env) (k : kernel) :
  unpublished k -> no_store k ->
  fst (print_event_init id_size env k) = 0 ->
  let k1 := snd (print_event_init id_size env k) in
  let k2 := print_event_exit k1 in
  unpublished k2 /\ no_store k2
  /\ k_classes k2 = k_classes k1
  /\ k_ring_buffer k2 = k_ring_buffer k1
  /\ (num_print_event_class (k_classes k) = 0 -> k2 = k)
  /\ (num_print_event_class (k_classes k) <> 0 ->
      k_log k2 = k_log k1 ++ [RemoveProcSubtree; RingBufferFree]).
Proof.
  intros Hunp Hstore Hret. cbv zeta. unfold print_event_exit.
  rewrite print_event_init_num_class.
  destruct (Z.eqb_spec (num_print_event_class (k_classes k)) 0) as [HK|HK].
  - assert (snd (print_event_init id_size env k) = k) as ->.
    { unfold print_event_init. rewrite HK. reflexivity. }
    repeat split; try apply Hunp; try apply Hstore; auto. intros H. contradiction.
  - unfold unpublished, no_store. simpl.
    repeat split; auto; try contradiction.
    intros _. now rewrite <- app_assoc.
Qed.

(** X12: the error paths after the allocation.  When the store was
    allocated and [proc_mkdir] or [proc_create_data] fails,
    [print_event_init] returns [-ENOMEM] having released the
    [struct ring_buffer] with [kfree]: the per-CPU buffers of the store stay
    allocated, and the static pointer keeps the address of the released
    struct.  [ring_buffer_free] is not called on these paths. *)
Theorem init_rollback_keeps_cpu_buffers (id_size : Z) (env : init_env) (k : kernel) :
  num_print_event_class (k_classes k) <> 0 ->
  num_print_event_class (k_classes k) < PRINT_EVENT_ID_MAX id_size ->
  env_symbol env = true ->
  is_Some (env_alloc env) ->
  env_mkdir env = false \/ env_create env = false ->
  ~ In RingBufferFree (k_log k) ->
  let r := print_event_init id_size env k in
  fst r = - ENOMEM
  /\ k_store_struct (snd r) = false
  /\ k_store_cpu_buffers (snd r) = true
  /\ k_ring_buffer (snd r) = env_alloc env
  /\ In Kfree (k_log (snd r))
  /\ ~ In RingBufferFree (k_log (snd r)).
Proof.
  intros HK Hmax Hsym Halloc Hfail Hlog. cbv zeta.
  destruct (print_event_init_store id_size env k HK Hmax Hsym Halloc) as (Hrb & Hcpu & Hst).
  cbv zeta in Hrb, Hcpu, Hst.
  destruct (print_event_init_cases id_size env k) as [Hcases _]. cbv zeta in Hcases.
  assert (env_mkdir env && env_create env = false) as Hboth.
  { destruct Hfail as [-> | ->]; [reflexivity|apply andb_false_r]. }
  rewrite Hboth in Hst.
  assert (forall o : option Z, is_Some o -> o = None -> False) as Hsome
    by (intros o [x ->]; discriminate).
  destruct Hcases as [[H0 _]|[(_ & Hge & _)|(_ & _ & Hrest)]]; [contradiction|lia|].
  destruct Hrest as [(Hs & _)
                    |[(_ & Hnone & _)
                     |[(_ & _ & _ & Hr & Hl)
                      |[(_ & _ & _ & _ & Hr & _ & _ & Hl)
                       |(_ & _ & Hmk & Hcr & _)]]]].
  - congruence.
  - exfalso. eauto.
  - rewrite Hl. repeat split; auto.
    + apply in_or_app. right. simpl. auto.
    + intros Hin. apply in_app_or in Hin. destruct Hin as [Hin|Hin]; [auto|].
      simpl in Hin. intuition discriminate.
  - rewrite Hl. repeat split; auto.
    + apply in_or_app. right. simpl. auto 10.
    + intros Hin. apply in_app_or in Hin. destruct Hin as [Hin|Hin]; [auto|].
      simpl in Hin. intuition discriminate.
  - destruct Hfail; congruence.
Qed.

(** ** User buffers that cannot be written *)

(** What [trace_seq_to_user] answers on unflushed text, whatever part of the
    user buffer is writable. *)
Lemma to_user_partial (s : trace_seq) (ubuf_ok cnt : Z) :
  0 < cnt -> unflushed s = true ->
  let left := trace_seq_used s - sb_readpos (ts_seq s) in
  let n := if ubuf_ok <=? 0 then - EFAULT else Z.min (Z.min cnt left) ubuf_ok in
  trace_seq_to_user s ubuf_ok cnt =
    ({| ts_buffer := ts_buffer s;
        ts_seq := {| sb_size := sb_size (ts_seq s); sb_len := sb_len (ts_seq s);
                     sb_readpos := sb_readpos (ts_seq s) + Z.max n 0 |};
        ts_full := ts_full s |}, n,
     take (Z.to_nat n) (drop (Z.to_nat (sb_readpos (ts_seq s))) (ts_buffer s))).
Proof.
  intros Hcnt Hun. cbv zeta. unfold trace_seq_to_user. rewrite (unflushed_size _ Hun).
  unfold unflushed in Hun. rewrite (unflushed_size _ Hun) in Hun.
  apply Z.ltb_lt in Hun. unfold trace_seq_used in *. unfold seq_buf_to_user.
  destruct (Z.eqb_spec cnt 0) as [->|_]; [lia|].
  destruct (Z.leb_spec (seq_buf_used (ts_seq s)) (sb_readpos (ts_seq s))); [lia|].
  set (len := seq_buf_used (ts_seq s) - sb_readpos (ts_seq s)).
  set (c := if len <? cnt then len else cnt).
  assert (0 < c /\ c = Z.min cnt len) as [Hc Hcmin].
  { unfold c. destruct (Z.ltb_spec len cnt); lia. }
  rewrite <- Hcmin. unfold copy_to_user.
  destruct (Z.leb_spec ubuf_ok 0) as [Hbad|Hgood].
  - destruct (Z.eqb_spec (c - Z.min c (Z.max 0 ubuf_ok)) c) as [_|Hneq]; [|lia].
    unfold EFAULT. simpl. rewrite Z.add_0_r. destruct (ts_seq s). reflexivity.
  - destruct (Z.eqb_spec (c - Z.min c (Z.max 0 ubuf_ok)) c) as [Heq|_]; [lia|].
    replace (c - (c - Z.min c (Z.max 0 ubuf_ok))) with (Z.min c ubuf_ok) by lia.
    rewrite (Z.max_l (Z.min c ubuf_ok) 0) by lia. reflexivity.
Qed.

(** X13: a read call on a session that holds unflushed text, for any user
    buffer and a non-zero length within [MAX_RW_COUNT].  When not one byte of the buffer is writable it returns
    [-EFAULT], stores nothing and leaves the read position where it was, so
    the text is still there for the next call; otherwise it returns the
    smallest of the requested length, the length of the unflushed text and
    the number of writable bytes, hands out that many bytes from the read
    position on and advances the position by as much.  The store and the
    world are not touched in either case. *)
Theorem read_leftover_partial_copy (fuel : nat) (classes : class_table)
    (f_flags ubuf_ok cnt : Z) (iter : print_event_iterator) (w : world) :
  read_count_ok cnt -> 0 < cnt -> unflushed (it_seq iter) = true ->
  let left := trace_seq_used (it_seq iter) - sb_readpos (ts_seq (it_seq iter)) in
  let n := if ubuf_ok <=? 0 then - EFAULT else Z.min (Z.min cnt left) ubuf_ok in
  let r := trace_read_pipe fuel classes f_flags ubuf_ok cnt iter w in
  rr_outcome r = Returns n
  /\ rr_user r = take (Z.to_nat n)
                   (drop (Z.to_nat (sb_readpos (ts_seq (it_seq iter))))
                      (ts_buffer (it_seq iter)))
  /\ ts_buffer (it_seq (rr_iter r)) = ts_buffer (it_seq iter)
  /\ sb_len (ts_seq (it_seq (rr_iter r))) = sb_len (ts_seq (it_seq iter))
  /\ sb_readpos (ts_seq (it_seq (rr_iter r)))
     = sb_readpos (ts_seq (it_seq iter)) + Z.max n 0
  /\ rr_world r = w.
Proof.
  intros _ Hcnt Hun. cbv zeta.
  pose proof (to_user_partial (it_seq iter) ubuf_ok cnt Hcnt Hun) as Huser.
  cbv zeta in Huser.
  set (n := if ubuf_ok <=? 0 then - EFAULT
            else Z.min (Z.min cnt (trace_seq_used (it_seq iter)
                                   - sb_readpos (ts_seq (it_seq iter)))) ubuf_ok) in *.
  assert (n <> - EBUSY /\ n <= trace_seq_used (it_seq iter)
                               - sb_readpos (ts_seq (it_seq iter))) as [Hn Hle].
  { pose proof Hun as Hun'. unfold unflushed in Hun'.
    rewrite (unflushed_size _ Hun) in Hun'. apply Z.ltb_lt in Hun'.
    unfold n, EBUSY, EFAULT. destruct (Z.leb_spec ubuf_ok 0); lia. }
  rewrite (trace_read_pipe_flush _ _ _ _ _ _ _ _ _ _ Huser Hn). simpl.
  repeat split; auto.
Qed.

(** The format stage of a read call that finds records. *)
Lemma read_format_stage (fuel : nat) (classes : class_table)
    (renders : list (print_event_entry -> list ascii)) (cnt : Z) (buffer : ring_buffer) :
  0 < cnt ->
  is_trace_empty buffer = false ->
  line_classes classes renders ->
  (forall e, fst (fst (fst (__find_next_entry buffer))) = Some e ->
             0 < Z.of_nat (length (line_of renders e)) < PAGE_SIZE) ->
  (total_events buffer <= fuel)%nat ->
  exists k iter',
    (1 <= k)%nat /\ length (drain k buffer) = k
    /\ format_loop fuel classes cnt reset_iter buffer = Some (iter', after_drain k buffer)
    /\ seq_text (it_seq iter') = lines_of renders (drain k buffer)
    /\ sb_len (ts_seq (it_seq iter')) = Z.of_nat (length (lines_of renders (drain k buffer)))
    /\ 0 < sb_len (ts_seq (it_seq iter')) < PAGE_SIZE
    /\ sb_size (ts_seq (it_seq iter')) = PAGE_SIZE
    /\ sb_readpos (ts_seq (it_seq iter')) = 0
    /\ unflushed (it_seq iter') = true.
Proof.
  intros Hpos' Hne Hclasses Hfirst Hfuel.
  destruct (format_loop_lines_terminates fuel classes renders cnt reset_iter buffer
              Hclasses seq_clean_reset_iter Hfuel) as (iter' & buffer' & Hloop).
  destruct (format_loop_lines _ _ _ _ _ _ _ _ Hclasses seq_clean_reset_iter Hloop)
    as (k & Hb & Hk & Htext & Hlen & Hsz & Hlt & Hpos & Hstop & _).
  change (seq_text (it_seq reset_iter)) with (@nil ascii) in Htext.
  change (sb_len (ts_seq (it_seq reset_iter))) with 0 in Hlen.
  change (sb_readpos (ts_seq (it_seq reset_iter))) with 0 in Hpos.
  simpl in Htext. rewrite Z.add_0_l in Hlen.
  assert (1 <= k)%nat as Hk1.
  { destruct k as [|k]; [|lia]. exfalso. simpl in Hb. subst buffer'.
    simpl in Hlen. unfold lines_of in Hlen. simpl in Hlen.
    destruct Hstop as [H|[H|(e & He & Hfull)]]; [congruence|lia|].
    specialize (Hfirst e He). lia. }
  assert (0 < sb_len (ts_seq (it_seq iter'))) as Hlen1.
  { destruct (fst (fst (fst (__find_next_entry buffer)))) as [e|] eqn:He.
    - pose proof (lines_of_nonempty renders buffer k e He Hk1).
      specialize (Hfirst e eq_refl). lia.
    - apply next_entry_none in He. congruence. }
  exists k, iter'. subst buffer'.
  split; [exact Hk1|]. split; [exact Hk|]. split; [exact Hloop|].
  split; [exact Htext|]. split; [exact Hlen|]. split; [lia|].
  split; [exact Hsz|]. split; [exact Hpos|].
  unfold unflushed, __trace_seq_init. rewrite Hsz. change (PAGE_SIZE =? 0) with false.
  cbv iota zeta. unfold trace_seq_used, seq_buf_used. rewrite Hpos, Hsz.
  apply Z.ltb_lt. lia.
Qed.

(** X14: a read call that finds records in the store but may not write one
    byte of the user buffer returns [-EFAULT] and stores nothing; the
    records it formatted are out of the store all the same, and their lines
    stay in the session, unflushed from position 0, for the next call to
    hand out. *)
Theorem read_fault_keeps_lines (fuel : nat) (classes : class_table)
    (renders : list (print_event_entry -> list ascii))
    (f_flags ubuf_ok cnt : Z) (iter : print_event_iterator) (w : world) :
  read_count_ok cnt -> cnt <> 0 ->
  unflushed (it_seq iter) = false -> w_signal w = false ->
  is_trace_empty (w_buffer w) = false ->
  line_classes classes renders ->
  (forall e, fst (fst (fst (__find_next_entry (w_buffer w)))) = Some e ->
             0 < Z.of_nat (length (line_of renders e)) < PAGE_SIZE) ->
  (total_events (w_buffer w) <= fuel)%nat ->
  ubuf_ok <= 0 ->
  let r := trace_read_pipe fuel classes f_flags ubuf_ok cnt iter w in
  exists k,
    (1 <= k)%nat /\ length (drain k (w_buffer w)) = k
    /\ rr_outcome r = Returns (- EFAULT) /\ rr_user r = []
    /\ w_buffer (rr_world r) = after_drain k (w_buffer w)
    /\ seq_text (it_seq (rr_iter r)) = lines_of renders (drain k (w_buffer w))
    /\ sb_readpos (ts_seq (it_seq (rr_iter r))) = 0
    /\ unflushed (it_seq (rr_iter r)) = true.
Proof.
  intros [Hcnt _] Hnz Hun Hsig Hne Hclasses Hfirst Hfuel Hbad. cbv zeta.
  destruct (trace_read_pipe_past_flush fuel classes f_flags ubuf_ok cnt iter w Hnz Hun)
    as (iter0 & ->).
  rewrite waitagain_eq, (trace_wait_pipe_ready _ _ Hne), Hsig, Hne.
  change (1 <=? 0) with false. cbv iota zeta.
  set (cnt' := if PAGE_SIZE <=? cnt then PAGE_SIZE - 1 else cnt).
  assert (0 < cnt') as Hpos'.
  { unfold cnt', PAGE_SIZE. destruct (Z.leb_spec 4096 cnt); lia. }
  destruct (read_format_stage fuel classes renders cnt' (w_buffer w)
              Hpos' Hne Hclasses Hfirst Hfuel)
    as (k & iter' & Hk1 & Hk & Hloop & Htext & Hlen & Hlt & Hsz & Hpos & Hun').
  rewrite Hloop.
  pose proof (to_user_partial (it_seq iter') ubuf_ok cnt' Hpos' Hun') as Huser.
  cbv zeta in Huser.
  destruct (Z.leb_spec ubuf_ok 0) as [_|Hgood]; [|lia].
  rewrite Huser. change (Z.max (- EFAULT) 0) with 0. rewrite Z.add_0_r.
  change (Z.to_nat (- EFAULT)) with O. rewrite take_0.
  unfold trace_seq_used, seq_buf_used. cbn [ts_seq sb_readpos sb_len sb_size].
  destruct (Z.leb_spec (Z.min (sb_len (ts_seq (it_seq iter'))) (sb_size (ts_seq (it_seq iter'))))
              (sb_readpos (ts_seq (it_seq iter')))) as [Hle|_]; [lia|].
  change (- EFAULT =? - EBUSY) with false. cbv iota.
  cbn [rr_outcome rr_user rr_iter rr_world w_buffer set_seq it_seq].
  exists k. split; [exact Hk1|]. split; [exact Hk|].
  split; [reflexivity|]. split; [reflexivity|]. split; [reflexivity|].
  split; [exact Htext|]. split; [exact Hpos|].
  unfold unflushed, __trace_seq_init, trace_seq_used, seq_buf_used.
  cbn [ts_seq sb_size sb_len sb_readpos]. rewrite Hsz.
  change (PAGE_SIZE =? 0) with false.
  cbn [ts_seq sb_size sb_len sb_readpos].
  apply Z.ltb_lt. lia.
Qed.

(** ** An empty store *)

(** X15: [is_trace_empty] returns 1 exactly when no CPU of the store holds
    an event, which is exactly when [__find_next_entry] finds no entry: the
    two tests of the read path on the store agree. *)
Theorem is_trace_empty_no_events (buffer : ring_buffer) :
  (is_trace_empty buffer = true <-> total_events buffer = O)
  /\ (is_trace_empty buffer = true <-> fst (fst (fst (__find_next_entry buffer))) = None).
Proof.
  split; split.
  - intros H. apply total_events_zero. now apply is_trace_empty_true.
  - intros Htot. apply is_trace_empty_true. intros cpu.
    destruct (oldest buffer cpu) as [e|] eqn:He; [|reflexivity].
    pose proof (consume_total_events _ _ _ He) as Hc. lia.
  - intros H. now rewrite (find_next_entry_empty _ H).
  - apply next_entry_none.
Qed.

(** ** The properties above on the sample data *)

Lemma three_classes_lines : line_classes three_classes three_renders.
Proof.
  unfold line_classes, three_classes, three_renders.
  repeat (constructor; [apply printf_format_appends_line|]).
  constructor.
Qed.

Lemma printf_format_never_no_consume (render : print_event_entry -> list ascii) :
  never_no_consume [ {| cls_id := 0; cls_format := printf_format render;
                        cls_buffer := Some 1 |} ].
Proof.
  intros c s e [<-|[]]. simpl. unfold printf_format, trace_handle_return. simpl.
  destruct (trace_seq_has_overflowed _); discriminate.
Qed.

Lemma two_cpu_store_first_line (e : print_event_entry) :
  fst (fst (fst (__find_next_entry two_cpu_store))) = Some e ->
  0 < Z.of_nat (length (line_of three_renders e)) < PAGE_SIZE.
Proof. intros [= <-]. vm_compute. split; reflexivity. Qed.

Lemma format_loop_terminates_witness :
  never_no_consume [sample_class]
  /\ (total_events two_cpu_store <= 3)%nat
  /\ exists iter' buffer',
       format_loop 3 [sample_class] 100 trace_open_pipe two_cpu_store
       = Some (iter', buffer').
Proof.
  assert (never_no_consume [sample_class]) as Hnever
    by apply printf_format_never_no_consume.
  assert (total_events two_cpu_store <= 3)%nat as Hfuel by (vm_compute; lia).
  split; [exact Hnever|]. split; [exact Hfuel|].
  exact (format_loop_terminates 3 [sample_class] 100 trace_open_pipe two_cpu_store
           Hnever Hfuel).
Defined.

Lemma format_loop_writes_lines_witness :
  line_classes three_classes three_renders
  /\ seq_clean (it_seq reset_iter)
  /\ exists iter' buffer' k,
       format_loop 3 three_classes 100 reset_iter two_cpu_store = Some (iter', buffer')
       /\ buffer' = after_drain k two_cpu_store
       /\ length (drain k two_cpu_store) = k
       /\ seq_text (it_seq iter')
          = seq_text (it_seq reset_iter) ++ lines_of three_renders (drain k two_cpu_store).
Proof.
  pose proof three_classes_lines as Hclasses.
  pose proof seq_clean_reset_iter as Hclean.
  destruct (format_loop_lines_terminates 3 three_classes three_renders 100 reset_iter
              two_cpu_store Hclasses Hclean ltac:(vm_compute; lia))
    as (iter' & buffer' & Hloop).
  destruct (format_loop_writes_lines 3 three_classes three_renders 100 reset_iter iter'
              two_cpu_store buffer' Hclasses Hclean Hloop) as (k & Hb & Hk & Htext & _).
  split; [exact Hclasses|]. split; [exact Hclean|].
  exists iter', buffer', k. auto.
Defined.

Lemma format_loop_stops_when_witness :
  line_classes three_classes three_renders
  /\ seq_clean (it_seq reset_iter)
  /\ sb_len (ts_seq (it_seq reset_iter)) < 6
  /\ exists iter' buffer' k,
       format_loop 3 three_classes 6 reset_iter two_cpu_store = Some (iter', buffer')
       /\ buffer' = after_drain k two_cpu_store
       /\ sb_len (ts_seq (it_seq iter'))
          = sb_len (ts_seq (it_seq reset_iter))
            + Z.of_nat (length (lines_of three_renders (drain k two_cpu_store))).
Proof.
  pose proof three_classes_lines as Hclasses.
  pose proof seq_clean_reset_iter as Hclean.
  assert (sb_len (ts_seq (it_seq reset_iter)) < 6) as Hlt by reflexivity.
  destruct (format_loop_lines_terminates 3 three_classes three_renders 6 reset_iter
              two_cpu_store Hclasses Hclean ltac:(vm_compute; lia))
    as (iter' & buffer' & Hloop).
  destruct (format_loop_stops_when 3 three_classes three_renders 6 reset_iter iter'
              two_cpu_store buffer' Hclasses Hclean Hlt Hloop) as (k & Hb & Hlen & _).
  split; [exact Hclasses|]. split; [exact Hclean|]. split; [exact Hlt|].
  exists iter', buffer', k. auto.
Defined.

Lemma read_delivers_lines_witness :
  read_count_ok 100
  /\ is_trace_empty (w_buffer (quiet_world two_cpu_store false)) = false
  /\ line_classes three_classes three_renders
  /\ exists k,
       (1 <= k)%nat
       /\ rr_outcome (trace_read_pipe 5 three_classes 0 100 100 trace_open_pipe
                        (quiet_world two_cpu_store false))
          = Returns (Z.min (Z.min 100 (PAGE_SIZE - 1))
                       (Z.of_nat (length (lines_of three_renders
                                            (drain k two_cpu_store)))))
       /\ w_buffer (rr_world (trace_read_pipe 5 three_classes 0 100 100 trace_open_pipe
                                (quiet_world two_cpu_store false)))
          = after_drain k two_cpu_store.
Proof.
  assert (read_count_ok 100) as Hcnt by (unfold read_count_ok, MAX_RW_COUNT; lia).
  assert (is_trace_empty (w_buffer (quiet_world two_cpu_store false)) = false) as Hne
    by reflexivity.
  pose proof three_classes_lines as Hclasses.
  destruct (read_delivers_lines 5 three_classes three_renders 0 100 100 trace_open_pipe
              (quiet_world two_cpu_store false) Hcnt ltac:(lia) eq_refl eq_refl Hne
              Hclasses two_cpu_store_first_line ltac:(vm_compute; lia)
              ltac:(vm_compute; discriminate))
    as (k & Hk1 & _ & Hout & _ & _ & Hw).
  split; [exact Hcnt|]. split; [exact Hne|]. split; [exact Hclasses|].
  exists k. split; [exact Hk1|]. split; [exact Hout|].
  rewrite Hw. reflexivity.
Defined.

Lemma leftover_delivered_in_order_witness :
  read_count_ok 3
  /\ unflushed (it_seq (rr_iter (first_read 0))) = true
  /\ exists n1 n2,
       rr_outcome (trace_read_pipe 5 [sample_class] 0 100 3
                     (rr_iter (first_read 0)) (rr_world (first_read 0))) = Returns n1
       /\ 0 <= n1 /\ 0 <= n2
       /\ rr_world (trace_read_pipe 5 [sample_class] 0 100 3
                      (rr_iter (trace_read_pipe 5 [sample_class] 0 100 3
                                  (rr_iter (first_read 0)) (rr_world (first_read 0))))
                      (rr_world (trace_read_pipe 5 [sample_class] 0 100 3
                                   (rr_iter (first_read 0)) (rr_world (first_read 0)))))
          = rr_world (first_read 0).
Proof.
  assert (read_count_ok 3) as Hcnt by (unfold read_count_ok, MAX_RW_COUNT; lia).
  assert (unflushed (it_seq (rr_iter (first_read 0))) = true) as Hun
    by (vm_compute; reflexivity).
  destruct (leftover_delivered_in_order 5 5 [sample_class] 0 0 100 100 3 3
              (rr_iter (first_read 0)) (rr_world (first_read 0))
              Hcnt Hcnt ltac:(lia) ltac:(lia) ltac:(vm_compute; discriminate) Hun
              ltac:(vm_compute; reflexivity))
    as (n1 & n2 & Hr1 & _ & Hn1 & Hn2 & _ & _ & Hw).
  split; [exact Hcnt|]. split; [exact Hun|].
  exists n1, n2. auto.
Defined.

Lemma trace_wait_pipe_blocking_witness :
  nonblocking 0 = false
  /\ Forall (fun wk => wake_ret wk = 0) (w_future two_wake_world)
  /\ match trace_wait_pipe 0 (w_buffer two_wake_world) (w_signal two_wake_world)
             (w_waits two_wake_world) (w_future two_wake_world) with
     | Some (sret, w') =>
         sret = 1 /\ is_trace_empty (w_buffer w') = false /\
         exists n,
           (w_buffer two_wake_world :: map wake_buffer (w_future two_wake_world)) !! n
           = Some (w_buffer w') /\
           (forall i b, (i < n)%nat ->
              (w_buffer two_wake_world :: map wake_buffer (w_future two_wake_world)) !! i
              = Some b ->
              is_trace_empty b = true) /\
           w_waits w' = (w_waits two_wake_world + n)%nat /\
           w_future w' = drop n (w_future two_wake_world)
     | None =>
         Forall (fun b => is_trace_empty b = true)
           (w_buffer two_wake_world :: map wake_buffer (w_future two_wake_world))
     end.
Proof.
  assert (nonblocking 0 = false) as Hnb by reflexivity.
  assert (Forall (fun wk => wake_ret wk = 0) (w_future two_wake_world)) as Hzero
    by (repeat constructor).
  split; [exact Hnb|]. split; [exact Hzero|].
  exact (trace_wait_pipe_blocking 0 two_wake_world Hnb Hzero).
Defined.

Lemma read_after_wake_witness :
  read_count_ok 100
  /\ is_trace_empty (w_buffer two_wake_world) = true
  /\ rr_outcome (trace_read_pipe 5 [sample_class] 0 100 100 trace_open_pipe two_wake_world)
     = rr_outcome (trace_read_pipe 5 [sample_class] 0 100 100 trace_open_pipe
                     {| w_buffer := empty_store; w_signal := false;
                        w_future := [ {| wake_ret := 0; wake_buffer := one_record_store;
                                         wake_signal := false |} ];
                        w_waits := 1 |})
  /\ rr_user (trace_read_pipe 5 [sample_class] 0 100 100 trace_open_pipe two_wake_world)
     = rr_user (trace_read_pipe 5 [sample_class] 0 100 100 trace_open_pipe
                  {| w_buffer := empty_store; w_signal := false;
                     w_future := [ {| wake_ret := 0; wake_buffer := one_record_store;
                                      wake_signal := false |} ];
                     w_waits := 1 |}).
Proof.
  assert (read_count_ok 100) as Hcnt by (unfold read_count_ok, MAX_RW_COUNT; lia).
  assert (is_trace_empty (w_buffer two_wake_world) = true) as Hempty by reflexivity.
  destruct (read_after_wake 5 [sample_class] 0 100 100 trace_open_pipe two_wake_world
              {| wake_ret := 0; wake_buffer := empty_store; wake_signal := false |}
              [ {| wake_ret := 0; wake_buffer := one_record_store;
                   wake_signal := false |} ]
              Hcnt ltac:(lia) eq_refl eq_refl Hempty eq_refl eq_refl eq_refl eq_refl)
    as (Hout & Huser & _).
  split; [exact Hcnt|]. split; [exact Hempty|]. split; [exact Hout|exact Huser].
Defined.

Lemma read_ebusy_means_cancelled_witness :
  rr_outcome (trace_read_pipe 5 [sample_class] 0 100 100 trace_open_pipe
                (quiet_world one_record_store true)) = Returns (- EBUSY)
  /\ w_signal (rr_world (trace_read_pipe 5 [sample_class] 0 100 100 trace_open_pipe
                           (quiet_world one_record_store true))) = true.
Proof.
  assert (rr_outcome (trace_read_pipe 5 [sample_class] 0 100 100 trace_open_pipe
                        (quiet_world one_record_store true)) = Returns (- EBUSY)) as Hout
    by (vm_compute; reflexivity).
  split; [exact Hout|].
  apply (read_ebusy_means_cancelled 5 [sample_class] 0 100 100 trace_open_pipe
           (quiet_world one_record_store true)); [intros []|exact Hout].
Defined.

Lemma init_then_exit_witness :
  unpublished (fresh_kernel [sample_class])
  /\ no_store (fresh_kernel [sample_class])
  /\ fst (print_event_init 1 good_env (fresh_kernel [sample_class])) = 0
  /\ unpublished (print_event_exit
                    (snd (print_event_init 1 good_env (fresh_kernel [sample_class]))))
  /\ no_store (print_event_exit
                 (snd (print_event_init 1 good_env (fresh_kernel [sample_class]))))
  /\ k_log (print_event_exit
              (snd (print_event_init 1 good_env (fresh_kernel [sample_class]))))
     = k_log (snd (print_event_init 1 good_env (fresh_kernel [sample_class])))
       ++ [RemoveProcSubtree; RingBufferFree].
Proof.
  assert (unpublished (fresh_kernel [sample_class])) as Hunp by (split; reflexivity).
  assert (no_store (fresh_kernel [sample_class])) as Hstore by (split; reflexivity).
  assert (fst (print_event_init 1 good_env (fresh_kernel [sample_class])) = 0) as Hret
    by reflexivity.
  destruct (init_then_exit 1 good_env (fresh_kernel [sample_class]) Hunp Hstore Hret)
    as (Hunp' & Hstore' & _ & _ & _ & Hlog).
  split; [exact Hunp|]. split; [exact Hstore|]. split; [exact Hret|].
  split; [exact Hunp'|]. split; [exact Hstore'|].
  apply Hlog. vm_compute. discriminate.
Defined.

Lemma init_rollback_keeps_cpu_buffers_witness :
  num_print_event_class (k_classes (fresh_kernel [sample_class])) < PRINT_EVENT_ID_MAX 1
  /\ env_mkdir no_mkdir_env = false
  /\ fst (print_event_init 1 no_mkdir_env (fresh_kernel [sample_class])) = - ENOMEM
  /\ k_store_struct (snd (print_event_init 1 no_mkdir_env (fresh_kernel [sample_class])))
     = false
  /\ k_store_cpu_buffers
       (snd (print_event_init 1 no_mkdir_env (fresh_kernel [sample_class]))) = true.
Proof.
  assert (num_print_event_class (k_classes (fresh_kernel [sample_class]))
          < PRINT_EVENT_ID_MAX 1) as Hmax by reflexivity.
  assert (env_mkdir no_mkdir_env = false) as Hmk by reflexivity.
  destruct (init_rollback_keeps_cpu_buffers 1 no_mkdir_env (fresh_kernel [sample_class])
              ltac:(vm_compute; discriminate) Hmax eq_refl ltac:(eexists; reflexivity)
              (or_introl Hmk) ltac:(intros []))
    as (Hret & Hst & Hcpu & _).
  split; [exact Hmax|]. split; [exact Hmk|]. split; [exact Hret|].
  split; [exact Hst|exact Hcpu].
Defined.

Lemma read_leftover_partial_copy_witness :
  read_count_ok 100
  /\ unflushed (it_seq (rr_iter (first_read 0))) = true
  /\ rr_outcome (trace_read_pipe 5 [sample_class] 0 0 100
                   (rr_iter (first_read 0)) (rr_world (first_read 0)))
     = Returns (- EFAULT)
  /\ rr_outcome (trace_read_pipe 5 [sample_class] 0 2 100
                   (rr_iter (first_read 0)) (rr_world (first_read 0)))
     = Returns 2
  /\ sb_readpos (ts_seq (it_seq (rr_iter
       (trace_read_pipe 5 [sample_class] 0 2 100
          (rr_iter (first_read 0)) (rr_world (first_read 0))))))
     = sb_readpos (ts_seq (it_seq (rr_iter (first_read 0)))) + 2.
Proof.
  assert (read_count_ok 100) as Hcnt by (unfold read_count_ok, MAX_RW_COUNT; lia).
  assert (unflushed (it_seq (rr_iter (first_read 0))) = true) as Hun
    by (vm_compute; reflexivity).
  destruct (read_leftover_partial_copy 5 [sample_class] 0 0 100
              (rr_iter (first_read 0)) (rr_world (first_read 0)) Hcnt ltac:(lia) Hun)
    as (Hfault & _).
  destruct (read_leftover_partial_copy 5 [sample_class] 0 2 100
              (rr_iter (first_read 0)) (rr_world (first_read 0)) Hcnt ltac:(lia) Hun)
    as (Hpart & _ & _ & _ & Hpos & _).
  split; [exact Hcnt|]. split; [exact Hun|]. split; [exact Hfault|]. split.
  - rewrite Hpart. vm_compute. reflexivity.
  - rewrite Hpos. vm_compute. reflexivity.
Defined.

Lemma read_fault_keeps_lines_witness :
  read_count_ok 100
  /\ is_trace_empty (w_buffer (quiet_world two_cpu_store false)) = false
  /\ exists k,
       (1 <= k)%nat
       /\ rr_outcome (trace_read_pipe 5 three_classes 0 0 100 trace_open_pipe
                        (quiet_world two_cpu_store false)) = Returns (- EFAULT)
       /\ seq_text (it_seq (rr_iter (trace_read_pipe 5 three_classes 0 0 100
                                       trace_open_pipe
                                       (quiet_world two_cpu_store false))))
          = lines_of three_renders (drain k two_cpu_store)
       /\ unflushed (it_seq (rr_iter (trace_read_pipe 5 three_classes 0 0 100
                                        trace_open_pipe
                                        (quiet_world two_cpu_store false)))) = true.
Proof.
  assert (read_count_ok 100) as Hcnt by (unfold read_count_ok, MAX_RW_COUNT; lia).
  assert (is_trace_empty (w_buffer (quiet_world two_cpu_store false)) = false) as Hne
    by reflexivity.
  destruct (read_fault_keeps_lines 5 three_classes three_renders 0 0 100 trace_open_pipe
              (quiet_world two_cpu_store false) Hcnt ltac:(lia) eq_refl eq_refl Hne
              three_classes_lines two_cpu_store_first_line ltac:(vm_compute; lia)
              ltac:(lia))
    as (k & Hk1 & _ & Hout & _ & _ & Htext & _ & Hun).
  split; [exact Hcnt|]. split; [exact Hne|].
  exists k. auto.
Defined.
